(** * Layer restoration and stack validation of the lifecycle

    A shallow embedding of [stack_validation.go], [restorer.go] and of the
    analyzer command ([cmd/lifecycle/analyzer.go]), and the properties of
    the restore and stack-validation phases proved about it.

    Go values are rendered as follows: a Go [error] is an [option error]
    ([None] is [nil]); a pair [(v, err)] stays a pair; methods carry the
    name of their receiver ([Restorer_Restore] is the method [Restore] of [Restorer]);
    a [panic] is an outcome of its own. *)

From Stdlib Require Import Ascii String ZArith NArith List Permutation Lia.
From stdpp Require Import base option gmap strings list sorting pretty.

Open Scope string_scope.

(* ================================================================== *)
(** * Part I: the model                                                *)
(* ================================================================== *)

(** ** Errors ([github.com/pkg/errors] and the [cmd] package) *)

Inductive ExitCode : Type :=
| CodeFailed
| CodeInvalidArgs.

Inductive error : Type :=
| errors_New (msg : string)                       (* errors.New(msg) *)
| errors_Wrap (err : error) (msg : string)        (* errors.Wrap(err, msg) *)
| cmd_FailErr (err : error) (action : string)     (* cmd.FailErr(err, action) *)
| cmd_FailErrCode (err : error) (code : ExitCode) (action : string).

(** [fmt.Sprintf] for the verbs the sources use on strings: every [%s]
    takes the next argument. *)
Fixpoint Sprintf (format : string) (args : list string) : string :=
  match format with
  | EmptyString => EmptyString
  | String "%" (String "s" rest) =>
      match args with
      | a :: args' => a +:+ Sprintf rest args'
      | [] => "%!s(MISSING)" +:+ Sprintf rest []
      end
  | String c rest => String c (Sprintf rest args)
  end.

(** ** Package [api]: API versions *)

Module api.

Record Version : Type := { major : N; minor : N }.

Definition is_digit (c : ascii) : bool :=
(48 <=? N_of_ascii c)%N && (N_of_ascii c <=? 57)%N.

(** The longest prefix of decimal digits, and what follows it. *)
Fixpoint span_digits (s : string) : string * string :=
match s with
| String c rest =>
    if is_digit c
    then let '(ds, tl) := span_digits rest in (String c ds, tl)
    else (EmptyString, s)
| EmptyString => (EmptyString, EmptyString)
end.

Definition uint64_max : N := 18446744073709551615%N.

Fixpoint ParseUint_from (acc : N) (s : string) : option N :=
match s with
| EmptyString => Some acc
| String c rest =>
    if is_digit c
    then let acc' := (acc * 10 + (N_of_ascii c - 48))%N in
         if (acc' <=? uint64_max)%N then ParseUint_from acc' rest else None
    else None
end.

(** [strconv.ParseUint(s, 10, 64)]. *)
Definition ParseUint (s : string) : option N :=
match s with
| EmptyString => None
| _ => ParseUint_from 0%N s
end.

(** Modelled from the spec: [api.NewVersion], which is not part of the
  sources at hand.  The spec only speaks of versions such as 0.6, 0.7
  and 0.8 and of one being at least another; a version is read as an
  optional [v], a decimal major number and an optional dot and minor
  number (an absent minor number is 0). *)
Definition NewVersion (v : string) : option Version :=
let body := match v with
            | String "v" rest => rest
            | _ => v
            end in
let '(maj, rest) := span_digits body in
let rest' := match rest with
             | String "." r => r
             | _ => rest
             end in
let '(mnr, junk) := span_digits rest' in
match junk with
| EmptyString =>
    match ParseUint maj with
    | Some ma =>
        match mnr with
        | EmptyString => Some {| major := ma; minor := 0%N |}
        | _ => match ParseUint mnr with
               | Some mi => Some {| major := ma; minor := mi |}
               | None => None
               end
        end
    | None => None
    end
| _ => None
end.

(** [api.MustParse] panics where [NewVersion] fails: [None] is the panic. *)
Definition MustParse (v : string) : option Version := NewVersion v.

(** Modelled from the spec: [Version.Compare], not part of the sources
  at hand: major numbers first, then minor numbers. *)
Definition Compare (v o : Version) : Z :=
if negb (major v =? major o)%N
then (if (major v <? major o)%N then (-1)%Z else 1%Z)
else if negb (minor v =? minor o)%N
     then (if (minor v <? minor o)%N then (-1)%Z else 1%Z)
     else 0%Z.

(** [v.AtLeast(o)]; [None] when parsing [o] panics. *)
Definition AtLeast (v : Version) (o : string) : option bool :=
match MustParse o with
| Some ov => Some (0 <=? Compare v ov)%Z
| None => None
end.
End api.

(** ** Package [cmd]: the platform handle and the name of the override *)

Module cmd.
Record Platform : Type := { API : string }.
Definition EnvStackID : string := "CNB_STACK_ID".
End cmd.

(** ** Package [imgutil]: an image, of which only [Label] is used *)

Module imgutil.
Record Image : Type :=
  { Name : string;
    Label : string -> string * option error }.
End imgutil.

(** ** Package [platform]: stack metadata and cache metadata *)

Module platform.
Record BuildImageMetadata : Type := { StackID : string }.

Record RunImageMetadata : Type := { Image : string; Mirrors : list string }.

Record StackMetadata : Type :=
  { RunImage : RunImageMetadata; BuildImage : BuildImageMetadata }.

Definition StackIDLabel : string := "io.buildpacks.stack.id".

(** A cached layer record: its content hash and its flags. *)
Record BuildpackLayerMetadata : Type :=
  { SHA : string; Build : bool; Launch : bool; Cache : bool }.

Record BuildpackLayersMetadata : Type :=
  { Layers : gmap string BuildpackLayerMetadata }.

(** Cache metadata: buildpack ID to the records of its layers. *)
Record CacheMetadata : Type :=
  { Buildpacks : gmap string BuildpackLayersMetadata }.

Definition CacheMetadata_empty : CacheMetadata := {| Buildpacks := ∅ |}.

(** Modelled from the spec: [CacheMetadata.MetadataForBuildpack], not
    part of the sources at hand: the layer map of the buildpack, the
    empty map if it has none. *)
Definition MetadataForBuildpack (cm : CacheMetadata) (id : string)
  : BuildpackLayersMetadata :=
  default {| Layers := ∅ |} (Buildpacks cm !! id).

(** The layers metadata of the previous image, which only the metadata
    restorer reads. *)
Record LayersMetadata : Type := { App : gmap string BuildpackLayersMetadata }.
End platform.

(** ** [stack_validation.go] *)

Section StackValidation.
(** [os.Getenv]. *)
Variable Getenv : string -> string.

Definition getBuildStack (stackMD : platform.StackMetadata) : string * option error :=
  let buildStackID := Getenv cmd.EnvStackID in
  let buildStackID :=
    if bool_decide (buildStackID = "")
    then platform.StackID (platform.BuildImage stackMD)
    else buildStackID in
  if bool_decide (buildStackID = "")
  then ("", Some (errors_New
          "CNB_STACK_ID is required when there is no stack metadata available"))
  else (buildStackID, None).

Definition ValidateStack (stackMD : platform.StackMetadata) (runImage : imgutil.Image)
  : option error :=
  match getBuildStack stackMD with
  | (_, Some err) => Some err
  | (buildStackID, None) =>
      match imgutil.Label runImage platform.StackIDLabel with
      | (_, Some err) => Some (errors_Wrap err "get run image label")
      | (runStackID, None) =>
          if bool_decide (runStackID = "")
          then Some (errors_New "get run image label: io.buildpacks.stack.id")
          else if bool_decide (buildStackID <> runStackID)
               then Some (errors_New
                      (Sprintf "incompatible stack: '%s' is not compatible with '%s'"
                               [runStackID; buildStackID]))
               else None
      end
  end.
End StackValidation.

(** ** Control flow of a Go function body

    A statement of a function whose result type is [R] runs on a state
    [S] and either goes on with a value ([Next]), leaves the function
    ([Return], an early [return]) or panics. *)

Inductive Step (R A : Type) : Type :=
| Next (a : A)
| Return (r : R)
| Panic.
Arguments Next {R A} a.
Arguments Return {R A} r.
Arguments Panic {R A}.

Definition Go (S R A : Type) : Type := S -> S * Step R A.

Definition ret {S R A} (a : A) : Go S R A := fun s => (s, Next a).

Definition bind {S R A B} (m : Go S R A) (k : A -> Go S R B) : Go S R B :=
  fun s => match m s with
           | (s', Next a) => k a s'
           | (s', Return r) => (s', Return r)
           | (s', Panic) => (s', Panic)
           end.

Definition return_ {S R A} (r : R) : Go S R A := fun s => (s, Return r).
Definition panic {S R A} : Go S R A := fun s => (s, Panic).
Definition get {S R} : Go S R S := fun s => (s, Next s).
Definition modify {S R} (f : S -> S) : Go S R unit := fun s => (f s, Next tt).

Declare Scope go_scope.
Delimit Scope go_scope with go.
Notation "x <- c ;; k" := (bind c (fun x => k))
  (at level 100, c at next level, right associativity) : go_scope.
Notation "'let*' p := c 'in' k" := (bind c (fun x => let 'p := x in k))
  (at level 100, p pattern, c at next level, right associativity) : go_scope.
Notation "c ;;; k" := (bind c (fun _ => k))
  (at level 100, right associativity) : go_scope.

(** What the caller of a function sees. *)
Inductive Outcome (R : Type) : Type :=
| Returned (r : R)
| Panicked.
Arguments Returned {R} r.
Arguments Panicked {R}.

(** Running a function body whose last statement yields the result. *)
Definition run {S R} (body : Go S R R) (s : S) : S * Outcome R :=
  match body s with
  | (s', Next r) => (s', Returned r)
  | (s', Return r) => (s', Returned r)
  | (s', Panic) => (s', Panicked)
  end.

(** A call of a function from the body of another one. *)
Definition call {S R R'} (body : Go S R R) : Go S R' R :=
  fun s => match run body s with
           | (s', Returned r) => (s', Next r)
           | (s', Panicked) => (s', Panic)
           end.

(** [for _, x := range l { body }]. *)
Fixpoint for_range {S R A} (l : list A) (body : A -> Go S R unit) : Go S R unit :=
  match l with
  | [] => ret tt
  | x :: l' => bind (body x) (fun _ => for_range l' body)
  end.

(** [defer cleanup] at the head of [body]: the cleanup runs when the body
    is left, however it is left, and the body's outcome stands. *)
Definition defer {S R A} (cleanup : S -> S) (body : Go S R A) : Go S R A :=
  fun s => let '(s', r) := body s in (cleanup s', r).

(** A value that panics when absent ([MustParse], a nil dereference). *)
Definition must {S R A} (o : option A) : Go S R A :=
  match o with
  | Some a => ret a
  | None => panic
  end.

(** ** [cmd/lifecycle/analyzer.go]: stack validation of the analyzer *)

Definition emit {E R} (e : E) : Go (list E) R unit :=
  modify (fun tr => (tr ++ [e])%list).

Open Scope go_scope.

Module main.

(** A parsed image reference ([name.Reference]); only the registry of its
  context is used. *)
Record name_Reference : Type := { RegistryStr : string }.

(** The fields of [analyzeCmd] (with the embedded [analyzeArgs]) that stack
  validation reads. *)
Record analyzeCmd : Type :=
{ imageName : string;
  runImageRef : string;
  stackPath : string;
  useDaemon : bool;
  platform : cmd.Platform }.

(** What the analyzer reaches outside itself: the environment, the stack
  metadata file, reference parsing, mirror selection and the image
  clients. *)
Record AnalyzerEnv : Type :=
{ os_Getenv : string -> string;
  toml_DecodeFile : string -> platform.StackMetadata * option error;
  os_IsNotExist : error -> bool;
  name_ParseReference : string -> name_Reference * option error;
  BestRunImageMirror : platform.StackMetadata -> string -> string * option error;
  local_NewImage : string -> option imgutil.Image * option error;
  remote_NewImage : string -> option imgutil.Image * option error }.

(** The calls the analyzer makes, in order. *)
Inductive AnalyzerEvent : Type :=
| EvDecodeFile (path : string)
| EvGetenv (name : string)
| EvParseReference (s : string)
| EvBestRunImageMirror (registry : string)
| EvLocalNewImage (ref : string)
| EvRemoteNewImage (ref : string)
| EvLabel (ref : string) (label : string).

Section Analyzer.
Variable env : AnalyzerEnv.
Variable a : analyzeCmd.

Definition analyzeCmd_platformAPIVersionGreaterThan06 : option bool :=
  match api.MustParse (cmd.API (platform a)), api.MustParse "0.7" with
  | Some v, Some o => Some (0 <=? api.Compare v o)%Z
  | _, _ => None
  end.

Definition analyzeCmd_supportsStackValidation : option bool :=
  analyzeCmd_platformAPIVersionGreaterThan06.

Definition analyzeCmd_resolveBuildStack (stackMD : platform.StackMetadata)
  : Go (list AnalyzerEvent) (string * option error) (string * option error) :=
  emit (EvGetenv cmd.EnvStackID) ;;;
  let buildStackID := os_Getenv env cmd.EnvStackID in
  let buildStackID :=
    if bool_decide (buildStackID = "")
    then platform.StackID (platform.BuildImage stackMD)
    else buildStackID in
  if bool_decide (buildStackID = "")
  then return_ ("", Some (cmd_FailErrCode
         (errors_New "CNB_STACK_ID is required when there is no stack metadata available")
         CodeInvalidArgs "parse arguments"))
  else return_ (buildStackID, None).

Definition analyzeCmd_resolveRunImage (stackMD : platform.StackMetadata)
  : Go (list AnalyzerEvent) (option imgutil.Image * option error)
       (option imgutil.Image * option error) :=
  let runImageRef0 := runImageRef a in
  let runImageRef0 :=
    if bool_decide (runImageRef0 = "")
    then platform.Image (platform.RunImage stackMD)
    else runImageRef0 in
  let useRunImageMirrors :=
    bool_decide (platform.Image (platform.RunImage stackMD) <> "") && bool_decide (imageName a <> "") in
  (if bool_decide (runImageRef0 = "")
   then return_ (None, Some (cmd_FailErrCode
          (errors_New "CNB_RUN_IMAGE is required when there is no stack metadata available")
          CodeInvalidArgs "parse arguments"))
   else ret tt) ;;;
  runImageRef1 <-
    (if useRunImageMirrors
     then
       emit (EvParseReference (imageName a)) ;;;
       let '(ref, err) := name_ParseReference env (imageName a) in
       match err with
       | Some err => return_ (None, Some (cmd_FailErr err "failed to parse registry"))
       | None =>
           let registry := RegistryStr ref in
           emit (EvBestRunImageMirror registry) ;;;
           let '(best, err) := BestRunImageMirror env stackMD registry in
           match err with
           | Some err => return_ (None, Some (cmd_FailErr err "run image mirror"))
           | None => ret best
           end
       end
     else ret runImageRef0) ;;
  if useDaemon a
  then emit (EvLocalNewImage runImageRef1) ;;;
       return_ (local_NewImage env runImageRef1)
  else emit (EvRemoteNewImage runImageRef1) ;;;
       return_ (remote_NewImage env runImageRef1).

Definition analyzeCmd_validateStack
  : Go (list AnalyzerEvent) (option error) (option error) :=
  supported <- must analyzeCmd_supportsStackValidation ;;
  (if negb supported then return_ None else ret tt) ;;;
  emit (EvDecodeFile (stackPath a)) ;;;
  let '(stackMD, err) := toml_DecodeFile env (stackPath a) in
  (match err with
   | Some err =>
       if negb (os_IsNotExist env err)
       then return_ (Some (cmd_FailErr err "get stack metadata"))
       else ret tt
   | None => ret tt
   end) ;;;
  let* (buildStackID, err) := call (analyzeCmd_resolveBuildStack stackMD) in
  (match err with
   | Some err => return_ (Some (cmd_FailErr err "resolve stack"))
   | None => ret tt
   end) ;;;
  let* (runImage, err) := call (analyzeCmd_resolveRunImage stackMD) in
  (match err with
   | Some err => return_ (Some (cmd_FailErr err "resolve run image"))
   | None => ret tt
   end) ;;;
  runImage <- must runImage ;;
  emit (EvLabel (imgutil.Name runImage) platform.StackIDLabel) ;;;
  let '(runStackID, err) := imgutil.Label runImage platform.StackIDLabel in
  (match err with
   | Some err => return_ (Some (errors_Wrap err "get run image label"))
   | None => ret tt
   end) ;;;
  (if bool_decide (runStackID = "")
   then return_ (Some (errors_New "get run image label: io.buildpacks.stack.id"))
   else ret tt) ;;;
  (if bool_decide (buildStackID <> runStackID)
   then return_ (Some (errors_New
          (Sprintf "incompatible stack: '%s' is not compatible with '%s'"
                   [runStackID; buildStackID])))
   else ret tt) ;;;
  return_ None.
End Analyzer.
End main.

Close Scope go_scope.

(** ** Packages [runtime], [strings] and [filepath]: paths as strings *)

Module runtime.
(** The path separator of the operating system the lifecycle runs on. *)
Definition PathSeparator (GOOS : string) : ascii :=
  if bool_decide (GOOS = "windows") then "\"%char else "/"%char.
End runtime.

Module strings.
(** [strings.Split] on a one-character separator. *)
Fixpoint Split (sep : ascii) (s : string) : list string :=
  match s with
  | EmptyString => [EmptyString]
  | String c rest =>
      if Ascii.eqb c sep
      then EmptyString :: Split sep rest
      else match Split sep rest with
           | h :: t => String c h :: t
           | [] => [String c EmptyString]
           end
  end.

(** [strings.Join]. *)
Fixpoint Join (elems : list string) (sep : string) : string :=
  match elems with
  | [] => EmptyString
  | [e] => e
  | e :: rest => e +:+ sep +:+ Join rest sep
  end.

Fixpoint HasPrefix_chars (s pre : list ascii) : bool :=
  match pre, s with
  | [], _ => true
  | p :: pre', c :: s' => Ascii.eqb p c && HasPrefix_chars s' pre'
  | _ :: _, [] => false
  end.

Definition HasPrefix (s pre : string) : bool :=
  HasPrefix_chars (list_ascii_of_string s) (list_ascii_of_string pre).
End strings.

Module filepath.
Definition sep_string (GOOS : string) : string :=
  String (runtime.PathSeparator GOOS) EmptyString.

(** One step of the lexical clean-up: [seg] is the next element of the
    path, [st] the elements kept so far, innermost first. *)
Definition Clean_step (rooted : bool) (st : list string) (seg : string) : list string :=
  if bool_decide (seg = "") || bool_decide (seg = ".") then st
  else if bool_decide (seg = "..")
       then match st with
            | top :: st' => if bool_decide (top = "..") then seg :: st else st'
            | [] => if rooted then [] else [seg]
            end
       else seg :: st.

(** [filepath.Clean]: no empty, [.] or inner [..] elements are left. *)
Definition Clean (GOOS : string) (path : string) : string :=
  let sep := runtime.PathSeparator GOOS in
  let rooted := match path with
                | String c _ => Ascii.eqb c sep
                | EmptyString => false
                end in
  let st := fold_left (Clean_step rooted) (strings.Split sep path) [] in
  let body := strings.Join (rev st) (sep_string GOOS) in
  if rooted then sep_string GOOS +:+ body
  else if bool_decide (body = "") then "." else body.

(** [filepath.Join]: empty elements are ignored, the result is cleaned, and
    the join of no element is the empty string. *)
Definition Join (GOOS : string) (elem : list string) : string :=
  match filter (fun e => e <> "") elem with
  | [] => ""
  | es => Clean GOOS (strings.Join es (sep_string GOOS))
  end.

(** [filepath.Base]: the last element of the path. *)
Definition Base (GOOS : string) (path : string) : string :=
  let sep := runtime.PathSeparator GOOS in
  match path with
  | EmptyString => "."
  | _ => match filter (fun e => e <> "") (strings.Split sep path) with
         | [] => sep_string GOOS
         | es => List.last es ""
         end
  end.

(** [filepath.Dir]: all but the last element of the path: what stands
    before the last separator, with that separator, cleaned. *)
Definition Dir (GOOS : string) (path : string) : string :=
  let sep := runtime.PathSeparator GOOS in
  match removelast (strings.Split sep path) with
  | [] => Clean GOOS ""
  | front => Clean GOOS (strings.Join front (sep_string GOOS) +:+ sep_string GOOS)
  end.

(** [p] is [root] or lies below it. *)
Definition under (GOOS : string) (root p : string) : bool :=
  bool_decide (p = root) || strings.HasPrefix p (root +:+ sep_string GOOS).

(** The order in which a walk visits paths: element by element. *)
Fixpoint segs_leb (p q : list string) : bool :=
  match p, q with
  | [], _ => true
  | _ :: _, [] => false
  | a :: p', b :: q' =>
      match String.compare a b with
      | Lt => true
      | Gt => false
      | Eq => segs_leb p' q'
      end
  end.

Definition walk_le (GOOS : string) (p q : string) : Prop :=
  segs_leb (strings.Split (runtime.PathSeparator GOOS) p)
           (strings.Split (runtime.PathSeparator GOOS) q) = true.
End filepath.

#[global] Instance walk_le_dec GOOS p q : Decision (filepath.walk_le GOOS p q).
Proof. unfold filepath.walk_le. apply _. Defined.

(** ** The layers directory on disk

    The file tree is a finite map from cleaned paths to nodes.  The two
    sidecar files of a layer, its descriptor [<layer>.toml] and its hash
    file [<layer>.sha], are kept parsed and keyed by the path of the layer
    directory they sit beside. *)

Module os.
Inductive Node : Type :=
| Dir
| File (data : string).

(** What [fs.FileInfo] tells about a node. *)
Record FileInfo : Type := { IsDir : bool; IsRegular : bool }.

Definition Lstat_info (n : Node) : FileInfo :=
  match n with
  | Dir => {| IsDir := true; IsRegular := false |}
  | File _ => {| IsDir := false; IsRegular := true |}
  end.
End os.

(** The parsed descriptor of a layer: its flags, the freeform metadata of
    the buildpack and, once a metadata restorer has written the
    descriptor, the hash it embeds. *)
Module sidecar.
Record LayerMetadataFile : Type :=
  { Build : bool; Launch : bool; Cache : bool; Data : string; EmbeddedSHA : string }.
End sidecar.

Record Disk : Type :=
  { files : gmap string os.Node;
    descriptors : gmap string sidecar.LayerMetadataFile;
    shaFiles : gmap string string }.

(** What is not in the sources at hand and not described by the spec is
    kept abstract: the operating system, the escaping of buildpack
    identifiers ([launch.EscapeID]), the digest of a layer directory, and
    the paths of a layer that cannot be removed, with the error that the
    attempt gives ([RemoveErr]). *)
Record Host : Type :=
  { GOOS : string;
    EscapeID : string -> string;
    Digest : list (string * os.Node) -> string;
    RemoveErr : string -> option error }.

(** [os.RemoveAll]: [root] and all below it go, with the sidecar files that
    lie below it. *)
Definition os_RemoveAll (h : Host) (root : string) (d : Disk) : Disk :=
  let below (p : string) : bool :=
    filepath.under (GOOS h) root p && negb (bool_decide (p = root)) in
  {| files := filter (fun kv => filepath.under (GOOS h) root kv.1 = false) (files d);
     descriptors := filter (fun kv => below kv.1 = false) (descriptors d);
     shaFiles := filter (fun kv => below kv.1 = false) (shaFiles d) |}.

(** The paths at and below [root], in the order of a walk. *)
Definition walk_list (h : Host) (root : string) (d : Disk) : list (string * os.Node) :=
  merge_sort (fun kv1 kv2 => filepath.walk_le (GOOS h) kv1.1 kv2.1)
    (filter (fun kv => filepath.under (GOOS h) root kv.1 = true) (map_to_list (files d))).

(** Modelled from the spec: [Copy], not part of the sources at hand: the
    file [src] is copied to [dst], which fails when [src] is no regular
    file, when the directory of [dst] does not exist or when [dst] is a
    directory. *)
Definition Copy (h : Host) (src dst : string) (d : Disk) : Disk * option error :=
  match files d !! src with
  | Some (os.File data) =>
      match files d !! filepath.Dir (GOOS h) dst with
      | Some os.Dir =>
          match files d !! dst with
          | Some os.Dir => (d, Some (errors_New "open destination: is a directory"))
          | _ => ({| files := <[dst := os.File data]> (files d);
                     descriptors := descriptors d;
                     shaFiles := shaFiles d |}, None)
          end
      | _ => (d, Some (errors_New "open destination: no such file or directory"))
      end
  | _ => (d, Some (errors_New "open source: not a regular file"))
  end.

(** ** Package [buildpack]: the layers of a buildpack on disk *)

Module buildpack.
Record GroupBuildpack : Type :=
  { ID : string; Version : string; API : string; Optional : bool }.

Record Layer : Type := { path : string; identifier : string }.

Definition Path (l : Layer) : string := path l.
Definition Name (h : Host) (l : Layer) : string := filepath.Base (GOOS h) (path l).
Definition Identifier (l : Layer) : string := identifier l.

Record LayersDir : Type :=
  { dirPath : string; layers : list Layer; Buildpack : GroupBuildpack }.

(** Modelled from the spec: [ReadLayersDir], not part of the sources at
    hand: the on-disk layer entries of a buildpack are the descriptors that
    sit in its directory under the layers directory; reading fails when
    that directory is a file. *)
Definition ReadLayersDir (h : Host) (layersDir : string) (bp : GroupBuildpack)
  (d : Disk) : LayersDir * option error :=
  let dir := filepath.Join (GOOS h) [layersDir; EscapeID h (ID bp)] in
  match files d !! dir with
  | Some (os.File _) =>
      ({| dirPath := dir; layers := []; Buildpack := bp |},
       Some (errors_New "read layers directory: not a directory"))
  | _ =>
      let paths :=
        merge_sort (filepath.walk_le (GOOS h))
          (filter (fun p => filepath.Dir (GOOS h) p = dir)
                  (map fst (map_to_list (descriptors d)))) in
      ({| dirPath := dir;
          layers := map (fun p =>
                      {| path := p;
                         identifier := ID bp +:+ ":" +:+ filepath.Base (GOOS h) p |})
                      paths;
          Buildpack := bp |}, None)
  end.

(** Modelled from the spec: [LayersDir.FindLayers]: the layers of the
    directory that the predicate holds of. *)
Definition FindLayers (bd : LayersDir) (f : Layer -> bool) : list Layer :=
  filter (fun l => f l = true) (layers bd).

(** Modelled from the spec: [MadeCached], the made-cached rule: the cache
    flag of the layer's own descriptor on disk. *)
Definition MadeCached (d : Disk) (l : Layer) : bool :=
  match descriptors d !! path l with
  | Some md => sidecar.Cache md
  | None => false
  end.

(** Modelled from the spec: [Layer.Remove]: the layer directory, its hash
    file [<layer>.sha] and its descriptor [<layer>.toml] are deleted, one
    after the other.  A removal that fails stops it there with the error:
    what was deleted before stays deleted, what comes after is left. *)
Definition Remove (h : Host) (l : Layer) (d : Disk) : Disk * option error :=
  match RemoveErr h (path l) with
  | Some err => (d, Some err)
  | None =>
      let d1 := os_RemoveAll h (path l) d in
      match RemoveErr h (path l +:+ ".sha") with
      | Some err => (d1, Some err)
      | None =>
          let d2 := {| files := files d1;
                       descriptors := descriptors d1;
                       shaFiles := delete (path l) (shaFiles d1) |} in
          match RemoveErr h (path l +:+ ".toml") with
          | Some err => (d2, Some err)
          | None =>
              ({| files := files d2;
                  descriptors := delete (path l) (descriptors d2);
                  shaFiles := shaFiles d2 |}, None)
          end
      end
  end.
End buildpack.

(** ** Package [layer]: the store of layer hashes *)

Module layer.
(** The two schemes of the store: hash files beside the layers, or hashes
    embedded in the descriptors that a metadata restorer wrote. *)
Inductive SHAStore : Type :=
| fileSHAStore
| embeddedSHAStore.

Definition NewSHAStore (useShaFiles : bool) : SHAStore :=
  if useShaFiles then fileSHAStore else embeddedSHAStore.

(** Modelled from the spec: [SHAStore.Get].  With hash files the hash is
    read from the file of the layer or, when there is none, computed from
    the content of the layer directory and written to the file; with
    embedded hashes it is read from the descriptor and never computed. *)
Definition Get (h : Host) (store : SHAStore) (buildpackID : string)
  (l : buildpack.Layer) (d : Disk) : Disk * (string * option error) :=
  match store with
  | fileSHAStore =>
      match shaFiles d !! buildpack.path l with
      | Some sha => (d, (sha, None))
      | None =>
          match files d !! buildpack.path l with
          | Some os.Dir =>
              let sha := Digest h (walk_list h (buildpack.path l) d) in
              ({| files := files d;
                  descriptors := descriptors d;
                  shaFiles := <[buildpack.path l := sha]> (shaFiles d) |},
               (sha, None))
          | _ => (d, ("", Some (errors_New "compute layer hash: not a directory")))
          end
      end
  | embeddedSHAStore =>
      match descriptors d !! buildpack.path l with
      | Some md => (d, (sidecar.EmbeddedSHA md, None))
      | None => (d, ("", Some (errors_New "read layer descriptor: no such file")))
      end
  end.

(** [layer.MetadataRestorer], an interface with the one method [Restore]. *)
Definition MetadataRestorer : Type :=
  list buildpack.GroupBuildpack -> platform.LayersMetadata ->
  platform.CacheMetadata -> SHAStore -> Disk -> Disk * option error.
End layer.

(** ** Package [layers]: layer archives *)

Module layers.
Inductive TarEntry : Type :=
| TarDir (name : string)
| TarFile (name : string) (data : string)
| TarOther (name : string).

Definition Archive : Type := list TarEntry.

Definition write (p : string) (n : os.Node) (d : Disk) : Disk :=
  {| files := <[p := n]> (files d);
     descriptors := descriptors d;
     shaFiles := shaFiles d |}.

(** Modelled from the spec: [Extract], not part of the sources at hand:
    the entries of the archive are written below [dest] in their order,
    over what is there; an entry of a kind that cannot be written, or a
    file entry where a directory is, stops the extraction with an error. *)
Fixpoint Extract (h : Host) (rc : Archive) (dest : string) (d : Disk)
  : Disk * option error :=
  match rc with
  | [] => (d, None)
  | TarDir name :: rest =>
      let p := filepath.Join (GOOS h) [dest; name] in
      match files d !! p with
      | Some (os.File _) => (d, Some (errors_New "extract: not a directory"))
      | _ => Extract h rest dest (write p os.Dir d)
      end
  | TarFile name data :: rest =>
      let p := filepath.Join (GOOS h) [dest; name] in
      match files d !! p with
      | Some os.Dir => (d, Some (errors_New "extract: is a directory"))
      | _ => Extract h rest dest (write p (os.File data) d)
      end
  | TarOther name :: rest =>
      (d, Some (errors_New "extract: unknown file type in tar"))
  end.
End layers.

(** ** Package [regexp]: the pattern of staged SBOM files

    [restoreSBOMFunc] compiles one pattern, [T/(.+)/(.+)/(sbom.+json)] for
    a staging subtree [T] (with the separator of the operating system), and
    only asks for its leftmost match with the submatches.  The matcher
    below is that pattern: a dot is any character but a newline, and every
    [.+] takes as much as it can and gives back one character at a time. *)

Module regexp.
Definition newline : ascii := ascii_of_nat 10.

(** The ways to cut a non-empty run of non-newline characters off the
    front of [s], shortest first. *)
Fixpoint dot_plus (s : list ascii) : list (list ascii * list ascii) :=
  match s with
  | [] => []
  | c :: s' =>
      if Ascii.eqb c newline then []
      else ([c], s') :: map (fun ps => (c :: ps.1, ps.2)) (dot_plus s')
  end.

Fixpoint literal (pre s : list ascii) : option (list ascii) :=
  match pre, s with
  | [], _ => Some s
  | p :: pre', c :: s' => if Ascii.eqb p c then literal pre' s' else None
  | _ :: _, [] => None
  end.

Fixpoint first_some {A B} (f : A -> option B) (l : list A) : option B :=
  match l with
  | [] => None
  | x :: l' => match f x with
               | Some b => Some b
               | None => first_some f l'
               end
  end.

(** [(sbom.+json)] at the front of [s]. *)
Definition match_file (s : list ascii) : option (list ascii) :=
  match literal (list_ascii_of_string "sbom") s with
  | Some s1 =>
      first_some (fun ps => match literal (list_ascii_of_string "json") ps.2 with
                            | Some _ => Some (list_ascii_of_string "sbom" ++ ps.1
                                              ++ list_ascii_of_string "json")%list
                            | None => None
                            end)
                 (rev (dot_plus s1))
  | None => None
  end.

(** [(.+)SEP(.+)SEP(sbom.+json)] at the front of [s]. *)
Definition match_groups (sep : ascii) (s : list ascii)
  : option (list ascii * list ascii * list ascii) :=
  first_some (fun ps1 =>
    match literal [sep] ps1.2 with
    | Some s2 =>
        first_some (fun ps2 =>
          match literal [sep] ps2.2 with
          | Some s3 => match match_file s3 with
                       | Some f => Some (ps1.1, ps2.1, f)
                       | None => None
                       end
          | None => None
          end) (rev (dot_plus s2))
    | None => None
    end) (rev (dot_plus s)).

(** The leftmost place of [s] where the whole pattern matches. *)
Fixpoint find_from (sep : ascii) (bomType : list ascii) (s : list ascii)
  : option (list ascii * list ascii * list ascii) :=
  let here := match literal (bomType ++ [sep])%list s with
              | Some s1 => match_groups sep s1
              | None => None
              end in
  match here with
  | Some m => Some m
  | None => match s with
            | [] => None
            | _ :: s' => find_from sep bomType s'
            end
  end.

(** The compiled pattern for the staging subtree [bomType] with separator
    [sep], and its [FindStringSubmatch] without the whole match: the three
    submatches, or [None] where the result has not four elements. *)
Definition FindStringSubmatch (sep : ascii) (bomType : string) (path : string)
  : option (string * string * string) :=
  match find_from sep (list_ascii_of_string bomType) (list_ascii_of_string path) with
  | Some (g1, g2, g3) =>
      Some (string_of_list_ascii g1, string_of_list_ascii g2, string_of_list_ascii g3)
  | None => None
  end.
End regexp.

(** ** Package [lifecycle]: the cache, the log and the world *)

(** The [Cache] interface, as far as the restorer uses it. *)
Record CacheOps : Type :=
  { RetrieveMetadata : platform.CacheMetadata * option error;
    RetrieveLayer : string -> layers.Archive * option error }.

(** A [Cache] value; [None] is the nil interface. *)
Definition Cache : Type := option CacheOps.

(** What happens during a restore, in order: the lines of the logger and
    the calls that reach the disk or the cache. *)
Inductive Event : Type :=
| Infof (format : string) (args : list string)
| Debugf (format : string) (args : list string)
| CallMetadataRestore (store : layer.SHAStore)
| CallReadLayersDir (bp : buildpack.GroupBuildpack)
| CallSHAGet (store : layer.SHAStore) (buildpackID : string) (l : buildpack.Layer)
| CallRemove (l : buildpack.Layer)
| CallGo (l : buildpack.Layer) (sha : string)
| TaskDone (err : option error)
| CallRetrieveLayer (sha : string)
| CallExtract (dest : string)
| CallWalk (root : string)
| CallCopy (src dst : string)
| CallRemoveAll (path : string).

Record World : Type := { disk : Disk; trace : list Event }.

Definition log (e : Event) (w : World) : World :=
  {| disk := disk w; trace := (trace w ++ [e])%list |}.

Open Scope go_scope.

(** A call that reaches the disk: it is logged and applied. *)
Definition perform {R A} (e : Event) (f : Disk -> Disk * A) : Go World R A :=
  fun w => let '(d', a) := f (disk w) in
           ({| disk := d'; trace := (trace w ++ [e])%list |}, Next a).

Definition logf {R} (e : Event) : Go World R unit :=
  fun w => (log e w, Next tt).

(** Modelled from the spec: [retrieveCacheMetadata], not part of the
    sources at hand: the metadata of the cache, and empty metadata rather
    than a failure when no cache is given. *)
Definition retrieveCacheMetadata (cache : Cache)
  : platform.CacheMetadata * option error :=
  match cache with
  | None => (platform.CacheMetadata_empty, None)
  | Some c =>
      match RetrieveMetadata c with
      | (_, Some err) =>
          (platform.CacheMetadata_empty, Some (errors_Wrap err "retrieving cache metadata"))
      | (cacheMeta, None) => (cacheMeta, None)
      end
  end.

(** ** Package [errgroup]: a group of goroutines

    A goroutine started with [Go] runs to its end in one piece, at a point
    that the schedule chooses: any point at which the main flow reaches the
    disk or, at the latest, [Wait].  The schedule is a list of choices, one
    for each such point: the positions, among the goroutines still to run,
    of those that run there.  Every order in which the goroutines can end
    is the outcome of some schedule. *)

Module errgroup.
Definition Task : Type := Go World (option error) (option error).

(** The goroutines started and not yet run, and the first error. *)
Record Group : Type := { pending : list Task; err : option error }.

Definition zero : Group := {| pending := []; err := None |}.
End errgroup.

Record RState : Type :=
  { world : World;
    g : errgroup.Group;
    schedule : list (list nat) }.

Definition set_world (w : World) (s : RState) : RState :=
  {| world := w; g := g s; schedule := schedule s |}.

Definition set_g (grp : errgroup.Group) (s : RState) : RState :=
  {| world := world s; g := grp; schedule := schedule s |}.

(** One goroutine runs to its end; the first error of the group is kept
    ([errOnce]), and a panic of the goroutine is a panic of the program. *)
Definition errgroup_finish {R} (t : errgroup.Task) : Go RState R unit :=
  fun s =>
    match run t (world s) with
    | (w', Returned e) =>
        ({| world := log (TaskDone e) w';
            g := {| errgroup.pending := errgroup.pending (g s);
                    errgroup.err := match errgroup.err (g s) with
                                    | Some e0 => Some e0
                                    | None => e
                                    end |};
            schedule := schedule s |}, Next tt)
    | (w', Panicked) => (set_world w' s, Panic)
    end.

(** The goroutines chosen by one entry of the schedule run, one after the
    other. *)
Fixpoint errgroup_run_picks {R} (picks : list nat) : Go RState R unit :=
  match picks with
  | [] => ret tt
  | i :: rest =>
      fun s =>
        match errgroup.pending (g s) !! i with
        | Some t =>
            bind (errgroup_finish t) (fun _ => errgroup_run_picks rest)
                 (set_g {| errgroup.pending := delete i (errgroup.pending (g s));
                           errgroup.err := errgroup.err (g s) |} s)
        | None => errgroup_run_picks rest s
        end
  end.

(** A point at which goroutines may run. *)
Definition yield {R} : Go RState R unit :=
  fun s =>
    match schedule s with
    | [] => (s, Next tt)
    | picks :: later =>
        errgroup_run_picks picks
          {| world := world s; g := g s; schedule := later |}
    end.

(** [g.Go(f)]. *)
Definition errgroup_Go {R} (f : errgroup.Task) : Go RState R unit :=
  modify (fun s =>
    set_g {| errgroup.pending := (errgroup.pending (g s) ++ [f])%list;
             errgroup.err := errgroup.err (g s) |} s).

(** [g.Wait()]: every goroutine still to run runs, and the first error
    is the result. *)
Definition errgroup_Wait {R} : Go RState R (option error) :=
  yield ;;;
  s <- get ;;
  modify (set_g {| errgroup.pending := []; errgroup.err := errgroup.err (g s) |}) ;;;
  for_range (errgroup.pending (g s)) errgroup_finish ;;;
  s' <- get ;;
  ret (errgroup.err (g s')).

(** A step of the main flow on the world while no goroutine is running. *)
Definition direct {R A} (m : Go World R A) : Go RState R A :=
  fun s => let '(w', r) := m (world s) in (set_world w' s, r).

(** A step of the main flow on the world, after a point at which
    goroutines may run. *)
Definition atomic {R A} (m : Go World R A) : Go RState R A :=
  yield ;;; direct m.

(** ** [restorer.go] *)

Record Restorer : Type :=
  { LayersDir : string;
    Buildpacks : list buildpack.GroupBuildpack;
    LayerMetadataRestorer : layer.MetadataRestorer;   (* Platform API >= 0.7 *)
    LayersMetadata : platform.LayersMetadata;         (* Platform API >= 0.7 *)
    Platform : cmd.Platform }.

(** [filepath.Walk]: [fn] is called on the root and on all below it, in
    the order of the walk, until it returns an error; if the root does not
    exist, [fn] is called once, without file information.  The nodes are
    those present when the walk starts. *)
Fixpoint filepath_Walk_nodes {R}
  (fn : string -> option os.FileInfo -> option error ->
        Go World (option error) (option error))
  (nodes : list (string * os.Node)) : Go World R (option error) :=
  match nodes with
  | [] => ret None
  | (p, n) :: rest =>
      err <- call (fn p (Some (os.Lstat_info n)) None) ;;
      match err with
      | Some err => ret (Some err)
      | None => filepath_Walk_nodes fn rest
      end
  end.

Definition filepath_Walk {R} (h : Host) (root : string)
  (fn : string -> option os.FileInfo -> option error ->
        Go World (option error) (option error))
  : Go World R (option error) :=
  logf (CallWalk root) ;;;
  w <- get ;;
  match files (disk w) !! root with
  | None => call (fn root None (Some (errors_New "lstat: no such file or directory")))
  | Some _ => filepath_Walk_nodes fn (walk_list h root (disk w))
  end.

Section Restorer.
Variable h : Host.
Variable r : Restorer.

Definition Restorer_restoresLayerMetadata : option bool :=
  match api.MustParse (cmd.API (Platform r)) with
  | Some v => api.AtLeast v "0.7"
  | None => None
  end.

Definition Restorer_restoreCacheLayer (cache : Cache) (sha : string)
  : Go World (option error) (option error) :=
  (* Sanity check to prevent panic. *)
  match cache with
  | None => return_ (Some (errors_New "restoring layer: cache not provided"))
  | Some c =>
      logf (Debugf "Retrieving data for %q" [sha]) ;;;
      let* (rc, err) := perform (CallRetrieveLayer sha) (fun d => (d, RetrieveLayer c sha)) in
      match err with
      | Some err => return_ (Some err)
      | None =>
          err <- perform (CallExtract "") (layers.Extract h rc "") ;;
          return_ err
      end
  end.

Fixpoint buildpackDetected_range (bps : list buildpack.GroupBuildpack) (id : string)
  : bool :=
  match bps with
  | [] => false
  | bp :: rest =>
      if bool_decide (EscapeID h (buildpack.ID bp) = id) then true
      else buildpackDetected_range rest id
  end.

Definition Restorer_buildpackDetected (id : string) : bool :=
  buildpackDetected_range (Buildpacks r) id.

Definition Restorer_restoreSBOMFunc (bomType : string)
  : string -> option os.FileInfo -> option error ->
    Go World (option error) (option error) :=
  let bomRegex :=
    if bool_decide (GOOS h = "windows")
    then regexp.FindStringSubmatch "\"%char bomType
    else regexp.FindStringSubmatch "/"%char bomType in
  fun path info err =>
    match info with
    | None => return_ None
    | Some info =>
        if negb (os.IsRegular info) then return_ None
        else
          match bomRegex path with
          | None => return_ None
          | Some (buildpackID, layerName, fileName) =>
              let dest := filepath.Join (GOOS h)
                            [LayersDir r; buildpackID;
                             Sprintf "%s.%s" [layerName; fileName]] in
              if negb (Restorer_buildpackDetected buildpackID) then return_ None
              else
                err <- perform (CallCopy path dest) (Copy h path dest) ;;
                return_ err
          end
    end.

Definition Restorer_restoreSBOM : Go World (option error) (option error) :=
  let cacheDir := filepath.Join (GOOS h) [LayersDir r; "sbom"; "cache"] in
  let launchDir := filepath.Join (GOOS h) [LayersDir r; "sbom"; "launch"] in
  let sbomDir := filepath.Join (GOOS h) [LayersDir r; "sbom"] in
  defer (fun w => log (CallRemoveAll sbomDir)
                      {| disk := os_RemoveAll h sbomDir (disk w); trace := trace w |})
    (err <- filepath_Walk h cacheDir (Restorer_restoreSBOMFunc "cache") ;;
     match err with
     | Some err => return_ (Some err)
     | None =>
         err <- filepath_Walk h launchDir (Restorer_restoreSBOMFunc "launch") ;;
         match err with
         | Some err => return_ (Some err)
         | None => return_ None
         end
     end).

(** The choice of [cachedFn] for a buildpack, from its API alone. *)
Definition Restore_cachedFn (bp : buildpack.GroupBuildpack)
  (cachedLayers : gmap string platform.BuildpackLayerMetadata)
  : option (Disk -> buildpack.Layer -> bool) :=
  match api.MustParse (buildpack.API bp) with
  | Some v =>
      match api.AtLeast v "0.6" with
      | Some true =>
          (* On Buildpack API 0.6+, the <layer>.toml file never contains layer
             types information.  The cache metadata is the only way to
             identify cache=true layers. *)
          Some (fun _ l =>
                  match cachedLayers !! filepath.Base (GOOS h) (buildpack.Path l) with
                  | Some bpLayer => platform.Cache bpLayer
                  | None => false
                  end)
      | Some false =>
          (* On Buildpack API < 0.6, the <layer>.toml file contains layer types
             information. *)
          Some buildpack.MadeCached
      | None => None
      end
  | None => None
  end.

(** The body of the loop over the layers found for a buildpack. *)
Definition Restore_layer (cache : Cache) (layerSHAStore : layer.SHAStore)
  (bp : buildpack.GroupBuildpack)
  (cachedLayers : gmap string platform.BuildpackLayerMetadata)
  (bpLayer : buildpack.Layer) : Go RState (option error) unit :=
  match cachedLayers !! buildpack.Name h bpLayer with
  | None =>
      atomic (logf (Infof "Removing %q, not in cache" [buildpack.Identifier bpLayer])) ;;;
      err <- atomic (perform (CallRemove bpLayer) (buildpack.Remove h bpLayer)) ;;
      match err with
      | Some err => return_ (Some (errors_Wrap err "removing layer"))
      | None => ret tt
      end
  | Some cachedLayer =>
      let* (layerSha, err) :=
        atomic (perform (CallSHAGet layerSHAStore (buildpack.ID bp) bpLayer)
                        (layer.Get h layerSHAStore (buildpack.ID bp) bpLayer)) in
      match err with
      | Some err => return_ (Some err)
      | None =>
          if bool_decide (layerSha <> platform.SHA cachedLayer)
          then
            atomic (logf (Infof "Removing %q, wrong sha" [buildpack.Identifier bpLayer])) ;;;
            atomic (logf (Debugf "Layer sha: %q, cache sha: %q"
                                 [layerSha; platform.SHA cachedLayer])) ;;;
            err <- atomic (perform (CallRemove bpLayer) (buildpack.Remove h bpLayer)) ;;
            match err with
            | Some err => return_ (Some (errors_Wrap err "removing layer"))
            | None => ret tt
            end
          else
            atomic (logf (Infof "Restoring data for %q from cache"
                                [buildpack.Identifier bpLayer])) ;;;
            atomic (logf (CallGo bpLayer (platform.SHA cachedLayer))) ;;;
            errgroup_Go (Restorer_restoreCacheLayer cache (platform.SHA cachedLayer))
      end
  end.

(** The body of the loop over the buildpacks of the group. *)
Definition Restore_buildpack (cache : Cache) (cacheMeta : platform.CacheMetadata)
  (layerSHAStore : layer.SHAStore) (bp : buildpack.GroupBuildpack)
  : Go RState (option error) unit :=
  let cachedLayers :=
    platform.Layers (platform.MetadataForBuildpack cacheMeta (buildpack.ID bp)) in
  cachedFn <- must (Restore_cachedFn bp cachedLayers) ;;
  let* (buildpackDir, err) :=
    atomic (perform (CallReadLayersDir bp)
                    (fun d => (d, buildpack.ReadLayersDir h (LayersDir r) bp d))) in
  match err with
  | Some err => return_ (Some (errors_Wrap err "reading buildpack layer directory"))
  | None =>
      foundLayers <-
        atomic (fun w => (w, Next (buildpack.FindLayers buildpackDir (cachedFn (disk w))))) ;;
      for_range foundLayers (Restore_layer cache layerSHAStore bp cachedLayers)
  end.

(** The end of [Restore]: waiting for the goroutines, and the SBOM files. *)
Definition Restore_finish : Go RState (option error) (option error) :=
  err <- errgroup_Wait ;;
  match err with
  | Some err => return_ (Some (errors_Wrap err "restoring data"))
  | None =>
      v <- must (api.MustParse (cmd.API (Platform r))) ;;
      sbom <- must (api.AtLeast v "0.8") ;;
      if sbom
      then
        err <- direct (call Restorer_restoreSBOM) ;;
        return_ err
      else return_ None
  end.

(** [Restore] restores metadata for launch and cache layers into the layers
    directory and attempts to restore layer data for cache=true layers,
    removing the layer when unsuccessful. *)
Definition Restorer_Restore (cache : Cache) : Go RState (option error) (option error) :=
  let '(cacheMeta, err) := retrieveCacheMetadata cache in
  match err with
  | Some err => return_ (Some err)
  | None =>
      restores <- must Restorer_restoresLayerMetadata ;;
      let useShaFiles := negb restores in
      let layerSHAStore := layer.NewSHAStore useShaFiles in
      restores' <- must Restorer_restoresLayerMetadata ;;
      (if restores'
       then
         err <- direct (perform (CallMetadataRestore layerSHAStore)
                          (LayerMetadataRestorer r (Buildpacks r) (LayersMetadata r)
                                                 cacheMeta layerSHAStore)) ;;
         match err with
         | Some err => return_ (Some err)
         | None => ret tt
         end
       else ret tt) ;;;
      (* var g errgroup.Group *)
      modify (set_g errgroup.zero) ;;;
      for_range (Buildpacks r) (Restore_buildpack cache cacheMeta layerSHAStore) ;;;
      Restore_finish
  end.
End Restorer.

Close Scope go_scope.

(* ================================================================== *)
(** * Part II: sample inputs                                           *)
(* ================================================================== *)

(** ** Stack validation *)

Definition sample_stackMD (buildStack runImage : string) (mirrors : list string)
  : platform.StackMetadata :=
  {| platform.RunImage := {| platform.Image := runImage; platform.Mirrors := mirrors |};
     platform.BuildImage := {| platform.StackID := buildStack |} |}.

Definition sample_image (ref stack : string) : imgutil.Image :=
  {| imgutil.Name := ref;
     imgutil.Label := fun l =>
       if bool_decide (l = platform.StackIDLabel) then (stack, None) else ("", None) |}.

Definition sample_getenv (stack : string) : string -> string :=
  fun name => if bool_decide (name = cmd.EnvStackID) then stack else "".

(** An analyzer environment: no override of the stack, a stack file that
    holds [stackMD], references that are their own registry, a mirror
    selection that answers the first mirror and images labelled [stack]. *)
Definition sample_env (stackMD : platform.StackMetadata) (stack : string)
  : main.AnalyzerEnv :=
  {| main.os_Getenv := sample_getenv "";
     main.toml_DecodeFile := fun _ => (stackMD, None);
     main.os_IsNotExist := fun _ => false;
     main.name_ParseReference := fun s => ({| main.RegistryStr := s |}, None);
     main.BestRunImageMirror := fun md _ =>
       (List.hd (platform.Image (platform.RunImage md))
                (platform.Mirrors (platform.RunImage md)), None);
     main.local_NewImage := fun ref => (Some (sample_image ref stack), None);
     main.remote_NewImage := fun ref => (Some (sample_image ref stack), None) |}.

Definition sample_analyzeCmd (previous runImage api : string) : main.analyzeCmd :=
  {| main.imageName := previous;
     main.runImageRef := runImage;
     main.stackPath := "/cnb/stack.toml";
     main.useDaemon := false;
     main.platform := {| cmd.API := api |} |}.

(** Whether mirror selection takes place when the run image is resolved:
    whether the registry of the previous image is parsed. *)
Definition mirror_selection_happens (env : main.AnalyzerEnv) (a : main.analyzeCmd)
  (stackMD : platform.StackMetadata) : Prop :=
  main.EvParseReference (main.imageName a)
    ∈ (run (main.analyzeCmd_resolveRunImage env a stackMD) []).1.

(** ** The restorer *)

(** A version is at least [0.n] when its major number is positive or its
    minor number is at least [n]. *)
Definition at_least_0 (n : N) (v : api.Version) : bool :=
  (0 <? api.major v)%N || (n <=? api.minor v)%N.

(** [w'] is [w] after some more events, all of which satisfy [P]. *)
Definition appends (P : Event -> Prop) (w w' : World) : Prop :=
  exists evs, trace w' = (trace w ++ evs)%list /\ Forall P evs.

(** The events since [w]: what the trace of [w'] has after that of [w]. *)
Definition events_since (w w' : World) : list Event :=
  drop (length (trace w)) (trace w').

(** The events of a goroutine of [Restore]. *)
Definition task_event (e : Event) : Prop :=
  match e with
  | Debugf _ _ | CallRetrieveLayer _ | CallExtract _ | TaskDone _ => True
  | _ => False
  end.

(** The events of the SBOM relocator. *)
Definition sbom_event (e : Event) : Prop :=
  match e with
  | CallWalk _ | CallCopy _ _ | CallRemoveAll _ => True
  | _ => False
  end.

(** Every goroutine still to run is one that [Restore] started. *)
Definition pool_ok (h : Host) (cache : Cache) (s : RState) : Prop :=
  Forall (fun t => exists sha, t = Restorer_restoreCacheLayer h cache sha)
         (errgroup.pending (g s)).

(** The goroutines [ts] run one after the other, each to its end; the
    results are those of the goroutines in this order. *)
Fixpoint run_tasks (ts : list errgroup.Task) (w : World)
  : World * list (option error) :=
  match ts with
  | [] => (w, [])
  | t :: ts' =>
      match run t w with
      | (w1, Returned e) =>
          let '(w2, es) := run_tasks ts' (log (TaskDone e) w1) in (w2, e :: es)
      | (w1, Panicked) => (w1, [])
      end
  end.

(** The first error among the results of goroutines, in the order in
    which they ended. *)
Fixpoint first_error (es : list (option error)) : option error :=
  match es with
  | [] => None
  | Some e :: _ => Some e
  | None :: es' => first_error es'
  end.

(** A layer is gone from the disk: no descriptor, no hash file, and no
    node at or below its path. *)
Definition layer_absent (h : Host) (l : buildpack.Layer) (d : Disk) : Prop :=
  descriptors d !! buildpack.path l = None
  /\ shaFiles d !! buildpack.path l = None
  /\ forall p, filepath.under (GOOS h) (buildpack.path l) p = true -> files d !! p = None.

(** Between [s] and [s'] some of the goroutines still to run at [s] ran to
    their end, in some order, and nothing else happened: those not run are
    still to run at [s'], the world is that left by the ones run, and the
    error of the group is the first one in the order in which they ended. *)
Definition goroutines_ran (s s' : RState) : Prop :=
  exists (ran : list errgroup.Task) (results : list (option error)),
    Permutation (ran ++ errgroup.pending (g s'))%list (errgroup.pending (g s))
    /\ run_tasks ran (world s) = (world s', results)
    /\ length results = length ran
    /\ errgroup.err (g s') = first_error (errgroup.err (g s) :: results).

(** Running [m] from a state whose goroutines are those of [Restore] leaves
    such a state, and only appends events that satisfy [P]. *)
Definition keeps {R A} (h : Host) (cache : Cache) (P : Event -> Prop)
  (m : Go RState R A) : Prop :=
  forall s, pool_ok h cache s ->
    pool_ok h cache (m s).1 /\ appends P (world s) (world (m s).1).

(** The events of the loop over the buildpacks: those of the main flow
    with the store [store], and those of the goroutines. *)
Definition loop_event (store : layer.SHAStore) (e : Event) : Prop :=
  match e with
  | Infof _ _ | Debugf _ _ | CallReadLayersDir _ | CallRemove _ | CallGo _ _
  | TaskDone _ | CallRetrieveLayer _ | CallExtract _ => True
  | CallSHAGet st _ _ => st = store
  | CallMetadataRestore _ | CallWalk _ | CallCopy _ _ | CallRemoveAll _ => False
  end.

(** Sample data for the restorer: a Linux host that escapes nothing, a
    restorer for one buildpack, and a cache with the archive [good] and a
    broken archive [bad]. *)
Definition sample_host : Host :=
  {| GOOS := "linux"; EscapeID := fun id => id; Digest := fun _ => "digest";
     RemoveErr := fun _ => None |}.

Definition sample_bp (id api : string) : buildpack.GroupBuildpack :=
  {| buildpack.ID := id; buildpack.Version := "1.0";
     buildpack.API := api; buildpack.Optional := false |}.

Definition sample_record (sha : string) (cache : bool) : platform.BuildpackLayerMetadata :=
  {| platform.SHA := sha; platform.Build := false;
     platform.Launch := false; platform.Cache := cache |}.

Definition sample_cacheMeta : platform.CacheMetadata :=
  {| platform.Buildpacks :=
       {[ "bp1" := {| platform.Layers :=
                        {[ "L1" := sample_record "good" true;
                           "L2" := sample_record "bad" true;
                           "L3" := sample_record "other" true ]} |} ]} |}.

Definition sample_cache : Cache :=
  Some {| RetrieveMetadata := (sample_cacheMeta, None);
          RetrieveLayer := fun sha =>
            if bool_decide (sha = "good")
            then ([layers.TarDir "/layers/bp1/L1";
                   layers.TarFile "/layers/bp1/L1/data" "cached"], None)
            else if bool_decide (sha = "bad")
                 then ([layers.TarOther "/layers/bp1/L2/dev"], None)
                 else ([], Some (errors_New "layer not found in cache")) |}.

Definition no_metadata_restorer : layer.MetadataRestorer :=
  fun _ _ _ _ d => (d, None).

Definition sample_restorer (bps : list buildpack.GroupBuildpack) (api : string)
  : Restorer :=
  {| LayersDir := "/layers";
     Buildpacks := bps;
     LayerMetadataRestorer := no_metadata_restorer;
     LayersMetadata := {| platform.App := ∅ |};
     Platform := {| cmd.API := api |} |}.

Definition sample_descriptor (cache : bool) : sidecar.LayerMetadataFile :=
  {| sidecar.Build := false; sidecar.Launch := false; sidecar.Cache := cache;
     sidecar.Data := ""; sidecar.EmbeddedSHA := "" |}.

Definition sample_state (d : Disk) (tasks : list errgroup.Task)
  (sched : list (list nat)) : RState :=
  {| world := {| disk := d; trace := [] |};
     g := {| errgroup.pending := tasks; errgroup.err := None |};
     schedule := sched |}.

Definition empty_disk : Disk := {| files := ∅; descriptors := ∅; shaFiles := ∅ |}.

(** The results of the goroutines that ended, in the order of the trace. *)
Definition task_results (tr : list Event) : list (option error) :=
  omap (fun e => match e with TaskDone res => Some res | _ => None end) tr.

(** The staging directories of the SBOM files and the place a staged file
    is copied to. *)
Definition sbomDir (h : Host) (r : Restorer) : string :=
  filepath.Join (GOOS h) [LayersDir r; "sbom"].

Definition sbomSubdir (h : Host) (r : Restorer) (bomType : string) : string :=
  filepath.Join (GOOS h) [LayersDir r; "sbom"; bomType].

Definition sbomDest (h : Host) (r : Restorer) (buildpackID layerName fileName : string)
  : string :=
  filepath.Join (GOOS h) [LayersDir r; buildpackID; layerName +:+ "." +:+ fileName].

(** The deferred clean-up of [restoreSBOM]. *)
Definition sbomCleanup (h : Host) (r : Restorer) (w : World) : World :=
  log (CallRemoveAll (sbomDir h r))
      {| disk := os_RemoveAll h (sbomDir h r) (disk w); trace := trace w |}.

(** The submatches of the pattern of the staging subtree [bomType]. *)
Definition bomMatch (h : Host) (bomType path : string)
  : option (string * string * string) :=
  regexp.FindStringSubmatch (runtime.PathSeparator (GOOS h)) bomType path.

(** The events of a walk of the staging subtree [bomType]: the walk itself
    and copies of files whose buildpack is in the group, to their place. *)
Definition walk_event (h : Host) (r : Restorer) (bomType : string) (e : Event) : Prop :=
  match e with
  | CallWalk _ => True
  | CallCopy src dst =>
      exists buildpackID layerName fileName,
        bomMatch h bomType src = Some (buildpackID, layerName, fileName)
        /\ Restorer_buildpackDetected h r buildpackID = true
        /\ dst = sbomDest h r buildpackID layerName fileName
  | _ => False
  end.

(** What a run of [Restore] on the platform API [v] may append to the
    trace: the metadata restorer is called only from 0.7 on and with the
    store of embedded hashes, every hash is asked of the store that the
    platform API selects, and the SBOM relocator works only from 0.8 on. *)
Definition restore_event (v : api.Version) (e : Event) : Prop :=
  match e with
  | CallMetadataRestore st =>
      at_least_0 7 v = true /\ st = layer.embeddedSHAStore
  | CallSHAGet st _ _ =>
      st = (if at_least_0 7 v then layer.embeddedSHAStore else layer.fileSHAStore)
  | CallWalk _ | CallCopy _ _ | CallRemoveAll _ => at_least_0 8 v = true
  | _ => True
  end.

(** The same for what follows the call of the metadata restorer. *)
Definition after_metadata_event (v : api.Version) (e : Event) : Prop :=
  match e with
  | CallMetadataRestore _ => False
  | _ => restore_event v e
  end.

(** A disk with SBOM files staged for the buildpacks [bp1] and [bp2]. *)
Definition sample_sbom_disk : Disk :=
  {| files := list_to_map
       [("/layers", os.Dir); ("/layers/bp1", os.Dir);
        ("/layers/sbom", os.Dir); ("/layers/sbom/launch", os.Dir);
        ("/layers/sbom/launch/bp1", os.Dir);
        ("/layers/sbom/launch/bp1/layerX", os.Dir);
        ("/layers/sbom/launch/bp1/layerX/sbom.cdx.json", os.File "bom of bp1");
        ("/layers/sbom/launch/bp2", os.Dir);
        ("/layers/sbom/launch/bp2/layerX", os.Dir);
        ("/layers/sbom/launch/bp2/layerX/sbom.cdx.json", os.File "bom of bp2")];
     descriptors := ∅;
     shaFiles := ∅ |}.

(** The same staged files, where the directory of [bp1] is missing, so
    that the copy fails. *)
Definition sample_sbom_disk_broken : Disk :=
  {| files := delete "/layers/bp1" (files sample_sbom_disk);
     descriptors := ∅;
     shaFiles := ∅ |}.

(** A disk with two layers of [bp1], the one cached with the hash on disk
    and the other not cached. *)
Definition sample_layers_disk : Disk :=
  {| files := list_to_map
       [("/layers", os.Dir); ("/layers/bp1", os.Dir);
        ("/layers/bp1/L1", os.Dir); ("/layers/bp1/L1/data", os.File "stale");
        ("/layers/bp1/old", os.Dir); ("/layers/bp1/old/data", os.File "old")];
     descriptors := {[ "/layers/bp1/L1" := sample_descriptor true;
                       "/layers/bp1/old" := sample_descriptor true ]};
     shaFiles := {[ "/layers/bp1/L1" := "good"; "/layers/bp1/old" := "gone" ]} |}.

Definition sample_layer (bp name : string) : buildpack.Layer :=
  {| buildpack.path := "/layers/" +:+ bp +:+ "/" +:+ name;
     buildpack.identifier := bp +:+ ":" +:+ name |}.

(** The events of the main flow that decide on a layer: a goroutine is
    started to restore its data, or its removal is called. *)
Definition starts_restore (l : buildpack.Layer) (evs : list Event) : Prop :=
  exists sha, CallGo l sha ∈ evs.

Definition removes (l : buildpack.Layer) (evs : list Event) : Prop :=
  CallRemove l ∈ evs.

(** The disk without the layer [l]: what a removal that does not fail
    leaves. *)
Definition removed (h : Host) (l : buildpack.Layer) (d : Disk) : Disk :=
  let d' := os_RemoveAll h (buildpack.path l) d in
  {| files := files d';
     descriptors := delete (buildpack.path l) (descriptors d');
     shaFiles := delete (buildpack.path l) (shaFiles d') |}.

(** Events that are not the start of a goroutine, and events that are not
    the removal of a layer. *)
Definition not_go (e : Event) : Prop :=
  match e with CallGo _ _ => False | _ => True end.

Definition not_remove (e : Event) : Prop :=
  match e with CallRemove _ => False | _ => True end.


(** ** Running [Restore] again *)

(** The hash that the store holds for the layer at [p], without computing
    any. *)
Definition stored (store : layer.SHAStore) (d : Disk) (p : string) : option string :=
  match store with
  | layer.fileSHAStore => shaFiles d !! p
  | layer.embeddedSHAStore => sidecar.EmbeddedSHA <$> descriptors d !! p
  end.

(** From [d] to [d'] descriptors were only deleted, and the layers that
    still have their descriptor still have the hash file they had. *)
Definition stable (d d' : Disk) : Prop :=
  descriptors d' ⊆ descriptors d
  /\ forall p x, is_Some (descriptors d' !! p) ->
                 shaFiles d !! p = Some x -> shaFiles d' !! p = Some x.

(** The layers that the descriptors on disk make up for a buildpack. *)
Definition layers_of (h : Host) (r : Restorer) (bp : buildpack.GroupBuildpack)
  (d : Disk) : list buildpack.Layer :=
  buildpack.layers
    (buildpack.ReadLayersDir h (LayersDir r) bp
       {| files := ∅; descriptors := descriptors d; shaFiles := ∅ |}).1.

Definition cachedLayersOf (cacheMeta : platform.CacheMetadata)
  (bp : buildpack.GroupBuildpack) : gmap string platform.BuildpackLayerMetadata :=
  platform.Layers (platform.MetadataForBuildpack cacheMeta (buildpack.ID bp)).

(** The layers that [Restore] would consider for a buildpack on [d]. *)
Definition candidate (h : Host) (r : Restorer) (cacheMeta : platform.CacheMetadata)
  (bp : buildpack.GroupBuildpack) (d : Disk) (l : buildpack.Layer) : Prop :=
  exists f, Restore_cachedFn h bp (cachedLayersOf cacheMeta bp) = Some f
            /\ l ∈ layers_of h r bp d /\ f d l = true.

(** Every candidate of the buildpack has a record, and the store holds
    the hash of that record for it: [Restore] would remove none. *)
Definition settled (h : Host) (r : Restorer) (cacheMeta : platform.CacheMetadata)
  (store : layer.SHAStore) (bp : buildpack.GroupBuildpack) (d : Disk) : Prop :=
  forall l, candidate h r cacheMeta bp d l ->
    exists rec, cachedLayersOf cacheMeta bp !! buildpack.Name h l = Some rec
                /\ stored store d (buildpack.path l) = Some (platform.SHA rec).



(** A step that leaves the function with an error, or panics. *)
Definition failed {A} (o : Step (option error) A) : Prop :=
  match o with
  | Return (Some _) | Panic => True
  | _ => False
  end.

(** Running [m] from a state whose goroutines are those of [Restore] leaves
    such a state and, unless [m] fails, a disk that is [stable] with
    respect to the one before. *)
Definition preserves {A} (h : Host) (cache : Cache) (m : Go RState (option error) A)
  : Prop :=
  forall s, pool_ok h cache s ->
    pool_ok h cache (m s).1
    /\ (~ failed (m s).2 -> stable (disk (world s)) (disk (world (m s).1))).

(** [m] never leaves the function with the result nil. *)
Definition no_nil_return {S A} (m : Go S (option error) A) : Prop :=
  forall s x, (m s).2 = Return x -> x <> None.




(** Sample data for running [Restore] twice.  A disk for the platform API
    0.8: the layer [L1] of [bp1] embeds the hash of its record, the layer
    [L2] another hash than that of its record, and an SBOM file is staged
    for [L1]. *)
Definition sample_embedded (sha : string) : sidecar.LayerMetadataFile :=
  {| sidecar.Build := false; sidecar.Launch := false; sidecar.Cache := true;
     sidecar.Data := ""; sidecar.EmbeddedSHA := sha |}.

Definition sample_restore_disk : Disk :=
  {| files := list_to_map
       [("/layers", os.Dir); ("/layers/bp1", os.Dir);
        ("/layers/bp1/L1", os.Dir); ("/layers/bp1/L1/data", os.File "stale");
        ("/layers/bp1/L2", os.Dir); ("/layers/bp1/L2/data", os.File "old");
        ("/layers/sbom", os.Dir); ("/layers/sbom/cache", os.Dir);
        ("/layers/sbom/cache/bp1", os.Dir); ("/layers/sbom/cache/bp1/L1", os.Dir);
        ("/layers/sbom/cache/bp1/L1/sbom.cdx.json", os.File "bom of L1")];
     descriptors := {[ "/layers/bp1/L1" := sample_embedded "good";
                       "/layers/bp1/L2" := sample_embedded "stale" ]};
     shaFiles := ∅ |}.

(** A disk for the platform API 0.6: the layer [L1] has the hash of its
    record in its hash file; the layer [L2] has a descriptor and a record,
    but neither hash file nor directory, so that its hash cannot be had. *)
Definition sample_failing_disk : Disk :=
  {| files := list_to_map
       [("/layers", os.Dir); ("/layers/bp1", os.Dir);
        ("/layers/bp1/L1", os.Dir); ("/layers/bp1/L1/data", os.File "stale")];
     descriptors := {[ "/layers/bp1/L1" := sample_descriptor true;
                       "/layers/bp1/L2" := sample_descriptor true ]};
     shaFiles := {[ "/layers/bp1/L1" := "good" ]} |}.

(** A schedule that lets the first goroutine run at the sixth point at
    which goroutines may run, and the others when [Restore] waits. *)
Definition sample_schedule : list (list nat) := [[]; []; []; []; []; [0]].

(** A disk for the platform API 0.6 with two layers of [bp1]: [L1] with
    the hash of its record, [L2] with another hash than that of its
    record. *)
Definition sample_stray_disk : Disk :=
  {| files := list_to_map
       [("/layers", os.Dir); ("/layers/bp1", os.Dir);
        ("/layers/bp1/L1", os.Dir); ("/layers/bp1/L1/data", os.File "stale");
        ("/layers/bp1/L2", os.Dir)];
     descriptors := {[ "/layers/bp1/L1" := sample_descriptor true;
                       "/layers/bp1/L2" := sample_descriptor true ]};
     shaFiles := {[ "/layers/bp1/L1" := "good"; "/layers/bp1/L2" := "stale" ]} |}.

(** A cache whose only archive holds the one file [name]. *)
Definition sample_cache_of (name : string) : Cache :=
  Some {| RetrieveMetadata := (sample_cacheMeta, None);
          RetrieveLayer := fun sha =>
            if bool_decide (sha = "good")
            then ([layers.TarFile name "stray"], None)
            else ([], Some (errors_New "layer not found in cache")) |}.

(** A metadata restorer that writes the descriptor of [L1] and refuses to
    write it over one that is there. *)
Definition sample_fresh_restorer : layer.MetadataRestorer :=
  fun _ _ _ _ d =>
    match descriptors d !! "/layers/bp1/L1" with
    | Some _ => (d, Some (errors_New "layer metadata exists"))
    | None =>
        ({| files := files d;
            descriptors := <["/layers/bp1/L1" := sample_embedded "good"]> (descriptors d);
            shaFiles := shaFiles d |}, None)
    end.


(* ================================================================== *)
(** * Part II, continued: the analyze command                          *)
(* ================================================================== *)

(** ** [cmd/lifecycle/analyzer.go]: flags, arguments, privileges and
    execution

    The methods of [analyzeCmd] other than stack validation.  They change
    fields of the command, so the command is part of the state they run
    on, beside the calls they make outside the file, in order. *)

(** [fmt.Sprintf] and [fmt.Errorf] for the verb [%d] on integers: every
    [%d] takes the next argument, in decimal. *)
Fixpoint Sprintf_d (format : string) (args : list Z) : string :=
  match format with
  | EmptyString => EmptyString
  | String "%" (String "d" rest) =>
      match args with
      | n :: args' => pretty n +:+ Sprintf_d rest args'
      | [] => "%!d(MISSING)" +:+ Sprintf_d rest []
      end
  | String c rest => String c (Sprintf_d rest args)
  end.

Open Scope go_scope.

Module analyzer.

(** [authn.Keychain], [client.CommonAPIClient] and
    [platform.AnalyzedMetadata]: values that the command only passes on.
    The empty analyzed metadata is the zero value of its type. *)
Inductive Keychain : Type := Keychain_of (id : string).
Inductive DockerClient : Type := DockerClient_of (id : string).
Inductive AnalyzedMetadata : Type := AnalyzedMetadata_of (content : string).

Definition AnalyzedMetadata_zero : AnalyzedMetadata := AnalyzedMetadata_of "".

(** [analyzeArgsPlatform06]; a [buildpack.Group] is the list of its
    buildpacks. *)
Record analyzeArgsPlatform06 : Type :=
{ cacheDir : string;
  cacheImageTag : string;
  groupPath : string;
  skipLayers : bool;
  cache : Cache;
  group : list buildpack.GroupBuildpack }.

(** [analyzeCmd], with the fields of the embedded [analyzeArgs]. *)
Record analyzeCmd : Type :=
{ imageName : string;
  layersDir : string;
  orderPath : string;                      (* Platform API >= 0.7 *)
  runImageRef : string;                    (* Platform API >= 0.7 *)
  stackPath : string;                      (* Platform API >= 0.7 *)
  useDaemon : bool;
  platform06 : analyzeArgsPlatform06;
  additionalTags : list string;            (* Platform API >= 0.7 *)
  docker : option DockerClient;  (* construct if necessary before dropping privileges *)
  keychain : option Keychain;
  platform : cmd.Platform;
  uid : Z;
  gid : Z;
  analyzedPath : string }.

(** The command as stack validation reads it. *)
Definition stack_view (a : analyzeCmd) : main.analyzeCmd :=
  {| main.imageName := imageName a;
     main.runImageRef := runImageRef a;
     main.stackPath := stackPath a;
     main.useDaemon := useDaemon a;
     main.platform := platform a |}.

(** Assignments to the fields that the methods write. *)
Definition set_imageName (v : string) (a : analyzeCmd) : analyzeCmd :=
  {| imageName := v; layersDir := layersDir a; orderPath := orderPath a;
     runImageRef := runImageRef a; stackPath := stackPath a; useDaemon := useDaemon a;
     platform06 := platform06 a; additionalTags := additionalTags a;
     docker := docker a; keychain := keychain a; platform := platform a;
     uid := uid a; gid := gid a; analyzedPath := analyzedPath a |}.

Definition set_orderPath (v : string) (a : analyzeCmd) : analyzeCmd :=
  {| imageName := imageName a; layersDir := layersDir a; orderPath := v;
     runImageRef := runImageRef a; stackPath := stackPath a; useDaemon := useDaemon a;
     platform06 := platform06 a; additionalTags := additionalTags a;
     docker := docker a; keychain := keychain a; platform := platform a;
     uid := uid a; gid := gid a; analyzedPath := analyzedPath a |}.

Definition set_analyzedPath (v : string) (a : analyzeCmd) : analyzeCmd :=
  {| imageName := imageName a; layersDir := layersDir a; orderPath := orderPath a;
     runImageRef := runImageRef a; stackPath := stackPath a; useDaemon := useDaemon a;
     platform06 := platform06 a; additionalTags := additionalTags a;
     docker := docker a; keychain := keychain a; platform := platform a;
     uid := uid a; gid := gid a; analyzedPath := v |}.

Definition set_docker (v : option DockerClient) (a : analyzeCmd) : analyzeCmd :=
  {| imageName := imageName a; layersDir := layersDir a; orderPath := orderPath a;
     runImageRef := runImageRef a; stackPath := stackPath a; useDaemon := useDaemon a;
     platform06 := platform06 a; additionalTags := additionalTags a;
     docker := v; keychain := keychain a; platform := platform a;
     uid := uid a; gid := gid a; analyzedPath := analyzedPath a |}.

Definition set_keychain (v : option Keychain) (a : analyzeCmd) : analyzeCmd :=
  {| imageName := imageName a; layersDir := layersDir a; orderPath := orderPath a;
     runImageRef := runImageRef a; stackPath := stackPath a; useDaemon := useDaemon a;
     platform06 := platform06 a; additionalTags := additionalTags a;
     docker := docker a; keychain := v; platform := platform a;
     uid := uid a; gid := gid a; analyzedPath := analyzedPath a |}.

Definition set_platform06 (v : analyzeArgsPlatform06) (a : analyzeCmd) : analyzeCmd :=
  {| imageName := imageName a; layersDir := layersDir a; orderPath := orderPath a;
     runImageRef := runImageRef a; stackPath := stackPath a; useDaemon := useDaemon a;
     platform06 := v; additionalTags := additionalTags a;
     docker := docker a; keychain := keychain a; platform := platform a;
     uid := uid a; gid := gid a; analyzedPath := analyzedPath a |}.

Definition set_groupPath (v : string) (p : analyzeArgsPlatform06) : analyzeArgsPlatform06 :=
  {| cacheDir := cacheDir p; cacheImageTag := cacheImageTag p; groupPath := v;
     skipLayers := skipLayers p; cache := cache p; group := group p |}.

Definition set_group (v : list buildpack.GroupBuildpack) (p : analyzeArgsPlatform06)
  : analyzeArgsPlatform06 :=
  {| cacheDir := cacheDir p; cacheImageTag := cacheImageTag p; groupPath := groupPath p;
     skipLayers := skipLayers p; cache := cache p; group := v |}.

Definition set_cache (v : Cache) (p : analyzeArgsPlatform06) : analyzeArgsPlatform06 :=
  {| cacheDir := cacheDir p; cacheImageTag := cacheImageTag p; groupPath := groupPath p;
     skipLayers := skipLayers p; cache := v; group := group p |}.

(** The fields of the [lifecycle.Analyzer] that [analyze] builds; the
    layer metadata restorer is the one made for the layers directory and
    the skip-layers flag. *)
Record Analyzer : Type :=
{ Analyzer_Buildpacks : list buildpack.GroupBuildpack;
  Analyzer_Cache : Cache;
  Analyzer_Platform : cmd.Platform;
  Analyzer_Image : option imgutil.Image;
  Analyzer_layersDir : string;
  Analyzer_skipLayers : bool }.

(** The flags of the command line, and the fields they are bound to. *)
Inductive Flag : Type :=
| FlagAnalyzedPath | FlagLayersDir | FlagOrderPath | FlagPreviousImage | FlagRunImage
| FlagStackPath | FlagTags | FlagCacheImage | FlagCacheDir | FlagGroupPath
| FlagSkipLayers | FlagUseDaemon | FlagUID | FlagGID.

Inductive Field : Type :=
| field_analyzedPath | field_layersDir | field_orderPath | field_imageName
| field_runImageRef | field_stackPath | field_additionalTags
| field_cacheImageTag | field_cacheDir | field_groupPath | field_skipLayers
| field_useDaemon | field_uid | field_gid.

#[global] Instance Flag_eq_dec : EqDecision Flag.
Proof. solve_decision. Defined.

#[global] Instance Field_eq_dec : EqDecision Field.
Proof. solve_decision. Defined.

(** What the command reaches outside this file: the constants and path
    defaults of the [cmd] package, the keychain, the [priv] package, the
    readers and writers of the [lifecycle] package, the other files of the
    command, and the analyzer itself. *)
Record Env : Type :=
{ stack_env : main.AnalyzerEnv;
  PlaceholderAnalyzedPath : string;
  PlaceholderGroupPath : string;
  PlaceholderOrderPath : string;
  DefaultAnalyzedPath : string -> string -> string;
  DefaultGroupPath : string -> string -> string;
  DefaultOrderPath : string -> string -> string;
  auth_DefaultKeychain : list string -> option Keychain * option error;
  priv_DockerClient : option DockerClient * option error;
  priv_EnsureOwner : Z -> Z -> list string -> option error;
  priv_RunAs : Z -> Z -> option error;
  lifecycle_ReadGroup : string -> list buildpack.GroupBuildpack * option error;
  verifyBuildpackApis : list buildpack.GroupBuildpack -> option error;
  initCache : string -> string -> option Keychain -> Cache * option error;
  lifecycle_ReadOrder : string -> option error;
  Analyzer_Analyze : Analyzer -> AnalyzedMetadata * option error;
  CodeFor_AnalyzeError : cmd.Platform -> ExitCode;
  lifecycle_WriteTOML : string -> AnalyzedMetadata -> option error }.

(** The calls the command makes, in order. *)
Inductive Call : Type :=
| Warn (msg : string)
| CallDefaultKeychain (images : list string)
| CallDockerClient
| CallEnsureOwner (uid gid : Z) (paths : list string)
| CallRunAs (uid gid : Z)
| CallReadGroup (path : string)
| CallVerifyBuildpackApis (group : list buildpack.GroupBuildpack)
| CallInitCache (cacheImageTag cacheDir : string) (keychain : option Keychain)
| CallReadOrder (path : string)
| CallStack (e : main.AnalyzerEvent)
| CallLocalNewImage (name : string)
| CallRemoteNewImage (name : string)
| CallAnalyze (analyzer : Analyzer)
| CallWriteTOML (path : string) (md : AnalyzedMetadata).

Record State : Type := { self : analyzeCmd; calls : list Call }.

Definition this {R} : Go State R analyzeCmd :=
  fun s => (s, Next (self s)).

Definition assign {R} (f : analyzeCmd -> analyzeCmd) : Go State R unit :=
  modify (fun s => {| self := f (self s); calls := calls s |}).

Definition call_out {R} (c : Call) : Go State R unit :=
  modify (fun s => {| self := self s; calls := (calls s ++ [c])%list |}).

Definition platformAPIVersionGreaterThan06 (a : analyzeCmd) : option bool :=
  main.analyzeCmd_platformAPIVersionGreaterThan06 (stack_view a).

Definition restoresLayerMetadata (a : analyzeCmd) : option bool :=
  negb <$> platformAPIVersionGreaterThan06 a.

Definition supportsImageArgument (a : analyzeCmd) : option bool :=
  negb <$> platformAPIVersionGreaterThan06 a.

(** [DefineFlags]: the flags defined, each with the field it sets. *)
Definition DefineFlags (a : analyzeCmd) : option (list (Flag * Field)) :=
  match platformAPIVersionGreaterThan06 a with
  | Some greater =>
      Some ([(FlagAnalyzedPath, field_analyzedPath);
             (FlagLayersDir, field_layersDir)]
            ++ (if greater
                then [(FlagOrderPath, field_orderPath);
                      (FlagPreviousImage, field_imageName);
                      (FlagRunImage, field_runImageRef);
                      (FlagStackPath, field_stackPath);
                      (FlagTags, field_additionalTags)]
                else [(FlagCacheImage, field_cacheImageTag);
                      (FlagCacheDir, field_cacheDir);
                      (FlagGroupPath, field_groupPath);
                      (FlagSkipLayers, field_skipLayers)])
            ++ [(FlagUseDaemon, field_useDaemon);
                (FlagUID, field_uid);
                (FlagGID, field_gid)])%list
  | None => None
  end.

Definition registryImages (a : analyzeCmd) : list string :=
  let registryImages := [] in
  let registryImages :=
    if bool_decide (cacheImageTag (platform06 a) <> "")
    then (registryImages ++ [cacheImageTag (platform06 a)])%list
    else registryImages in
  let registryImages :=
    if negb (useDaemon a)
    then (registryImages ++ [imageName a])%list
    else registryImages in
  registryImages.

Section Command.
Variable env : Env.

Definition invalid_args (err : error) : option error :=
  Some (cmd_FailErrCode err CodeInvalidArgs "parse arguments").

Definition Args (nargs : Z) (args : list string)
  : Go State (option error) (option error) :=
  a <- this ;;
  supports <- must (supportsImageArgument a) ;;
  (if supports
   then
     if bool_decide (nargs <> 1%Z)
     then return_ (invalid_args
            (errors_New (Sprintf_d "received %d arguments, but expected 1" [nargs])))
     else
       arg0 <- must (args !! 0%nat) ;;
       if bool_decide (arg0 = "")
       then return_ (invalid_args (errors_New "image argument is required"))
       else assign (set_imageName arg0)
   else
     if bool_decide (nargs <> 0%Z)
     then return_ (invalid_args (errors_New "received unexpected arguments"))
     else ret tt) ;;;
  a <- this ;;
  restores <- must (restoresLayerMetadata a) ;;
  (if restores
   then
     if bool_decide (cacheImageTag (platform06 a) = "")
        && bool_decide (cacheDir (platform06 a) = "")
     then call_out (Warn "Not restoring cached layer metadata, no cache flag specified.")
     else ret tt
   else ret tt) ;;;
  a <- this ;;
  (if bool_decide (analyzedPath a = PlaceholderAnalyzedPath env)
   then assign (set_analyzedPath
                  (DefaultAnalyzedPath env (cmd.API (platform a)) (layersDir a)))
   else ret tt) ;;;
  a <- this ;;
  (if bool_decide (groupPath (platform06 a) = PlaceholderGroupPath env)
   then assign (fun a0 =>
          set_platform06
            (set_groupPath (DefaultGroupPath env (cmd.API (platform a)) (layersDir a))
                           (platform06 a0)) a0)
   else ret tt) ;;;
  a <- this ;;
  (if bool_decide (orderPath a = PlaceholderOrderPath env)
   then assign (set_orderPath
                  (DefaultOrderPath env (cmd.API (platform a)) (layersDir a)))
   else ret tt) ;;;
  return_ None.

Definition Privileges : Go State (option error) (option error) :=
  a <- this ;;
  call_out (CallDefaultKeychain (registryImages a)) ;;;
  let '(kc, err) := auth_DefaultKeychain env (registryImages a) in
  assign (set_keychain kc) ;;;
  (match err with
   | Some err => return_ (Some (cmd_FailErr err "resolve keychain"))
   | None => ret tt
   end) ;;;
  a <- this ;;
  (if useDaemon a
   then
     call_out CallDockerClient ;;;
     let '(dc, err) := priv_DockerClient env in
     assign (set_docker dc) ;;;
     match err with
     | Some err => return_ (Some (cmd_FailErr err "initialize docker client"))
     | None => ret tt
     end
   else ret tt) ;;;
  a <- this ;;
  call_out (CallEnsureOwner (uid a) (gid a) [layersDir a; cacheDir (platform06 a)]) ;;;
  (match priv_EnsureOwner env (uid a) (gid a) [layersDir a; cacheDir (platform06 a)] with
   | Some err => return_ (Some (cmd_FailErr err "chown volumes"))
   | None => ret tt
   end) ;;;
  call_out (CallRunAs (uid a) (gid a)) ;;;
  (match priv_RunAs env (uid a) (gid a) with
   | Some err =>
       return_ (Some (cmd_FailErr err (Sprintf_d "exec as user %d:%d" [uid a; gid a])))
   | None => ret tt
   end) ;;;
  return_ None.

(** [analyze], a method of [analyzeArgs] by value: it reads the command
    and does not change it. *)
Definition analyze (aa : analyzeCmd)
  : Go State (AnalyzedMetadata * option error) (AnalyzedMetadata * option error) :=
  img <-
    (if bool_decide (imageName aa <> "")
     then
       let* (img, err) :=
         (if useDaemon aa
          then call_out (CallLocalNewImage (imageName aa)) ;;;
               ret (main.local_NewImage (stack_env env) (imageName aa))
          else call_out (CallRemoteNewImage (imageName aa)) ;;;
               ret (main.remote_NewImage (stack_env env) (imageName aa))) in
       match err with
       | Some err =>
           return_ (AnalyzedMetadata_zero, Some (cmd_FailErr err "get previous image"))
       | None => ret img
       end
     else ret None) ;;
  let analyzer :=
    {| Analyzer_Buildpacks := group (platform06 aa);
       Analyzer_Cache := cache (platform06 aa);
       Analyzer_Platform := platform aa;
       Analyzer_Image := img;
       Analyzer_layersDir := layersDir aa;
       Analyzer_skipLayers := skipLayers (platform06 aa) |} in
  call_out (CallAnalyze analyzer) ;;;
  let '(analyzedMD, err) := Analyzer_Analyze env analyzer in
  match err with
  | Some err =>
      return_ (AnalyzedMetadata_zero,
               Some (cmd_FailErrCode err (CodeFor_AnalyzeError env (platform aa)) "analyzer"))
  | None => return_ (analyzedMD, None)
  end.

(** [validateStack] of the stack-validation part, run on the command as
    it stands. *)
Definition validateStack : Go State (option error) (option error) :=
  fun s =>
    match run (main.analyzeCmd_validateStack (stack_env env) (stack_view (self s))) [] with
    | (evs, Returned e) =>
        ({| self := self s; calls := (calls s ++ map CallStack evs)%list |}, Return e)
    | (evs, Panicked) =>
        ({| self := self s; calls := (calls s ++ map CallStack evs)%list |}, Panic)
    end.

Definition Exec : Go State (option error) (option error) :=
  a <- this ;;
  restores <- must (restoresLayerMetadata a) ;;
  (if restores
   then
     call_out (CallReadGroup (groupPath (platform06 a))) ;;;
     let '(grp, err) := lifecycle_ReadGroup env (groupPath (platform06 a)) in
     (match err with
      | Some err => return_ (Some (cmd_FailErr err "read buildpack group"))
      | None => ret tt
      end) ;;;
     call_out (CallVerifyBuildpackApis grp) ;;;
     (match verifyBuildpackApis env grp with
      | Some err => return_ (Some err)
      | None => ret tt
      end) ;;;
     call_out (CallInitCache (cacheImageTag (platform06 a)) (cacheDir (platform06 a))
                             (keychain a)) ;;;
     let '(cacheStore, err) :=
       initCache env (cacheImageTag (platform06 a)) (cacheDir (platform06 a))
                 (keychain a) in
     (match err with
      | Some err => return_ (Some (cmd_FailErr err "initialize cache"))
      | None => ret tt
      end) ;;;
     assign (fun a0 => set_platform06 (set_group grp (platform06 a0)) a0) ;;;
     assign (fun a0 => set_platform06 (set_cache cacheStore (platform06 a0)) a0)
   else ret tt) ;;;
  a <- this ;;
  (if bool_decide (orderPath a <> "")
   then
     call_out (CallReadOrder (orderPath a)) ;;;
     match lifecycle_ReadOrder env (orderPath a) with
     | Some err => return_ (Some (cmd_FailErr err "read buildpack order file"))
     | None => ret tt
     end
   else ret tt) ;;;
  err <- call validateStack ;;
  (match err with
   | Some err => return_ (Some (cmd_FailErr err "validate stack"))
   | None => ret tt
   end) ;;;
  a <- this ;;
  let* (analyzedMD, err) := call (analyze a) in
  (match err with
   | Some err => return_ (Some err)
   | None => ret tt
   end) ;;;
  a <- this ;;
  call_out (CallWriteTOML (analyzedPath a) analyzedMD) ;;;
  (match lifecycle_WriteTOML env (analyzedPath a) analyzedMD with
   | Some err => return_ (Some (errors_Wrap err "write analyzed.toml"))
   | None => ret tt
   end) ;;;
  return_ None.
End Command.
End analyzer.

Close Scope go_scope.

(** ** Further definitions for the properties *)


(** No goroutine is waiting to run and none has failed. *)
Definition idle (s : RState) : Prop :=
  errgroup.pending (g s) = [] /\ errgroup.err (g s) = None.

(** Running [m] with no goroutine waiting leaves none waiting, and only
    appends events that satisfy [P]. *)
Definition keeps_idle {R A} (P : Event -> Prop) (m : Go RState R A) : Prop :=
  forall s, idle s -> idle (m s).1 /\ appends P (world s) (world (m s).1).

(** The events of a run that restores nothing from a cache: no hash is
    asked for, no goroutine is started, no archive is retrieved or
    extracted. *)
Definition cacheless_event (e : Event) : Prop :=
  match e with
  | CallSHAGet _ _ _ | CallGo _ _ | CallRetrieveLayer _ | CallExtract _ | TaskDone _ => False
  | _ => True
  end.

(** The events of the pass over a buildpack in which [Restore] deals with
    none but layers that the cache metadata [cachedLayers] records with
    the cache flag, and removes none for want of a record. *)
Definition recorded_event (h : Host)
  (cachedLayers : gmap string platform.BuildpackLayerMetadata) (e : Event) : Prop :=
  match e with
  | Infof format _ => format <> "Removing %q, not in cache"
  | CallSHAGet _ _ l | CallRemove l | CallGo l _ =>
      exists rec, cachedLayers !! buildpack.Name h l = Some rec
                  /\ platform.Cache rec = true
  | _ => True
  end.

(** Sample data for the analyze command: a command for the platform API
    [api] with the positional image [image], and an environment whose
    outside calls all succeed. *)
Definition sample_command (api image : string) : analyzer.analyzeCmd :=
  {| analyzer.imageName := image;
     analyzer.layersDir := "/layers";
     analyzer.orderPath := "";
     analyzer.runImageRef := "";
     analyzer.stackPath := "/cnb/stack.toml";
     analyzer.useDaemon := false;
     analyzer.platform06 :=
       {| analyzer.cacheDir := ""; analyzer.cacheImageTag := "";
          analyzer.groupPath := "<group>"; analyzer.skipLayers := false;
          analyzer.cache := None; analyzer.group := [] |};
     analyzer.additionalTags := [];
     analyzer.docker := None;
     analyzer.keychain := None;
     analyzer.platform := {| cmd.API := api |};
     analyzer.uid := 1000;
     analyzer.gid := 1000;
     analyzer.analyzedPath := "<analyzed>" |}.

Definition sample_command_env : analyzer.Env :=
  {| analyzer.stack_env := sample_env (sample_stackMD "bionic" "reg-a/img" []) "bionic";
     analyzer.PlaceholderAnalyzedPath := "<analyzed>";
     analyzer.PlaceholderGroupPath := "<group>";
     analyzer.PlaceholderOrderPath := "<order>";
     analyzer.DefaultAnalyzedPath := fun _ layersDir => layersDir +:+ "/analyzed.toml";
     analyzer.DefaultGroupPath := fun _ layersDir => layersDir +:+ "/group.toml";
     analyzer.DefaultOrderPath := fun _ layersDir => layersDir +:+ "/order.toml";
     analyzer.auth_DefaultKeychain := fun _ => (Some (analyzer.Keychain_of "default"), None);
     analyzer.priv_DockerClient := (Some (analyzer.DockerClient_of "docker"), None);
     analyzer.priv_EnsureOwner := fun _ _ _ => None;
     analyzer.priv_RunAs := fun _ _ => None;
     analyzer.lifecycle_ReadGroup := fun _ => ([sample_bp "bp1" "0.6"], None);
     analyzer.verifyBuildpackApis := fun _ => None;
     analyzer.initCache := fun _ _ _ => (sample_cache, None);
     analyzer.lifecycle_ReadOrder := fun _ => None;
     analyzer.Analyzer_Analyze := fun _ => (analyzer.AnalyzedMetadata_of "analyzed", None);
     analyzer.CodeFor_AnalyzeError := fun _ => CodeFailed;
     analyzer.lifecycle_WriteTOML := fun _ _ => None |}.

(** The warning of [Args], if any, for a command on a platform API on which
    the analyzer restores layer metadata. *)
Definition Args_warning (a : analyzer.analyzeCmd) : list analyzer.Call :=
  if bool_decide (analyzer.cacheImageTag (analyzer.platform06 a) = "")
     && bool_decide (analyzer.cacheDir (analyzer.platform06 a) = "")
  then [analyzer.Warn "Not restoring cached layer metadata, no cache flag specified."]
  else [].

(** All that [Privileges] does before it drops privileges has succeeded:
    the keychain is resolved, the docker client is made if the daemon is
    used, and the volumes are owned by the user. *)
Definition privileged_ok (env : analyzer.Env) (a : analyzer.analyzeCmd) : Prop :=
  (analyzer.auth_DefaultKeychain env (analyzer.registryImages a)).2 = None
  /\ (analyzer.useDaemon a = true -> (analyzer.priv_DockerClient env).2 = None)
  /\ analyzer.priv_EnsureOwner env (analyzer.uid a) (analyzer.gid a)
       [analyzer.layersDir a; analyzer.cacheDir (analyzer.platform06 a)] = None.

(** The calls of [Privileges] on the command [a], from the results of the
    calls. *)
Definition Privileges_calls (env : analyzer.Env) (a : analyzer.analyzeCmd)
  : list analyzer.Call :=
  analyzer.CallDefaultKeychain (analyzer.registryImages a)
  :: match (analyzer.auth_DefaultKeychain env (analyzer.registryImages a)).2 with
     | Some _ => []
     | None =>
         (if analyzer.useDaemon a then [analyzer.CallDockerClient] else [])
         ++ match (if analyzer.useDaemon a then (analyzer.priv_DockerClient env).2
                   else None) with
            | Some _ => []
            | None =>
                analyzer.CallEnsureOwner (analyzer.uid a) (analyzer.gid a)
                  [analyzer.layersDir a; analyzer.cacheDir (analyzer.platform06 a)]
                :: match analyzer.priv_EnsureOwner env (analyzer.uid a) (analyzer.gid a)
                           [analyzer.layersDir a;
                            analyzer.cacheDir (analyzer.platform06 a)] with
                   | Some _ => []
                   | None => [analyzer.CallRunAs (analyzer.uid a) (analyzer.gid a)]
                   end
            end
     end.

(** Kinds of calls of the analyze command. *)
Definition write_call (c : analyzer.Call) : Prop :=
  match c with analyzer.CallWriteTOML _ _ => True | _ => False end.

Definition group_call (c : analyzer.Call) : Prop :=
  match c with
  | analyzer.CallReadGroup _ | analyzer.CallVerifyBuildpackApis _
  | analyzer.CallInitCache _ _ _ => True
  | _ => False
  end.

Definition stack_call (c : analyzer.Call) : Prop :=
  match c with analyzer.CallStack _ => True | _ => False end.

Definition image_call (c : analyzer.Call) : Prop :=
  match c with
  | analyzer.CallLocalNewImage _ | analyzer.CallRemoteNewImage _ => True
  | _ => False
  end.

(** How [analyze] opens the previous image [name]: from the daemon or from
    the registry. *)
Definition open_previous (env : analyzer.Env) (aa : analyzer.analyzeCmd)
  : analyzer.Call * (option imgutil.Image * option error) :=
  if analyzer.useDaemon aa
  then (analyzer.CallLocalNewImage (analyzer.imageName aa),
        main.local_NewImage (analyzer.stack_env env) (analyzer.imageName aa))
  else (analyzer.CallRemoteNewImage (analyzer.imageName aa),
        main.remote_NewImage (analyzer.stack_env env) (analyzer.imageName aa)).

(** The group and the cache that [analyze] gives to the analyzer are those
    of the command [aa]. *)
Definition analysis_with (aa : analyzer.analyzeCmd) (c : analyzer.Call) : Prop :=
  match c with
  | analyzer.CallAnalyze an =>
      analyzer.Analyzer_Buildpacks an = analyzer.group (analyzer.platform06 aa)
      /\ analyzer.Analyzer_Cache an = analyzer.cache (analyzer.platform06 aa)
  | _ => True
  end.

(** The calls of the stack validation that open an image. *)
Definition open_event (e : main.AnalyzerEvent) : Prop :=
  match e with
  | main.EvLocalNewImage _ | main.EvRemoteNewImage _ => True
  | _ => False
  end.

(** ** Definitions for the staged files and for the layers of a run *)





(** A layers directory whose own path holds the name of a staging
    subtree, with a file staged for [bp1]. *)
Definition sample_sbom_disk_nested : Disk :=
  {| files := list_to_map
       [("/launch", os.Dir); ("/launch/layers", os.Dir);
        ("/launch/layers/bp1", os.Dir);
        ("/launch/layers/sbom", os.Dir); ("/launch/layers/sbom/launch", os.Dir);
        ("/launch/layers/sbom/launch/bp1", os.Dir);
        ("/launch/layers/sbom/launch/bp1/layerX", os.Dir);
        ("/launch/layers/sbom/launch/bp1/layerX/sbom.cdx.json", os.File "bom of bp1")];
     descriptors := ∅; shaFiles := ∅ |}.

Definition sample_nested_restorer : Restorer :=
  {| LayersDir := "/launch/layers";
     Buildpacks := [sample_bp "bp1" "0.6"];
     LayerMetadataRestorer := no_metadata_restorer;
     LayersMetadata := {| platform.App := ∅ |};
     Platform := {| cmd.API := "0.8" |} |}.

(** The hashes of the goroutines started, in the order of [g.Go]. *)
Definition go_shas (evs : list Event) : list string :=
  omap (fun e => match e with CallGo _ sha => Some sha | _ => None end) evs.

(** The events of a goroutine that has fetched the archive of the hash
    [sha], has extracted it and has returned nil. *)
Definition task_block (sha : string) : list Event :=
  [Debugf "Retrieving data for %q" [sha]; CallRetrieveLayer sha; CallExtract "";
   TaskDone None].

(** A goroutine for the hash [sha] has run to its end in [evs], and has
    returned nil. *)
Definition restored_task (sha : string) (evs : list Event) : Prop :=
  exists pre post, evs = (pre ++ task_block sha ++ post)%list.

(** Events that start no goroutine, end none and remove no layer. *)
Definition quiet_event (e : Event) : Prop :=
  match e with
  | CallRemove _ | CallGo _ _ | TaskDone _ => False
  | _ => True
  end.

(** From [s] to [s'] the trace has grown by some events, the disk is
    [stable], every layer whose removal was called has lost its
    descriptor, every goroutine started or still to run at [s] has ended
    or is still to run at [s'], and as long as the group has no error the
    goroutines that have ended have returned nil. *)
Definition progress (h : Host) (cache : Cache) (s s' : RState) : Prop :=
  exists evs,
    trace (world s') = (trace (world s) ++ evs)%list
    /\ stable (disk (world s)) (disk (world s'))
    /\ (forall l, CallRemove l ∈ evs ->
          descriptors (disk (world s')) !! buildpack.path l = None)
    /\ length (task_results evs) + length (errgroup.pending (g s'))
       = length (go_shas evs) + length (errgroup.pending (g s))
    /\ (errgroup.err (g s') = None ->
        errgroup.err (g s) = None
        /\ Forall (fun e => e = None) (task_results evs)
        /\ forall sha,
             Restorer_restoreCacheLayer h cache sha ∈ errgroup.pending (g s)
             \/ sha ∈ go_shas evs ->
             Restorer_restoreCacheLayer h cache sha ∈ errgroup.pending (g s')
             \/ restored_task sha evs).

(** Running [m] from a state whose goroutines are those of [Restore] leaves
    such a state and, unless [m] fails, one that is a [progress] on the
    state before. *)
Definition along {A} (h : Host) (cache : Cache) (m : Go RState (option error) A)
  : Prop :=
  forall s, pool_ok h cache s ->
    pool_ok h cache (m s).1 /\ (~ failed (m s).2 -> progress h cache s (m s).1).

(** The goroutines that [Restore] starts are for layers with a record in
    the cache metadata of a buildpack of the group, and for the hash of
    that record. *)
Definition decided_event (h : Host) (r : Restorer) (cacheMeta : platform.CacheMetadata)
  (e : Event) : Prop :=
  match e with
  | CallGo l sha =>
      exists bp rec, bp ∈ Buildpacks r
                     /\ cachedLayersOf cacheMeta bp !! buildpack.Name h l = Some rec
                     /\ sha = platform.SHA rec
  | _ => True
  end.

(** A disk for the platform API 0.6 with two layers of [bp1] that both
    have the hash of their record in their hash file; the cache holds a
    broken archive for the hash of [L2]. *)
Definition sample_stale_disk : Disk :=
  {| files := list_to_map
       [("/layers", os.Dir); ("/layers/bp1", os.Dir);
        ("/layers/bp1/L1", os.Dir); ("/layers/bp1/L1/data", os.File "stale");
        ("/layers/bp1/L2", os.Dir); ("/layers/bp1/L2/data", os.File "stale too")];
     descriptors := {[ "/layers/bp1/L1" := sample_descriptor true;
                       "/layers/bp1/L2" := sample_descriptor true ]};
     shaFiles := {[ "/layers/bp1/L1" := "good"; "/layers/bp1/L2" := "bad" ]} |}.

(** A host on which the hash file of the layer [old] cannot be removed. *)
Definition sample_host_readonly : Host :=
  {| GOOS := "linux"; EscapeID := fun id => id; Digest := fun _ => "digest";
     RemoveErr := fun p => if bool_decide (p = "/layers/bp1/old.sha")
                           then Some (errors_New "remove: permission denied")
                           else None |}.

(* ================================================================== *)
(** * Part III: properties                                             *)
(* ================================================================== *)

(** ** Formatting and versions *)

Lemma Sprintf_incompatible (a b : string) :
  Sprintf "incompatible stack: '%s' is not compatible with '%s'" [a; b]
  = "incompatible stack: '" +:+ a +:+ "' is not compatible with '" +:+ b +:+ "'".
Proof. reflexivity. Qed.

Lemma MustParse_06 : api.MustParse "0.6" = Some {| api.major := 0; api.minor := 6 |}.
Proof. reflexivity. Qed.

Lemma MustParse_07 : api.MustParse "0.7" = Some {| api.major := 0; api.minor := 7 |}.
Proof. reflexivity. Qed.

Lemma MustParse_08 : api.MustParse "0.8" = Some {| api.major := 0; api.minor := 8 |}.
Proof. reflexivity. Qed.

Lemma Compare_0 (v : api.Version) (n : N) :
  (0 <=? api.Compare v {| api.major := 0; api.minor := n |})%Z = at_least_0 n v.
Proof.
  unfold api.Compare, at_least_0. destruct v as [ma mi]. simpl.
  destruct (N.eqb_spec ma 0) as [->|Hma]; simpl.
  - destruct (N.eqb_spec mi n) as [->|Hmi]; simpl.
    + symmetry. apply N.leb_le. lia.
    + destruct (N.ltb_spec mi n); simpl; symmetry.
      * apply N.leb_gt. lia.
      * apply N.leb_le. lia.
  - destruct (N.ltb_spec ma 0); [lia|]. simpl.
    destruct (N.ltb_spec 0 ma); [reflexivity | lia].
Qed.

Lemma AtLeast_06 v : api.AtLeast v "0.6" = Some (at_least_0 6 v).
Proof. unfold api.AtLeast. rewrite MustParse_06. by rewrite Compare_0. Qed.

Lemma AtLeast_07 v : api.AtLeast v "0.7" = Some (at_least_0 7 v).
Proof. unfold api.AtLeast. rewrite MustParse_07. by rewrite Compare_0. Qed.

Lemma AtLeast_08 v : api.AtLeast v "0.8" = Some (at_least_0 8 v).
Proof. unfold api.AtLeast. rewrite MustParse_08. by rewrite Compare_0. Qed.

(** ** Stack validation ([stack_validation.go]) *)

Lemma getBuildStack_spec (Getenv : string -> string) (stackMD : platform.StackMetadata) :
  let buildID := if bool_decide (Getenv cmd.EnvStackID = "")
                 then platform.StackID (platform.BuildImage stackMD)
                 else Getenv cmd.EnvStackID in
  getBuildStack Getenv stackMD
  = if bool_decide (buildID = "")
    then ("", Some (errors_New
            "CNB_STACK_ID is required when there is no stack metadata available"))
    else (buildID, None).
Proof. reflexivity. Qed.

(** C5: stack validation succeeds exactly when the resolved build stack ID
    (the environment override if set, else the build image's stack ID of
    the stack metadata) and the stack-ID label of the run image are both
    non-empty and equal; two distinct non-empty IDs give the
    incompatible-stack error whose message quotes both, and two empty
    sources of the build stack ID give the required-stack-ID error. *)
Theorem C5_ValidateStack_iff (Getenv : string -> string)
  (stackMD : platform.StackMetadata) (runImage : imgutil.Image) :
  let buildID := if bool_decide (Getenv cmd.EnvStackID = "")
                 then platform.StackID (platform.BuildImage stackMD)
                 else Getenv cmd.EnvStackID in
  let runID := (imgutil.Label runImage platform.StackIDLabel).1 in
  let labelErr := (imgutil.Label runImage platform.StackIDLabel).2 in
  (ValidateStack Getenv stackMD runImage = None
   <-> labelErr = None /\ buildID <> "" /\ runID <> "" /\ buildID = runID)
  /\ (labelErr = None -> buildID <> "" -> runID <> "" -> buildID <> runID ->
      ValidateStack Getenv stackMD runImage
      = Some (errors_New ("incompatible stack: '" +:+ runID
                          +:+ "' is not compatible with '" +:+ buildID +:+ "'")))
  /\ (Getenv cmd.EnvStackID = "" ->
      platform.StackID (platform.BuildImage stackMD) = "" ->
      ValidateStack Getenv stackMD runImage
      = Some (errors_New
                "CNB_STACK_ID is required when there is no stack metadata available")).
Proof.
  intros buildID runID labelErr. unfold ValidateStack.
  rewrite getBuildStack_spec. fold buildID.
  subst runID labelErr.
  destruct (imgutil.Label runImage platform.StackIDLabel) as [runID labelErr] eqn:HL.
  simpl. split; [split|split].
  - case_bool_decide as Hb; [discriminate|].
    destruct labelErr; [discriminate|].
    repeat case_bool_decide; try discriminate; intros _; naive_solver.
  - intros (-> & Hb & Hr & Heq).
    repeat case_bool_decide; naive_solver.
  - intros -> Hb Hr Hne.
    repeat case_bool_decide; try naive_solver.
  - intros He Hs. subst buildID. rewrite He, Hs. simpl. reflexivity.
Qed.

Lemma C5_ValidateStack_iff_witness :
  ValidateStack (sample_getenv "") (sample_stackMD "io.buildpacks.stacks.bionic" "run" [])
                (sample_image "run" "io.buildpacks.stacks.bionic") = None
  /\ ValidateStack (sample_getenv "override") (sample_stackMD "bionic" "run" [])
                   (sample_image "run" "jammy")
     = Some (errors_New "incompatible stack: 'jammy' is not compatible with 'override'")
  /\ ValidateStack (sample_getenv "") (sample_stackMD "" "run" [])
                   (sample_image "run" "jammy")
     = Some (errors_New
               "CNB_STACK_ID is required when there is no stack metadata available").
Proof.
  split; [|split].
  - apply (proj1 (C5_ValidateStack_iff (sample_getenv "")
                    (sample_stackMD "io.buildpacks.stacks.bionic" "run" [])
                    (sample_image "run" "io.buildpacks.stacks.bionic"))).
    vm_compute. repeat split; discriminate.
  - apply (proj1 (proj2 (C5_ValidateStack_iff (sample_getenv "override")
                    (sample_stackMD "bionic" "run" []) (sample_image "run" "jammy"))));
      vm_compute; (reflexivity || discriminate).
  - apply (proj2 (proj2 (C5_ValidateStack_iff (sample_getenv "")
                    (sample_stackMD "" "run" []) (sample_image "run" "jammy"))));
      reflexivity.
Defined.

(** ** Stack validation of the analyzer ([analyzer.go]) *)

Lemma at_least_0_false (n : N) (v : api.Version) :
  (api.major v = 0)%N -> (api.minor v < n)%N -> at_least_0 n v = false.
Proof.
  intros Hma Hmi. unfold at_least_0. rewrite Hma. simpl.
  apply N.leb_gt. exact Hmi.
Qed.

Lemma supportsStackValidation_spec (a : main.analyzeCmd) (v : api.Version) :
  api.MustParse (cmd.API (main.platform a)) = Some v ->
  main.analyzeCmd_supportsStackValidation a = Some (at_least_0 7 v).
Proof.
  intros Hv. unfold main.analyzeCmd_supportsStackValidation,
    main.analyzeCmd_platformAPIVersionGreaterThan06.
  rewrite Hv, MustParse_07. by rewrite Compare_0.
Qed.

(** C10: on a platform API below 0.7 the stack validation of the analyzer
    returns success at once: the stack metadata file is not read, no run
    image is resolved and no stack ID is compared (no call is made). *)
Theorem C10_validateStack_skipped (env : main.AnalyzerEnv) (a : main.analyzeCmd)
  (v : api.Version) (tr : list main.AnalyzerEvent) :
  api.MustParse (cmd.API (main.platform a)) = Some v ->
  (api.major v = 0)%N -> (api.minor v < 7)%N ->
  run (main.analyzeCmd_validateStack env a) tr = (tr, Returned None).
Proof.
  intros Hv Hma Hmi.
  unfold main.analyzeCmd_validateStack, run, bind, must.
  rewrite (supportsStackValidation_spec a v Hv), (at_least_0_false 7 v Hma Hmi).
  reflexivity.
Qed.

Lemma C10_validateStack_skipped_witness :
  run (main.analyzeCmd_validateStack
         (sample_env (sample_stackMD "bionic" "run" []) "jammy")
         (sample_analyzeCmd "previous" "" "0.6")) []
  = ([], Returned None).
Proof.
  apply (C10_validateStack_skipped _ _ {| api.major := 0; api.minor := 6 |});
    [reflexivity | reflexivity | reflexivity].
Defined.

(** On a platform API from 0.7 on the same inputs are validated, and the
    incompatible stack is reported. *)
Example validateStack_runs_from_07 :
  run (main.analyzeCmd_validateStack
         (sample_env (sample_stackMD "bionic" "run" []) "jammy")
         (sample_analyzeCmd "" "" "0.7")) []
  = ([main.EvDecodeFile "/cnb/stack.toml"; main.EvGetenv "CNB_STACK_ID";
      main.EvRemoteNewImage "run"; main.EvLabel "run" "io.buildpacks.stack.id"],
     Returned (Some (errors_New
       "incompatible stack: 'jammy' is not compatible with 'bionic'"))).
Proof. reflexivity. Qed.

Lemma resolveRunImage_unfold (env : main.AnalyzerEnv) (a : main.analyzeCmd)
  (md : platform.StackMetadata) :
  let resolved := if bool_decide (main.runImageRef a = "")
                  then platform.Image (platform.RunImage md)
                  else main.runImageRef a in
  let new_image ref :=
    if main.useDaemon a
    then ([main.EvLocalNewImage ref], Returned (main.local_NewImage env ref))
    else ([main.EvRemoteNewImage ref], Returned (main.remote_NewImage env ref)) in
  run (main.analyzeCmd_resolveRunImage env a md) []
  = if bool_decide (resolved = "")
    then ([], Returned (None, Some (cmd_FailErrCode
            (errors_New "CNB_RUN_IMAGE is required when there is no stack metadata available")
            CodeInvalidArgs "parse arguments")))
    else if bool_decide (platform.Image (platform.RunImage md) <> "")
            && bool_decide (main.imageName a <> "")
         then match main.name_ParseReference env (main.imageName a) with
              | (_, Some err) =>
                  ([main.EvParseReference (main.imageName a)],
                   Returned (None, Some (cmd_FailErr err "failed to parse registry")))
              | (ref, None) =>
                  match main.BestRunImageMirror env md (main.RegistryStr ref) with
                  | (_, Some err) =>
                      ([main.EvParseReference (main.imageName a);
                        main.EvBestRunImageMirror (main.RegistryStr ref)],
                       Returned (None, Some (cmd_FailErr err "run image mirror")))
                  | (best, None) =>
                      ((main.EvParseReference (main.imageName a)
                        :: main.EvBestRunImageMirror (main.RegistryStr ref)
                        :: (new_image best).1), (new_image best).2)
                  end
              end
         else new_image resolved.
Proof.
  intros resolved new_image. subst resolved new_image.
  unfold main.analyzeCmd_resolveRunImage, run, bind, ret, return_, emit, modify.
  case_bool_decide as Hres; [reflexivity|]. simpl.
  destruct (bool_decide (platform.Image (platform.RunImage md) <> "")
            && bool_decide (main.imageName a <> "")); simpl.
  - destruct (main.name_ParseReference env (main.imageName a)) as [ref [err|]]; simpl;
      [reflexivity|].
    destruct (main.BestRunImageMirror env md (main.RegistryStr ref)) as [best [err|]];
      simpl; [reflexivity|].
    destruct (main.useDaemon a); reflexivity.
  - destruct (main.useDaemon a); reflexivity.
Qed.

(** C6 (as amended): when the run image is resolved, mirror selection takes
    place exactly when the run image of the stack metadata is non-empty and
    a previous image was named; the mirror it selects then replaces the run
    image reference, and in every other case with a resolved reference
    (the explicit one if given, else that of the stack metadata) the
    reference is used as it is. *)
Theorem C6_mirror_selection_amended (env : main.AnalyzerEnv) (a : main.analyzeCmd)
  (md : platform.StackMetadata) :
  let resolved := if bool_decide (main.runImageRef a = "")
                  then platform.Image (platform.RunImage md)
                  else main.runImageRef a in
  let new_image ref :=
    if main.useDaemon a
    then ([main.EvLocalNewImage ref], Returned (main.local_NewImage env ref))
    else ([main.EvRemoteNewImage ref], Returned (main.remote_NewImage env ref)) in
  (mirror_selection_happens env a md
   <-> platform.Image (platform.RunImage md) <> "" /\ main.imageName a <> "")
  /\ (mirror_selection_happens env a md ->
      forall ref best,
        main.name_ParseReference env (main.imageName a) = (ref, None) ->
        main.BestRunImageMirror env md (main.RegistryStr ref) = (best, None) ->
        run (main.analyzeCmd_resolveRunImage env a md) []
        = ((main.EvParseReference (main.imageName a)
            :: main.EvBestRunImageMirror (main.RegistryStr ref)
            :: (new_image best).1), (new_image best).2))
  /\ (~ mirror_selection_happens env a md -> resolved <> "" ->
      run (main.analyzeCmd_resolveRunImage env a md) [] = new_image resolved).
Proof.
  intros resolved new_image.
  pose proof (resolveRunImage_unfold env a md) as Hrun. simpl in Hrun.
  fold resolved in Hrun.
  assert (Hiff : mirror_selection_happens env a md
                 <-> platform.Image (platform.RunImage md) <> ""
                     /\ main.imageName a <> "").
  { unfold mirror_selection_happens. rewrite Hrun. clear Hrun.
    case_bool_decide as Hres.
    - split; [intros Hin; inversion Hin|].
      intros [Hi _]. exfalso. subst resolved.
      case_bool_decide; done.
    - destruct (bool_decide (platform.Image (platform.RunImage md) <> "")) eqn:Hi;
      destruct (bool_decide (main.imageName a <> "")) eqn:Hn; simpl.
      + apply bool_decide_eq_true in Hi, Hn.
        split; [tauto|intros _].
        destruct (main.name_ParseReference env (main.imageName a)) as [ref [err|]];
          [apply list_elem_of_here|].
        destruct (main.BestRunImageMirror env md (main.RegistryStr ref))
          as [best [err|]]; apply list_elem_of_here.
      + apply bool_decide_eq_false in Hn.
        split; [|tauto]. intros Hin. exfalso.
        destruct (main.useDaemon a); simpl in Hin;
          apply list_elem_of_singleton in Hin; discriminate.
      + apply bool_decide_eq_false in Hi.
        split; [|tauto]. intros Hin. exfalso.
        destruct (main.useDaemon a); simpl in Hin;
          apply list_elem_of_singleton in Hin; discriminate.
      + apply bool_decide_eq_false in Hi.
        split; [|tauto]. intros Hin. exfalso.
        destruct (main.useDaemon a); simpl in Hin;
          apply list_elem_of_singleton in Hin; discriminate. }
  split; [exact Hiff|]. split.
  - intros Hsel ref best Hp Hb. apply Hiff in Hsel as [Hi Hn].
    rewrite Hrun.
    assert (Hres : resolved <> "").
    { unfold resolved. destruct (bool_decide (main.runImageRef a = "")) eqn:E;
        [exact Hi | apply bool_decide_eq_false in E; exact E]. }
    rewrite (bool_decide_eq_false_2 _ Hres).
    rewrite (bool_decide_eq_true_2 _ Hi), (bool_decide_eq_true_2 _ Hn). simpl.
    rewrite Hp, Hb. reflexivity.
  - intros Hsel Hres. rewrite Hrun.
    rewrite (bool_decide_eq_false_2 _ Hres).
    destruct (bool_decide (platform.Image (platform.RunImage md) <> "")) eqn:Hi;
    destruct (bool_decide (main.imageName a <> "")) eqn:Hn; simpl; try reflexivity.
    exfalso. apply Hsel, Hiff.
    split; eapply bool_decide_eq_true; eassumption.
Qed.

Lemma C6_mirror_selection_amended_witness :
  run (main.analyzeCmd_resolveRunImage
         (sample_env (sample_stackMD "bionic" "reg-a/img" ["reg-b/img"]) "bionic")
         (sample_analyzeCmd "reg-b/app" "" "0.7")
         (sample_stackMD "bionic" "reg-a/img" ["reg-b/img"])) []
  = ([main.EvParseReference "reg-b/app"; main.EvBestRunImageMirror "reg-b/app";
      main.EvRemoteNewImage "reg-b/img"],
     Returned (Some (sample_image "reg-b/img" "bionic"), None))
  /\ run (main.analyzeCmd_resolveRunImage
         (sample_env (sample_stackMD "bionic" "reg-a/img" ["reg-b/img"]) "bionic")
         (sample_analyzeCmd "" "explicit/img" "0.7")
         (sample_stackMD "bionic" "reg-a/img" ["reg-b/img"])) []
     = ([main.EvRemoteNewImage "explicit/img"],
        Returned (Some (sample_image "explicit/img" "bionic"), None)).
Proof.
  split.
  - pose proof (C6_mirror_selection_amended
                  (sample_env (sample_stackMD "bionic" "reg-a/img" ["reg-b/img"]) "bionic")
                  (sample_analyzeCmd "reg-b/app" "" "0.7")
                  (sample_stackMD "bionic" "reg-a/img" ["reg-b/img"]))
      as (Hiff & Hsel & _).
    refine (Hsel (proj2 Hiff (conj _ _)) {| main.RegistryStr := "reg-b/app" |}
                 "reg-b/img" eq_refl eq_refl); discriminate.
  - pose proof (C6_mirror_selection_amended
                  (sample_env (sample_stackMD "bionic" "reg-a/img" ["reg-b/img"]) "bionic")
                  (sample_analyzeCmd "" "explicit/img" "0.7")
                  (sample_stackMD "bionic" "reg-a/img" ["reg-b/img"]))
      as (Hiff & _ & Hno).
    refine (Hno _ _); [|discriminate].
    intros Hsel. apply Hiff in Hsel. destruct Hsel as [_ Hn]. apply Hn. reflexivity.
Defined.

(** C6 as the spec states it does not hold: with stack metadata that names
    a run image but no mirror, and a previous image, the registry of the
    previous image is parsed and the mirror selection is asked, although
    no mirror list exists. *)
Lemma C6_counterexample :
  ~ (forall (env : main.AnalyzerEnv) (a : main.analyzeCmd) (md : platform.StackMetadata),
        mirror_selection_happens env a md
        <-> platform.Mirrors (platform.RunImage md) <> [] /\ main.imageName a <> "").
Proof.
  intros Hclaim.
  destruct (Hclaim (sample_env (sample_stackMD "bionic" "reg-a/img" []) "bionic")
                   (sample_analyzeCmd "reg-b/app" "" "0.7")
                   (sample_stackMD "bionic" "reg-a/img" [])) as [Hhappens _].
  destruct Hhappens as [Hmirrors _].
  - unfold mirror_selection_happens. vm_compute. apply list_elem_of_here.
  - apply Hmirrors. reflexivity.
Qed.

(** The other direction fails as well: a mirror list and a previous image
    do not lead to mirror selection when the stack metadata names no run
    image; the explicit run image is used as it is. *)
Example mirror_list_without_selection :
  run (main.analyzeCmd_resolveRunImage
         (sample_env (sample_stackMD "bionic" "" ["reg-b/img"]) "bionic")
         (sample_analyzeCmd "reg-b/app" "explicit/img" "0.7")
         (sample_stackMD "bionic" "" ["reg-b/img"])) []
  = ([main.EvRemoteNewImage "explicit/img"],
     Returned (Some (sample_image "explicit/img" "bionic"), None)).
Proof. reflexivity. Qed.

(** ** The trace only grows *)

Lemma appends_refl P w : appends P w w.
Proof. exists []. split; [by rewrite app_nil_r | constructor]. Qed.

Lemma appends_trans P w1 w2 w3 :
  appends P w1 w2 -> appends P w2 w3 -> appends P w1 w3.
Proof.
  intros (e1 & H1 & F1) (e2 & H2 & F2). exists (e1 ++ e2)%list.
  split; [by rewrite H2, H1, app_assoc | by apply Forall_app].
Qed.

Lemma appends_weaken (P Q : Event -> Prop) w w' :
  (forall e, P e -> Q e) -> appends P w w' -> appends Q w w'.
Proof.
  intros HPQ (evs & H & F). exists evs. split; [done|].
  eapply Forall_impl; eauto.
Qed.

Lemma appends_log (P : Event -> Prop) e w : P e -> appends P w (log e w).
Proof. intros He. exists [e]. split; [reflexivity | by constructor]. Qed.

Lemma appends_events_since P w w' :
  appends P w w' ->
  trace w' = (trace w ++ events_since w w')%list /\ Forall P (events_since w w').
Proof.
  intros (evs & H & F). unfold events_since. rewrite H.
  rewrite drop_app_length. done.
Qed.

Lemma events_since_app w w' evs :
  trace w' = (trace w ++ evs)%list -> events_since w w' = evs.
Proof. intros H. unfold events_since. rewrite H. apply drop_app_length. Qed.

Lemma perform_spec {R A} (e : Event) (f : Disk -> Disk * A) (w : World) :
  @perform R A e f w
  = ({| disk := (f (disk w)).1; trace := (trace w ++ [e])%list |}, Next (f (disk w)).2).
Proof. unfold perform. by destruct (f (disk w)). Qed.

(** ** Goroutines of [Restore] *)

Lemma restoreCacheLayer_run (h : Host) (cache : Cache) (sha : string) (w : World) :
  exists w' e,
    run (Restorer_restoreCacheLayer h cache sha) w = (w', Returned e)
    /\ appends task_event w w'.
Proof.
  unfold Restorer_restoreCacheLayer, run. destruct cache as [c|]; simpl.
  - unfold bind, logf. rewrite perform_spec. simpl.
    destruct (RetrieveLayer c sha) as [rc [err|]]; simpl.
    + eexists _, _. split; [reflexivity|].
      exists [Debugf "Retrieving data for %q" [sha]; CallRetrieveLayer sha].
      split; [simpl; by rewrite <- app_assoc | repeat constructor].
    + unfold return_. rewrite perform_spec. simpl.
      eexists _, _. split; [reflexivity|].
      exists [Debugf "Retrieving data for %q" [sha]; CallRetrieveLayer sha; CallExtract ""].
      split; [simpl; by rewrite <- !app_assoc | repeat constructor].
  - eexists _, _. split; [reflexivity | apply appends_refl].
Qed.

Lemma finish_ok (h : Host) (cache : Cache) {R} (sha : string) (s : RState) :
  exists w' e,
    run (Restorer_restoreCacheLayer h cache sha) (world s) = (w', Returned e)
    /\ @errgroup_finish R (Restorer_restoreCacheLayer h cache sha) s
       = ({| world := log (TaskDone e) w';
             g := {| errgroup.pending := errgroup.pending (g s);
                     errgroup.err := match errgroup.err (g s) with
                                     | Some e0 => Some e0
                                     | None => e
                                     end |};
             schedule := schedule s |}, Next tt)
    /\ appends task_event (world s) (log (TaskDone e) w').
Proof.
  destruct (restoreCacheLayer_run h cache sha (world s)) as (w' & e & Hrun & Happ).
  exists w', e. split; [done|]. split.
  - unfold errgroup_finish. by rewrite Hrun.
  - eapply appends_trans; [exact Happ|]. by apply appends_log.
Qed.

Lemma run_tasks_app (a b : list errgroup.Task) (w w1 : World) (r1 : list (option error)) :
  run_tasks a w = (w1, r1) -> length r1 = length a ->
  run_tasks (a ++ b) w = ((run_tasks b w1).1, (r1 ++ (run_tasks b w1).2)%list).
Proof.
  revert w w1 r1. induction a as [|t a IH]; intros w w1 r1 Hrun Hlen; simpl in *.
  - injection Hrun as <- <-. simpl. by destruct (run_tasks b w).
  - destruct (run t w) as [w0 [e|]] eqn:Ht.
    + destruct (run_tasks a (log (TaskDone e) w0)) as [w2 es] eqn:Ha.
      injection Hrun as <- <-. simpl in Hlen.
      rewrite (IH _ _ _ Ha) by lia. reflexivity.
    + injection Hrun as <- <-. simpl in Hlen. lia.
Qed.

Lemma first_error_app (e0 : option error) (r1 r2 : list (option error)) :
  first_error (e0 :: r1 ++ r2) = first_error (first_error (e0 :: r1) :: r2).
Proof.
  revert e0. induction r1 as [|e r1 IH]; intros e0; simpl.
  - by destruct e0.
  - destruct e0 as [e0|]; simpl.
    + specialize (IH (Some e0)). simpl in IH. exact IH.
    + apply IH.
Qed.

Lemma goroutines_ran_refl s : goroutines_ran s s.
Proof.
  exists [], []. simpl. repeat split; try done.
  by destruct (errgroup.err (g s)).
Qed.

Lemma goroutines_ran_trans s1 s2 s3 :
  goroutines_ran s1 s2 -> goroutines_ran s2 s3 -> goroutines_ran s1 s3.
Proof.
  intros (a & ra & Pa & Ra & La & Ea) (b & rb & Pb & Rb & Lb & Eb).
  exists (a ++ b)%list, (ra ++ rb)%list. repeat split.
  - rewrite <- Pa, <- Pb. by rewrite app_assoc.
  - rewrite (run_tasks_app a b _ _ _ Ra La), Rb. reflexivity.
  - rewrite !length_app. lia.
  - rewrite Eb, Ea. symmetry. apply first_error_app.
Qed.

Lemma run_tasks_pool (h : Host) (cache : Cache) (ts : list errgroup.Task) (w : World) :
  Forall (fun t => exists sha, t = Restorer_restoreCacheLayer h cache sha) ts ->
  length (run_tasks ts w).2 = length ts
  /\ appends task_event w (run_tasks ts w).1.
Proof.
  intros Hts. revert w. induction Hts as [|t ts [sha ->] _ IH]; intros w; simpl.
  - split; [done | apply appends_refl].
  - destruct (restoreCacheLayer_run h cache sha w) as (w' & e & Hrun & Happ).
    rewrite Hrun. specialize (IH (log (TaskDone e) w')).
    destruct (run_tasks ts (log (TaskDone e) w')) as [w2 es]. simpl in *.
    destruct IH as [IH1 IH2]. split; [by rewrite IH1|].
    eapply appends_trans; [exact Happ|].
    eapply appends_trans; [|exact IH2]. apply appends_log. exact I.
Qed.

Lemma goroutines_ran_appends (h : Host) (cache : Cache) (s s' : RState) :
  pool_ok h cache s -> goroutines_ran s s' ->
  pool_ok h cache s' /\ appends task_event (world s) (world s').
Proof.
  intros Hpool (ran & res & Hperm & Hrun & Hlen & Herr).
  unfold pool_ok in *.
  apply (Permutation_Forall (Permutation_sym Hperm)) in Hpool.
  apply Forall_app in Hpool as [Hran Hrest]. split; [exact Hrest|].
  destruct (run_tasks_pool h cache ran (world s) Hran) as [_ Happ].
  by rewrite Hrun in Happ.
Qed.

(** ** Points at which goroutines run *)

Lemma finish_ran (h : Host) (cache : Cache) {R} (sha : string) (s : RState)
  (rest : list errgroup.Task) :
  Permutation (Restorer_restoreCacheLayer h cache sha :: errgroup.pending (g s)) rest ->
  exists s1,
    @errgroup_finish R (Restorer_restoreCacheLayer h cache sha) s = (s1, Next tt)
    /\ schedule s1 = schedule s
    /\ goroutines_ran (set_g {| errgroup.pending := rest;
                               errgroup.err := errgroup.err (g s) |} s) s1.
Proof.
  intros Hperm.
  destruct (finish_ok h cache (R:=R) sha s) as (w' & e & Hrun & Hfin & _).
  eexists. split; [exact Hfin|]. split; [reflexivity|].
  exists [Restorer_restoreCacheLayer h cache sha], [e]. simpl.
  rewrite Hrun. repeat split; try done.
  by destruct (errgroup.err (g s)), e.
Qed.

Lemma run_picks_ok (h : Host) (cache : Cache) {R} (picks : list nat) (s : RState) :
  pool_ok h cache s ->
  exists s1,
    @errgroup_run_picks R picks s = (s1, Next tt)
    /\ schedule s1 = schedule s
    /\ goroutines_ran s s1.
Proof.
  revert s. induction picks as [|i picks IH]; intros s Hpool; simpl.
  - exists s. split; [reflexivity|]. split; [reflexivity | apply goroutines_ran_refl].
  - destruct (errgroup.pending (g s) !! i) as [t|] eqn:Hi; [|by apply IH].
    assert (Ht : exists sha, t = Restorer_restoreCacheLayer h cache sha).
    { unfold pool_ok in Hpool. rewrite Forall_forall in Hpool.
      apply Hpool. eapply list_elem_of_lookup_2. exact Hi. }
    destruct Ht as [sha ->].
    set (s0 := set_g {| errgroup.pending := delete i (errgroup.pending (g s));
                        errgroup.err := errgroup.err (g s) |} s).
    destruct (finish_ran h cache (R:=R) sha s0 (errgroup.pending (g s)))
      as (s1 & Hfin & Hsch & Hran).
    { simpl. symmetry. by apply delete_Permutation. }
    unfold bind. rewrite Hfin.
    assert (Hpool1 : pool_ok h cache s1).
    { eapply goroutines_ran_appends; [|exact Hran]. exact Hpool. }
    destruct (IH s1 Hpool1) as (s2 & Hpicks & Hsch2 & Hran2).
    exists s2. split; [exact Hpicks|]. split; [by rewrite Hsch2, Hsch|].
    eapply goroutines_ran_trans; [|exact Hran2].
    destruct s as [w [p e] sch]. exact Hran.
Qed.

Lemma yield_ok (h : Host) (cache : Cache) {R} (s : RState) :
  pool_ok h cache s ->
  exists s1,
    @yield R s = (s1, Next tt)
    /\ goroutines_ran s s1.
Proof.
  intros Hpool. unfold yield. destruct (schedule s) as [|picks later] eqn:Hs.
  - exists s. split; [reflexivity | apply goroutines_ran_refl].
  - destruct (run_picks_ok h cache (R:=R) picks
                {| world := world s; g := g s; schedule := later |})
      as (s1 & Hp & _ & Hran); [exact Hpool|].
    exists s1. split; [exact Hp|].
    destruct Hran as (ran & res & H1 & H2 & H3 & H4).
    exists ran, res. by repeat split.
Qed.

Lemma atomic_ok (h : Host) (cache : Cache) {R A} (m : Go World R A) (s : RState) :
  pool_ok h cache s ->
  exists s1,
    goroutines_ran s s1
    /\ atomic m s = ((set_world (m (world s1)).1 s1), (m (world s1)).2).
Proof.
  intros Hpool. destruct (yield_ok h cache (R:=R) s Hpool) as (s1 & Hy & Hran).
  exists s1. split; [exact Hran|].
  unfold atomic, bind. rewrite Hy. unfold direct.
  by destruct (m (world s1)).
Qed.

(** ** Waiting for the goroutines *)

Lemma drain_ok (h : Host) (cache : Cache) {R} (ts : list errgroup.Task) (s : RState) :
  Forall (fun t => exists sha, t = Restorer_restoreCacheLayer h cache sha) ts ->
  exists s1 results,
    @for_range RState R _ ts errgroup_finish s = (s1, Next tt)
    /\ run_tasks ts (world s) = (world s1, results)
    /\ length results = length ts
    /\ errgroup.err (g s1) = first_error (errgroup.err (g s) :: results)
    /\ errgroup.pending (g s1) = errgroup.pending (g s)
    /\ schedule s1 = schedule s.
Proof.
  intros Hts. revert s. induction Hts as [|t ts [sha ->] _ IH]; intros s; simpl.
  - exists s, []. repeat split; try done. by destruct (errgroup.err (g s)).
  - destruct (finish_ok h cache (R:=R) sha s) as (w' & e & Hrun & Hfin & _).
    unfold bind. rewrite Hfin, Hrun.
    match goal with |- context [for_range ts errgroup_finish ?s0] =>
      destruct (IH s0) as (s1 & res & H1 & H2 & H3 & H4 & H5 & H6) end.
    simpl in *. exists s1, (e :: res). rewrite H1, H2. simpl.
    repeat split; try done; try lia.
    rewrite H4. by destruct (errgroup.err (g s)), e.
Qed.

Lemma Wait_ok (h : Host) (cache : Cache) {R} (s : RState) :
  pool_ok h cache s ->
  exists s1,
    @errgroup_Wait R s = (s1, Next (errgroup.err (g s1)))
    /\ errgroup.pending (g s1) = []
    /\ goroutines_ran s s1.
Proof.
  intros Hpool.
  destruct (yield_ok h cache (R:=R) s Hpool) as (s0 & Hy & Hran0).
  destruct (goroutines_ran_appends h cache s s0 Hpool Hran0) as [Hpool0 _].
  destruct (drain_ok h cache (R:=R) (errgroup.pending (g s0))
              (set_g {| errgroup.pending := []; errgroup.err := errgroup.err (g s0) |} s0)
              Hpool0)
    as (s1 & res & H1 & H2 & H3 & H4 & H5 & H6).
  unfold errgroup_Wait, bind, get, modify, ret. rewrite Hy, H1.
  exists s1. split; [reflexivity|]. split; [exact H5|].
  eapply goroutines_ran_trans; [exact Hran0|].
  exists (errgroup.pending (g s0)), res. rewrite H5. simpl.
  rewrite app_nil_r. repeat split; try done.
Qed.



(** Without a failing goroutine the relocator runs once both have run:
    the events of the relocator come after those of the goroutines. *)
Example wait_then_relocate :
  let s := sample_state sample_sbom_disk
             [Restorer_restoreCacheLayer sample_host sample_cache "good";
              Restorer_restoreCacheLayer sample_host sample_cache "good"] [] in
  let out := Restore_finish sample_host
               (sample_restorer [sample_bp "bp1" "0.6"] "0.8") s in
  out.2 = Return None
  /\ errgroup.pending (g out.1) = []
  /\ trace (world out.1)
     = [Debugf "Retrieving data for %q" ["good"]; CallRetrieveLayer "good";
        CallExtract ""; TaskDone None;
        Debugf "Retrieving data for %q" ["good"]; CallRetrieveLayer "good";
        CallExtract ""; TaskDone None;
        CallWalk "/layers/sbom/cache"; CallWalk "/layers/sbom/launch";
        CallCopy "/layers/sbom/launch/bp1/layerX/sbom.cdx.json"
                 "/layers/bp1/layerX.sbom.cdx.json";
        CallRemoveAll "/layers/sbom"].
Proof. vm_compute. repeat split. Qed.

(** The goroutine that fails first does not stop the other one: its
    archive is extracted all the same, and the error of the first is the
    result. *)
Example wait_runs_all_goroutines :
  let s := sample_state empty_disk
             [Restorer_restoreCacheLayer sample_host sample_cache "bad";
              Restorer_restoreCacheLayer sample_host sample_cache "good"] [] in
  let out := Restore_finish sample_host
               (sample_restorer [sample_bp "bp1" "0.6"] "0.8") s in
  out.2 = Return (Some (errors_Wrap (errors_New "extract: unknown file type in tar")
                                    "restoring data"))
  /\ files (disk (world out.1)) !! "/layers/bp1/L1/data" = Some (os.File "cached")
  /\ task_results (trace (world out.1))
     = [Some (errors_New "extract: unknown file type in tar"); None].
Proof. vm_compute. repeat split. Qed.

(** ** What the phases of [Restore] append to the trace *)

Lemma keeps_weaken {R A} h cache (P Q : Event -> Prop) (m : Go RState R A) :
  (forall e, P e -> Q e) -> keeps h cache P m -> keeps h cache Q m.
Proof.
  intros HPQ Hm s Hs. destruct (Hm s Hs) as [H1 H2].
  split; [done | by eapply appends_weaken].
Qed.

Lemma keeps_ret {R A} h cache P (a : A) : keeps h cache P (@ret RState R A a).
Proof. intros s Hs. split; [done | apply appends_refl]. Qed.

Lemma keeps_return {R A} h cache P (x : R) : keeps h cache P (@return_ RState R A x).
Proof. intros s Hs. split; [done | apply appends_refl]. Qed.

Lemma keeps_panic {R A} h cache P : keeps h cache P (@panic RState R A).
Proof. intros s Hs. split; [done | apply appends_refl]. Qed.

Lemma keeps_must {R A} h cache P (o : option A) : keeps h cache P (@must RState R A o).
Proof. destruct o; [apply keeps_ret | apply keeps_panic]. Qed.

Lemma keeps_bind {R A B} h cache P (m : Go RState R A) (k : A -> Go RState R B) :
  keeps h cache P m -> (forall a, keeps h cache P (k a)) -> keeps h cache P (bind m k).
Proof.
  intros Hm Hk s Hs. destruct (Hm s Hs) as [H1 H2]. unfold bind.
  destruct (m s) as [s1 [a|x|]]; simpl in *; try done.
  destruct (Hk a s1 H1) as [H3 H4]. split; [done|].
  eapply appends_trans; eauto.
Qed.

Lemma keeps_for_range {R A} h cache P (l : list A) (body : A -> Go RState R unit) :
  (forall x, keeps h cache P (body x)) -> keeps h cache P (for_range l body).
Proof.
  intros Hb. induction l as [|x l IH]; simpl.
  - apply keeps_ret.
  - apply keeps_bind; [apply Hb | intros _; apply IH].
Qed.

Lemma keeps_for_range_in {R A} h cache P (l : list A) (body : A -> Go RState R unit) :
  (forall x, x ∈ l -> keeps h cache P (body x)) -> keeps h cache P (for_range l body).
Proof.
  induction l as [|x l IH]; intros Hb; simpl.
  - apply keeps_ret.
  - apply keeps_bind.
    + apply Hb, list_elem_of_here.
    + intros _. apply IH. intros y Hy. by apply Hb, list_elem_of_further.
Qed.

Lemma keeps_yield {R} h cache (P : Event -> Prop) :
  (forall e, task_event e -> P e) -> keeps h cache P (@yield R).
Proof.
  intros HP s Hs. destruct (yield_ok h cache (R:=R) s Hs) as (s1 & Hy & Hran).
  rewrite Hy. simpl.
  destruct (goroutines_ran_appends h cache s s1 Hs Hran) as [H1 H2].
  split; [done | by eapply appends_weaken].
Qed.

Lemma keeps_direct {R A} h cache (P : Event -> Prop) (m : Go World R A) :
  (forall w, appends P w (m w).1) -> keeps h cache P (direct m).
Proof.
  intros Hm s Hs. unfold direct. specialize (Hm (world s)).
  destruct (m (world s)) as [w' out]. simpl in *. split; [exact Hs | exact Hm].
Qed.

Lemma keeps_atomic {R A} h cache (P : Event -> Prop) (m : Go World R A) :
  (forall e, task_event e -> P e) ->
  (forall w, appends P w (m w).1) -> keeps h cache P (atomic m).
Proof.
  intros HP Hm. unfold atomic. apply keeps_bind.
  - by apply keeps_yield.
  - intros _. by apply keeps_direct.
Qed.

Lemma keeps_Go {R} h cache P (sha : string) :
  keeps h cache P (@errgroup_Go R (Restorer_restoreCacheLayer h cache sha)).
Proof.
  intros s Hs. simpl. split; [|apply appends_refl].
  unfold pool_ok. simpl. apply Forall_app. split; [exact Hs|].
  constructor; [by exists sha | constructor].
Qed.

Lemma appends_perform {R A} (P : Event -> Prop) (e : Event) (f : Disk -> Disk * A) w :
  P e -> appends P w (@perform R A e f w).1.
Proof.
  intros He. rewrite perform_spec. simpl. exists [e]. split; [done | by constructor].
Qed.

Lemma appends_logf {R} (P : Event -> Prop) (e : Event) w :
  P e -> appends P w (@logf R e w).1.
Proof. intros He. by apply appends_log. Qed.

Lemma task_event_loop store e : task_event e -> loop_event store e.
Proof. by destruct e. Qed.

Lemma Restore_layer_keeps h cache store bp cachedLayers l :
  keeps h cache (loop_event store) (Restore_layer h cache store bp cachedLayers l).
Proof.
  unfold Restore_layer.
  destruct (cachedLayers !! buildpack.Name h l) as [rec|].
  - apply keeps_bind.
    + apply keeps_atomic; [apply task_event_loop|].
      intros w. by apply appends_perform.
    + intros [sha [err|]]; [apply keeps_return|].
      case_bool_decide.
      * apply keeps_bind; [|intros _; apply keeps_bind; [|intros _; apply keeps_bind]].
        -- apply keeps_atomic; [apply task_event_loop|]. intros w. by apply appends_logf.
        -- apply keeps_atomic; [apply task_event_loop|]. intros w. by apply appends_logf.
        -- apply keeps_atomic; [apply task_event_loop|]. intros w. by apply appends_perform.
        -- intros [err|]; [apply keeps_return | apply keeps_ret].
      * apply keeps_bind; [|intros _; apply keeps_bind; [|intros _; apply keeps_Go]].
        -- apply keeps_atomic; [apply task_event_loop|]. intros w. by apply appends_logf.
        -- apply keeps_atomic; [apply task_event_loop|]. intros w. by apply appends_logf.
  - apply keeps_bind; [|intros _; apply keeps_bind].
    + apply keeps_atomic; [apply task_event_loop|]. intros w. by apply appends_logf.
    + apply keeps_atomic; [apply task_event_loop|]. intros w. by apply appends_perform.
    + intros [err|]; [apply keeps_return | apply keeps_ret].
Qed.

Lemma Restore_buildpack_keeps h r cache cacheMeta store bp :
  keeps h cache (loop_event store) (Restore_buildpack h r cache cacheMeta store bp).
Proof.
  unfold Restore_buildpack. apply keeps_bind; [apply keeps_must|].
  intros cachedFn. apply keeps_bind.
  - apply keeps_atomic; [apply task_event_loop|]. intros w. by apply appends_perform.
  - intros [dir [err|]]; [apply keeps_return|].
    apply keeps_bind.
    + apply keeps_atomic; [apply task_event_loop|]. intros w. apply appends_refl.
    + intros found. apply keeps_for_range. intros l. apply Restore_layer_keeps.
Qed.

(** ** The SBOM relocator *)

Lemma string_app_empty_r (s : string) : s +:+ "" = s.
Proof.
  induction s as [|c s IH]; [done|].
  change (String c (s +:+ "") = String c s). by rewrite IH.
Qed.

Lemma Sprintf_dot (a b : string) : Sprintf "%s.%s" [a; b] = a +:+ "." +:+ b.
Proof.
  change (Sprintf "%s.%s" [a; b]) with (a +:+ String "." (b +:+ "")).
  by rewrite string_app_empty_r.
Qed.


Lemma restoreSBOMFunc_run (h : Host) (r : Restorer) (bomType path : string)
  (info : option os.FileInfo) (err : option error) (w : World) :
  run (Restorer_restoreSBOMFunc h r bomType path info err) w
  = match info with
    | Some i =>
        if os.IsRegular i
        then match bomMatch h bomType path with
             | Some (buildpackID, layerName, fileName) =>
                 if Restorer_buildpackDetected h r buildpackID
                 then
                   let dest := sbomDest h r buildpackID layerName fileName in
                   ({| disk := (Copy h path dest (disk w)).1;
                       trace := (trace w ++ [CallCopy path dest])%list |},
                    Returned (Copy h path dest (disk w)).2)
                 else (w, Returned None)
             | None => (w, Returned None)
             end
        else (w, Returned None)
    | None => (w, Returned None)
    end.
Proof.
  unfold Restorer_restoreSBOMFunc, bomMatch, runtime.PathSeparator.
  destruct info as [i|]; [|reflexivity].
  destruct (os.IsRegular i); [|reflexivity]. cbn [negb].
  assert (Hre : (if bool_decide (GOOS h = "windows")
                 then regexp.FindStringSubmatch "\" bomType
                 else regexp.FindStringSubmatch "/" bomType) path
                = regexp.FindStringSubmatch
                    (if bool_decide (GOOS h = "windows") then "\"%char else "/"%char)
                    bomType path).
  { by destruct (bool_decide (GOOS h = "windows")). }
  rewrite Hre.
  destruct (regexp.FindStringSubmatch _ bomType path) as [[[bp ln] fn]|]; [|reflexivity].
  destruct (Restorer_buildpackDetected h r bp); [|reflexivity].
  rewrite Sprintf_dot. fold (sbomDest h r bp ln fn).
  unfold negb, run, bind, return_. rewrite perform_spec. reflexivity.
Qed.

#[global] Arguments Restorer_restoreSBOMFunc : simpl never.

Lemma restoreSBOMFunc_appends (h : Host) (r : Restorer) (bomType path : string)
  (info : option os.FileInfo) (err : option error) (w : World) :
  exists e,
    (run (Restorer_restoreSBOMFunc h r bomType path info err) w).2 = Returned e
    /\ appends (walk_event h r bomType) w
         (run (Restorer_restoreSBOMFunc h r bomType path info err) w).1.
Proof.
  rewrite restoreSBOMFunc_run.
  destruct info as [i|]; [|eexists; split; [done | apply appends_refl]].
  destruct (os.IsRegular i); [|eexists; split; [done | apply appends_refl]].
  destruct (bomMatch h bomType path) as [[[bp ln] fn]|] eqn:Hm;
    [|eexists; split; [done | apply appends_refl]].
  destruct (Restorer_buildpackDetected h r bp) eqn:Hd;
    [|eexists; split; [done | apply appends_refl]].
  simpl. eexists. split; [done|].
  exists [CallCopy path (sbomDest h r bp ln fn)]. split; [done|].
  constructor; [|constructor]. simpl. by exists bp, ln, fn.
Qed.

(** A walk ends with the error of the first callback that fails, after the
    callbacks before it, or without error after all of them. *)
Lemma Walk_nodes_run (h : Host) (r : Restorer) (bomType : string) {R}
  (nodes : list (string * os.Node)) (w : World) :
  exists w' e,
    @filepath_Walk_nodes R (Restorer_restoreSBOMFunc h r bomType) nodes w = (w', Next e)
    /\ appends (walk_event h r bomType) w w'.
Proof.
  revert w. induction nodes as [|[p n] nodes IH]; intros w.
  - exists w, None. split; [done | apply appends_refl].
  - destruct (restoreSBOMFunc_appends h r bomType p (Some (os.Lstat_info n)) None w)
      as (e & He & Happ).
    cbn [filepath_Walk_nodes]. unfold bind, call.
    destruct (run (Restorer_restoreSBOMFunc h r bomType p (Some (os.Lstat_info n)) None) w)
      as [w1 out]. cbn [fst snd] in He, Happ. subst out.
    destruct e as [e|].
    + exists w1, (Some e). done.
    + destruct (IH w1) as (w' & e' & Hw & Happ'). exists w', e'.
      split; [done | by eapply appends_trans].
Qed.

Lemma Walk_run (h : Host) (r : Restorer) (bomType root : string) {R} (w : World) :
  exists w' e,
    @filepath_Walk R h root (Restorer_restoreSBOMFunc h r bomType) w = (w', Next e)
    /\ appends (walk_event h r bomType) w w'.
Proof.
  unfold filepath_Walk, bind, logf, get. simpl.
  assert (Hlog : appends (walk_event h r bomType) w (log (CallWalk root) w))
    by (by apply appends_log).
  destruct (files (disk w) !! root).
  - destruct (Walk_nodes_run h r bomType (R:=R) (walk_list h root (disk w))
                (log (CallWalk root) w)) as (w' & e & Hw & Happ).
    exists w', e. split; [exact Hw | by eapply appends_trans].
  - unfold call. rewrite restoreSBOMFunc_run.
    exists (log (CallWalk root) w), None. done.
Qed.


Lemma os_RemoveAll_other (h : Host) (root : string) (d : Disk) (p : string) :
  filepath.under (GOOS h) root p = false ->
  files (os_RemoveAll h root d) !! p = files d !! p.
Proof.
  intros Hu. unfold os_RemoveAll. simpl.
  destruct (files d !! p) as [n|] eqn:Hp.
  - apply map_lookup_filter_Some. done.
  - apply map_lookup_filter_None. by left.
Qed.

(** [restoreSBOM]: the two walks, the second only after a first without
    error, and the clean-up in every case. *)
Lemma restoreSBOM_run (h : Host) (r : Restorer) (w : World) :
  let walk bomType :=
    @filepath_Walk (option error) h (sbomSubdir h r bomType)
                   (Restorer_restoreSBOMFunc h r bomType) in
  exists w1 e1,
    walk "cache" w = (w1, Next e1)
    /\ appends (walk_event h r "cache") w w1
    /\ match e1 with
       | Some err =>
           run (Restorer_restoreSBOM h r) w = (sbomCleanup h r w1, Returned (Some err))
       | None =>
           exists w2 e2,
             walk "launch" w1 = (w2, Next e2)
             /\ appends (walk_event h r "launch") w1 w2
             /\ run (Restorer_restoreSBOM h r) w = (sbomCleanup h r w2, Returned e2)
       end.
Proof.
  intros walk.
  destruct (Walk_run h r "cache" (sbomSubdir h r "cache") (R:=option error) w)
    as (w1 & e1 & Hw1 & Happ1).
  exists w1, e1. split; [exact Hw1|]. split; [exact Happ1|].
  unfold Restorer_restoreSBOM, run, defer, bind.
  fold (sbomSubdir h r "cache"). fold (sbomSubdir h r "launch"). fold (sbomDir h r).
  rewrite Hw1. destruct e1 as [err|]; [reflexivity|].
  destruct (Walk_run h r "launch" (sbomSubdir h r "launch") (R:=option error) w1)
    as (w2 & e2 & Hw2 & Happ2).
  exists w2, e2. split; [exact Hw2|]. split; [exact Happ2|].
  rewrite Hw2. by destruct e2.
Qed.

Lemma events_since_trans w w1 w2 a b :
  trace w1 = (trace w ++ a)%list -> trace w2 = (trace w1 ++ b)%list ->
  events_since w w2 = (a ++ b)%list.
Proof.
  intros H1 H2. apply events_since_app. by rewrite H2, H1, app_assoc.
Qed.

Lemma appends_elem (P : Event -> Prop) w w' e :
  appends P w w' -> e ∈ events_since w w' -> P e.
Proof.
  intros Happ Hin. apply appends_events_since in Happ as [_ HF].
  rewrite Forall_forall in HF. by apply HF.
Qed.




Lemma keeps_Wait {R} h cache (P : Event -> Prop) :
  (forall e, task_event e -> P e) -> keeps h cache P (@errgroup_Wait R).
Proof.
  intros HP s Hs. destruct (Wait_ok h cache (R:=R) s Hs) as (s1 & Hw & Hp & Hran).
  rewrite Hw. simpl.
  destruct (goroutines_ran_appends h cache s s1 Hs Hran) as [H1 H2].
  split; [done | by eapply appends_weaken].
Qed.

Lemma walk_event_sbom h r bomType e : walk_event h r bomType e -> sbom_event e.
Proof. by destruct e. Qed.

Lemma restoreSBOM_appends (h : Host) (r : Restorer) (w : World) :
  appends sbom_event w (run (Restorer_restoreSBOM h r) w).1.
Proof.
  destruct (restoreSBOM_run h r w) as (w1 & e1 & _ & Happ1 & Hrest).
  apply (appends_weaken _ _ _ _ (walk_event_sbom h r "cache")) in Happ1.
  assert (Hclean : forall w0, appends sbom_event w0 (sbomCleanup h r w0)).
  { intros w0. exists [CallRemoveAll (sbomDir h r)]. split; [reflexivity|].
    by repeat constructor. }
  destruct e1 as [err|].
  - rewrite Hrest. simpl. eapply appends_trans; [exact Happ1 | apply Hclean].
  - destruct Hrest as (w2 & e2 & _ & Happ2 & Hrun). rewrite Hrun. simpl.
    apply (appends_weaken _ _ _ _ (walk_event_sbom h r "launch")) in Happ2.
    eapply appends_trans; [exact Happ1|].
    eapply appends_trans; [exact Happ2 | apply Hclean].
Qed.

Lemma Restore_finish_keeps (h : Host) (r : Restorer) (cache : Cache) (v : api.Version) :
  api.MustParse (cmd.API (Platform r)) = Some v ->
  keeps h cache (after_metadata_event v) (Restore_finish h r).
Proof.
  intros Hv s Hs.
  destruct (Wait_ok h cache (R:=option error) s Hs) as (s1 & Hw & Hp & Hran).
  destruct (goroutines_ran_appends h cache s s1 Hs Hran) as [Hs1 Happ].
  assert (Happ' : appends (after_metadata_event v) (world s) (world s1)).
  { eapply appends_weaken; [|exact Happ]. by intros []. }
  unfold Restore_finish, bind, must, ret. rewrite Hw.
  destruct (errgroup.err (g s1)); [by split|].
  rewrite Hv. cbv beta iota. rewrite AtLeast_08. cbv beta iota.
  destruct (at_least_0 8 v) eqn:H8; [|by split].
  unfold direct, call.
  pose proof (restoreSBOM_appends h r (world s1)) as Hsb.
  destruct (run (Restorer_restoreSBOM h r) (world s1)) as [w' [e|]]; simpl in *.
  - split; [exact Hs1|]. eapply appends_trans; [exact Happ'|].
    eapply appends_weaken; [|exact Hsb]. intros []; simpl; done.
  - split; [exact Hs1|]. eapply appends_trans; [exact Happ'|].
    eapply appends_weaken; [|exact Hsb]. intros []; simpl; done.
Qed.

Lemma loop_event_after_metadata (v : api.Version) (e : Event) :
  loop_event (layer.NewSHAStore (negb (at_least_0 7 v))) e -> after_metadata_event v e.
Proof.
  destruct e; simpl; try done.
  intros ->. by destruct (at_least_0 7 v).
Qed.

Lemma restoresLayerMetadata_spec (r : Restorer) (v : api.Version) :
  api.MustParse (cmd.API (Platform r)) = Some v ->
  Restorer_restoresLayerMetadata r = Some (at_least_0 7 v).
Proof. intros Hv. unfold Restorer_restoresLayerMetadata. by rewrite Hv, AtLeast_07. Qed.

(** What follows the call of the metadata restorer in [Restore]. *)
Lemma Restore_loop_and_finish (h : Host) (r : Restorer) (cache : Cache)
  (cacheMeta : platform.CacheMetadata) (v : api.Version) (s : RState) :
  api.MustParse (cmd.API (Platform r)) = Some v ->
  appends (after_metadata_event v) (world s)
    (world (bind (modify (set_g errgroup.zero))
              (fun _ => bind (for_range (Buildpacks r)
                                (Restore_buildpack h r cache cacheMeta
                                   (layer.NewSHAStore (negb (at_least_0 7 v)))))
                             (fun _ => Restore_finish h r)) s).1).
Proof.
  intros Hv.
  assert (Hk : keeps h cache (after_metadata_event v)
                 (bind (for_range (Buildpacks r)
                          (Restore_buildpack h r cache cacheMeta
                             (layer.NewSHAStore (negb (at_least_0 7 v)))))
                       (fun _ => Restore_finish h r))).
  { apply keeps_bind.
    - apply keeps_for_range. intros bp.
      eapply keeps_weaken; [apply loop_event_after_metadata|].
      apply Restore_buildpack_keeps.
    - intros _. by apply Restore_finish_keeps. }
  unfold bind at 1. unfold modify.
  destruct (Hk (set_g errgroup.zero s)) as [_ Happ]; [constructor|].
  exact Happ.
Qed.

Lemma Restore_unfold (h : Host) (r : Restorer) (cache : Cache)
  (cacheMeta : platform.CacheMetadata) (v : api.Version) (s : RState) :
  api.MustParse (cmd.API (Platform r)) = Some v ->
  retrieveCacheMetadata cache = (cacheMeta, None) ->
  let store := layer.NewSHAStore (negb (at_least_0 7 v)) in
  let rest := bind (modify (set_g errgroup.zero))
                (fun _ => bind (for_range (Buildpacks r)
                                  (Restore_buildpack h r cache cacheMeta store))
                               (fun _ => Restore_finish h r)) in
  Restorer_Restore h r cache s
  = if at_least_0 7 v
    then
      let res := LayerMetadataRestorer r (Buildpacks r) (LayersMetadata r)
                   cacheMeta store (disk (world s)) in
      let s1 := set_world {| disk := res.1;
                             trace := (trace (world s)
                                       ++ [CallMetadataRestore store])%list |} s in
      match res.2 with
      | Some err => (s1, Return (Some err))
      | None => rest s1
      end
    else rest s.
Proof.
  intros Hv Hcm store rest. unfold Restorer_Restore. rewrite Hcm.
  rewrite (restoresLayerMetadata_spec r v Hv).
  unfold bind at 1, must at 1, ret at 1. cbv beta iota.
  unfold bind at 1, must at 1, ret at 1. cbv beta iota.
  fold store. destruct (at_least_0 7 v).
  - unfold bind at 1. unfold bind at 1. unfold direct. rewrite perform_spec.
    cbv beta iota zeta.
    destruct (LayerMetadataRestorer r (Buildpacks r) (LayersMetadata r) cacheMeta store
                (disk (world s))) as [d1 [err|]]; reflexivity.
  - reflexivity.
Qed.

Lemma after_metadata_restore (v : api.Version) (e : Event) :
  after_metadata_event v e -> restore_event v e.
Proof. by destruct e. Qed.

(** The events of a whole run of [Restore]. *)
Lemma Restore_trace (h : Host) (r : Restorer) (cache : Cache) (v : api.Version)
  (s : RState) :
  api.MustParse (cmd.API (Platform r)) = Some v ->
  appends (restore_event v) (world s) (world (Restorer_Restore h r cache s).1).
Proof.
  intros Hv. destruct (retrieveCacheMetadata cache) as [cacheMeta [err|]] eqn:Hcm.
  - unfold Restorer_Restore. rewrite Hcm. apply appends_refl.
  - rewrite (Restore_unfold h r cache cacheMeta v s Hv Hcm). cbv zeta.
    destruct (at_least_0 7 v) eqn:H7.
    + set (res := LayerMetadataRestorer r _ _ _ _ _).
      set (s1 := set_world _ s).
      assert (H1 : appends (restore_event v) (world s) (world s1)).
      { exists [CallMetadataRestore (layer.NewSHAStore (negb true))].
        split; [reflexivity|]. repeat constructor. exact H7. }
      destruct (res.2); [exact H1|].
      eapply appends_trans; [exact H1|].
      eapply appends_weaken; [apply after_metadata_restore|].
      pose proof (Restore_loop_and_finish h r cache cacheMeta v s1 Hv) as Hl.
      rewrite H7 in Hl. exact Hl.
    + eapply appends_weaken; [apply after_metadata_restore|].
      pose proof (Restore_loop_and_finish h r cache cacheMeta v s Hv) as Hl.
      rewrite H7 in Hl. exact Hl.
Qed.



(** A copy that fails ends the relocator with its error, and the staging
    root is gone all the same; so it is when all copies succeed. *)
Example restoreSBOM_cleans_up_on_error :
  let out := run (Restorer_restoreSBOM sample_host
                    (sample_restorer [sample_bp "bp1" "0.6"] "0.8"))
                 {| disk := sample_sbom_disk_broken; trace := [] |} in
  out.2 = Returned (Some (errors_New "open destination: no such file or directory"))
  /\ map_to_list (files (disk out.1)) = [("/layers", os.Dir)]
  /\ trace out.1
     = [CallWalk "/layers/sbom/cache"; CallWalk "/layers/sbom/launch";
        CallCopy "/layers/sbom/launch/bp1/layerX/sbom.cdx.json"
                 "/layers/bp1/layerX.sbom.cdx.json";
        CallRemoveAll "/layers/sbom"].
Proof. vm_compute. repeat split. Qed.


(** ** The metadata restorer and the scheme of the hash store *)

(** C4: the flag [restoresLayerMetadata] is true exactly when the platform
    API is at least 0.7.  When it is true, [Restore] first calls the
    metadata restorer, with the store of embedded hashes, and every hash is
    asked of that store; when it is false, the metadata restorer is not
    called and every hash is asked of the store of hash files.  One store
    is chosen for the whole call. *)
Theorem C4_metadata_restore_and_scheme (h : Host) (r : Restorer) (cache : Cache)
  (cacheMeta : platform.CacheMetadata) (v : api.Version) (s : RState) :
  api.MustParse (cmd.API (Platform r)) = Some v ->
  retrieveCacheMetadata cache = (cacheMeta, None) ->
  let store := layer.NewSHAStore (negb (at_least_0 7 v)) in
  let new := events_since (world s) (world (Restorer_Restore h r cache s).1) in
  Restorer_restoresLayerMetadata r = Some (at_least_0 7 v)
  /\ store = (if at_least_0 7 v then layer.embeddedSHAStore else layer.fileSHAStore)
  /\ (forall st bp l, CallSHAGet st bp l ∈ new -> st = store)
  /\ (if at_least_0 7 v
      then exists rest,
             new = CallMetadataRestore layer.embeddedSHAStore :: rest
             /\ forall st, CallMetadataRestore st ∉ rest
      else forall st, CallMetadataRestore st ∉ new).
Proof.
  intros Hv Hcm store new.
  split; [by apply restoresLayerMetadata_spec|].
  split; [subst store; by destruct (at_least_0 7 v)|].
  split.
  - intros st bp l Hin.
    apply (appends_elem _ _ _ _ (Restore_trace h r cache v s Hv)) in Hin.
    simpl in Hin. subst store st. by destruct (at_least_0 7 v).
  - subst new. rewrite (Restore_unfold h r cache cacheMeta v s Hv Hcm). cbv zeta.
    pose proof (Restore_loop_and_finish h r cache cacheMeta v) as Hl.
    destruct (at_least_0 7 v) eqn:H7.
    + set (res := LayerMetadataRestorer r _ _ _ _ _).
      set (s1 := set_world _ s).
      destruct (res.2).
      * exists []. split; [|intros st Hin; inversion Hin].
        apply events_since_app. reflexivity.
      * specialize (Hl s1 Hv). destruct Hl as (evs & Htr & HF).
        exists evs. split.
        -- apply events_since_app. rewrite Htr. simpl. by rewrite <- app_assoc.
        -- intros st Hin. rewrite Forall_forall in HF. by apply HF in Hin.
    + intros st Hin. apply (appends_elem _ _ _ _ (Hl s Hv)) in Hin. exact Hin.
Qed.

Lemma C4_metadata_restore_and_scheme_witness :
  Restorer_restoresLayerMetadata (sample_restorer [sample_bp "bp1" "0.5"] "0.7") = Some true
  /\ (exists rest,
        events_since (world (sample_state sample_layers_disk [] []))
          (world (Restorer_Restore sample_host
                    (sample_restorer [sample_bp "bp1" "0.5"] "0.7") sample_cache
                    (sample_state sample_layers_disk [] [])).1)
        = CallMetadataRestore layer.embeddedSHAStore :: rest
        /\ forall st, CallMetadataRestore st ∉ rest).
Proof.
  pose proof (C4_metadata_restore_and_scheme sample_host
                (sample_restorer [sample_bp "bp1" "0.5"] "0.7") sample_cache
                sample_cacheMeta {| api.major := 0; api.minor := 7 |}
                (sample_state sample_layers_disk [] []) eq_refl eq_refl)
    as (Hflag & _ & _ & Hcall).
  split; [exact Hflag | exact Hcall].
Defined.

(** Below 0.7 the hash files are used and no metadata is restored; from
    0.7 on the embedded hashes are. *)
Example store_scheme_by_platform :
  let events api :=
    trace (world (Restorer_Restore sample_host
                    (sample_restorer [sample_bp "bp1" "0.5"] api) sample_cache
                    (sample_state sample_layers_disk [] [])).1) in
  List.hd (CallGo (sample_layer "" "") "") (events "0.6")
    = CallReadLayersDir (sample_bp "bp1" "0.5")
  /\ CallSHAGet layer.fileSHAStore "bp1" (sample_layer "bp1" "L1") ∈ events "0.6"
  /\ List.hd (CallGo (sample_layer "" "") "") (events "0.7")
     = CallMetadataRestore layer.embeddedSHAStore
  /\ CallSHAGet layer.embeddedSHAStore "bp1" (sample_layer "bp1" "L1") ∈ events "0.7".
Proof.
  vm_compute. repeat split.
  - do 1 apply list_elem_of_further. apply list_elem_of_here.
  - do 2 apply list_elem_of_further. apply list_elem_of_here.
Qed.

(** ** Relocation of the staged SBOM files *)




(** ** The pattern of staged SBOM files: what it finds *)

Lemma literal_sound (pre s r : list ascii) :
  regexp.literal pre s = Some r -> s = (pre ++ r)%list.
Proof.
  revert s. induction pre as [|p pre IH]; intros s; simpl.
  - by intros [= ->].
  - destruct s as [|c s]; [done|].
    destruct (Ascii.eqb p c) eqn:Hpc; [|done].
    apply Ascii.eqb_eq in Hpc as ->. intros Hl. by rewrite (IH s Hl).
Qed.

Lemma dot_plus_sound (s p rest : list ascii) :
  In (p, rest) (regexp.dot_plus s) ->
  s = (p ++ rest)%list /\ p <> [] /\ ~ In regexp.newline p.
Proof.
  revert p rest. induction s as [|c s IH]; intros p rest; simpl; [done|].
  destruct (Ascii.eqb c regexp.newline) eqn:Hc; [done|].
  apply Ascii.eqb_neq in Hc.
  intros [[= <- <-]|Hin].
  - split; [done|]. split; [done|]. intros [->|[]]. done.
  - apply in_map_iff in Hin as ([p' rest'] & [= <- <-] & Hin). simpl.
    destruct (IH p' rest' Hin) as (-> & _ & Hnl).
    split; [done|]. split; [done|]. intros [->|Hin']; [done | by apply Hnl].
Qed.

Lemma first_some_sound {A B} (f : A -> option B) (l : list A) (b : B) :
  regexp.first_some f l = Some b -> exists x, In x l /\ f x = Some b.
Proof.
  induction l as [|x l IH]; simpl; [done|].
  destruct (f x) as [b'|] eqn:Hfx.
  - intros [= <-]. exists x. by split; [left|].
  - intros Hl. destruct (IH Hl) as (y & Hy & Hfy). exists y. by split; [right|].
Qed.

Lemma match_file_sound (s f : list ascii) :
  regexp.match_file s = Some f ->
  exists x post,
    s = (f ++ post)%list
    /\ f = (list_ascii_of_string "sbom" ++ x ++ list_ascii_of_string "json")%list
    /\ x <> [] /\ ~ In regexp.newline x.
Proof.
  unfold regexp.match_file.
  destruct (regexp.literal (list_ascii_of_string "sbom") s) as [s1|] eqn:H1; [|done].
  apply literal_sound in H1 as ->.
  intros Hf. apply first_some_sound in Hf as ([x rest] & Hin & Hm).
  apply in_rev, dot_plus_sound in Hin as (-> & Hx & Hnl). cbn [fst snd] in Hm.
  destruct (regexp.literal (list_ascii_of_string "json") rest) as [post|] eqn:H2; [|done].
  apply literal_sound in H2 as ->. injection Hm as <-.
  exists x, post. split; [|done]. simpl. by rewrite <- app_assoc.
Qed.

Lemma match_groups_sound (sep : ascii) (s a b f : list ascii) :
  regexp.match_groups sep s = Some (a, b, f) ->
  exists x post,
    s = (a ++ sep :: b ++ sep :: f ++ post)%list
    /\ f = (list_ascii_of_string "sbom" ++ x ++ list_ascii_of_string "json")%list
    /\ a <> [] /\ b <> [] /\ x <> []
    /\ ~ In regexp.newline a /\ ~ In regexp.newline b /\ ~ In regexp.newline x.
Proof.
  unfold regexp.match_groups. intros Hg.
  apply first_some_sound in Hg as ([a' r1] & Hin1 & Hg).
  apply in_rev, dot_plus_sound in Hin1 as (-> & Ha & Hnla). cbn [fst snd] in Hg.
  destruct (regexp.literal [sep] r1) as [s2|] eqn:H1; [|done].
  apply literal_sound in H1 as ->.
  apply first_some_sound in Hg as ([b' r2] & Hin2 & Hg).
  apply in_rev, dot_plus_sound in Hin2 as (-> & Hb & Hnlb). cbn [fst snd] in Hg.
  destruct (regexp.literal [sep] r2) as [s3|] eqn:H2; [|done].
  apply literal_sound in H2 as ->.
  destruct (regexp.match_file s3) as [f'|] eqn:H3; [|done].
  injection Hg as <- <- <-.
  apply match_file_sound in H3 as (x & post & -> & Hf & Hx & Hnlx).
  exists x, post. split; [reflexivity|]. by rewrite Hf.
Qed.

Lemma find_from_sound (sep : ascii) (T s a b f : list ascii) :
  regexp.find_from sep T s = Some (a, b, f) ->
  exists pre x post,
    s = (pre ++ T ++ sep :: a ++ sep :: b ++ sep :: f ++ post)%list
    /\ f = (list_ascii_of_string "sbom" ++ x ++ list_ascii_of_string "json")%list
    /\ a <> [] /\ b <> [] /\ x <> []
    /\ ~ In regexp.newline a /\ ~ In regexp.newline b /\ ~ In regexp.newline x.
Proof.
  induction s as [|c s IH]; simpl.
  - destruct (regexp.literal (T ++ [sep]) []) as [s1|] eqn:H1; [|done].
    destruct (regexp.match_groups sep s1) as [m|] eqn:H2; [|done].
    apply literal_sound in H1. by destruct T.
  - destruct (match regexp.literal (T ++ [sep]) (c :: s) with
              | Some s1 => regexp.match_groups sep s1
              | None => None
              end) as [m|] eqn:Hhere.
    + intros [= ->].
      destruct (regexp.literal (T ++ [sep]) (c :: s)) as [s1|] eqn:H1; [|done].
      apply literal_sound in H1.
      apply match_groups_sound in Hhere as (x & post & -> & Hrest).
      exists [], x, post. split; [|exact Hrest].
      rewrite H1. simpl. by rewrite <- app_assoc.
    + intros Hs. destruct (IH Hs) as (pre & x & post & -> & Hrest).
      by exists (c :: pre), x, post.
Qed.

Lemma string_of_list_ascii_app (l1 l2 : list ascii) :
  string_of_list_ascii (l1 ++ l2)
  = string_of_list_ascii l1 +:+ string_of_list_ascii l2.
Proof.
  induction l1 as [|c l1 IH]; [done|].
  change (String c (string_of_list_ascii (l1 ++ l2))
          = String c (string_of_list_ascii l1 +:+ string_of_list_ascii l2)).
  by f_equal.
Qed.

Lemma string_of_list_ascii_cons (c : ascii) (l : list ascii) :
  string_of_list_ascii (c :: l) = String c (string_of_list_ascii l).
Proof. reflexivity. Qed.

Lemma string_of_list_ascii_nonempty (l : list ascii) :
  l <> [] -> string_of_list_ascii l <> "".
Proof. by destruct l. Qed.

(** ** The pattern of staged SBOM files finds the staged file *)





















(** The same run, evaluated: the file of [bp1] is matched with another
    buildpack ID, is not copied, and is lost with the staging root. *)
Example staged_file_lost_below_nested_layers_dir :
  let w := {| disk := sample_sbom_disk_nested; trace := [] |} in
  let out := run (Restorer_restoreSBOM sample_host sample_nested_restorer) w in
  bomMatch sample_host "launch" "/launch/layers/sbom/launch/bp1/layerX/sbom.cdx.json"
  = Some ("layers/sbom/launch/bp1", "layerX", "sbom.cdx.json")
  /\ out.2 = Returned None
  /\ trace out.1 = [CallWalk "/launch/layers/sbom/cache";
                    CallWalk "/launch/layers/sbom/launch";
                    CallRemoveAll "/launch/layers/sbom"]
  /\ map_to_list (files (disk out.1))
     = [("/launch/layers/bp1", os.Dir); ("/launch/layers", os.Dir); ("/launch", os.Dir)].
Proof. vm_compute. repeat split. Qed.

(** The staged file of a buildpack of the group is moved to its layers
    directory, that of another buildpack is dropped, and the staging root
    is gone. *)
Example restoreSBOM_moves_staged_files :
  let out := run (Restorer_restoreSBOM sample_host
                    (sample_restorer [sample_bp "bp1" "0.6"] "0.8"))
                 {| disk := sample_sbom_disk; trace := [] |} in
  out.2 = Returned None
  /\ map_to_list (files (disk out.1))
     = [("/layers/bp1/layerX.sbom.cdx.json", os.File "bom of bp1");
        ("/layers/bp1", os.Dir); ("/layers", os.Dir)].
Proof. vm_compute. repeat split. Qed.

(** The pattern is searched from the left of the whole path: below a
    layers directory whose own path holds the name of the subtree, the
    first submatch is not the buildpack ID of the staging layout. *)
Example pattern_is_leftmost :
  bomMatch sample_host "launch" "/layers/sbom/launch/bp1/layerX/sbom.cdx.json"
    = Some ("bp1", "layerX", "sbom.cdx.json")
  /\ bomMatch sample_host "launch" "/launch/layers/sbom/launch/bp1/layerX/sbom.cdx.json"
     = Some ("layers/sbom/launch/bp1", "layerX", "sbom.cdx.json").
Proof. vm_compute. repeat split. Qed.

(** ** The decision on a layer *)

Lemma atomic_perform_ok (h : Host) (cache : Cache) {R A} (e : Event)
  (f : Disk -> Disk * A) (s : RState) :
  pool_ok h cache s ->
  exists s1,
    goroutines_ran s s1 /\ pool_ok h cache s1
    /\ appends task_event (world s) (world s1)
    /\ @atomic R A (perform e f) s
       = (set_world {| disk := (f (disk (world s1))).1;
                       trace := (trace (world s1) ++ [e])%list |} s1,
          Next (f (disk (world s1))).2).
Proof.
  intros Hpool. destruct (atomic_ok h cache (R:=R) (perform e f) s Hpool)
    as (s1 & Hran & Hat).
  destruct (goroutines_ran_appends h cache s s1 Hpool Hran) as [Hp1 Happ].
  exists s1. repeat split; try done. rewrite Hat, perform_spec. reflexivity.
Qed.

Lemma atomic_logf_ok (h : Host) (cache : Cache) {R} (e : Event) (s : RState) :
  pool_ok h cache s ->
  exists s1,
    goroutines_ran s s1 /\ pool_ok h cache s1
    /\ appends task_event (world s) (world s1)
    /\ @atomic R unit (logf e) s = (set_world (log e (world s1)) s1, Next tt).
Proof.
  intros Hpool. destruct (atomic_ok h cache (R:=R) (logf e) s Hpool)
    as (s1 & Hran & Hat).
  destruct (goroutines_ran_appends h cache s s1 Hpool Hran) as [Hp1 Happ].
  exists s1. repeat split; try done.
Qed.

Lemma Remove_result (h : Host) (l : buildpack.Layer) (d : Disk) :
  (buildpack.Remove h l d).2 = None -> buildpack.Remove h l d = (removed h l d, None).
Proof.
  unfold buildpack.Remove.
  destruct (RemoveErr h (buildpack.path l)); [done|].
  destruct (RemoveErr h (buildpack.path l +:+ ".sha")); [done|].
  destruct (RemoveErr h (buildpack.path l +:+ ".toml")); [done|]. reflexivity.
Qed.

Lemma Remove_absent (h : Host) (l : buildpack.Layer) (d : Disk) :
  (buildpack.Remove h l d).2 = None -> layer_absent h l (buildpack.Remove h l d).1.
Proof.
  intros Hok. rewrite (Remove_result h l d Hok). unfold layer_absent. simpl.
  split; [apply lookup_delete_eq|]. split; [apply lookup_delete_eq|].
  intros p Hu. apply map_lookup_filter_None. right. intros x _ Hx. simpl in Hx.
  congruence.
Qed.

Lemma task_not_go e : task_event e -> not_go e.
Proof. by destruct e. Qed.

Lemma task_not_remove e : task_event e -> not_remove e.
Proof. by destruct e. Qed.

Lemma appends_step (P : Event -> Prop) (w w1 : World) (e : Event) (d : Disk) :
  appends task_event w w1 -> (forall e', task_event e' -> P e') -> P e ->
  appends P w {| disk := d; trace := (trace w1 ++ [e])%list |}.
Proof.
  intros Happ HP He. eapply appends_trans.
  - eapply appends_weaken; [exact HP | exact Happ].
  - exists [e]. split; [reflexivity | by constructor].
Qed.

Lemma appended_elem (P : Event -> Prop) (w w1 w2 : World) (e : Event) :
  trace w1 = (trace w ++ events_since w w1)%list ->
  e ∈ events_since w w1 -> appends P w1 w2 -> e ∈ events_since w w2.
Proof.
  intros H1 Hin (b & Hb & _).
  rewrite (events_since_trans w w1 w2 _ b H1 Hb). apply elem_of_app. by left.
Qed.

Lemma last_event_elem (P : Event -> Prop) (w w1 : World) (e : Event) (d : Disk) :
  appends P w w1 ->
  e ∈ events_since w {| disk := d; trace := (trace w1 ++ [e])%list |}.
Proof.
  intros (a & Ha & _).
  rewrite (events_since_trans w w1 {| disk := d; trace := (trace w1 ++ [e])%list |}
             a [e] Ha eq_refl).
  apply elem_of_app. right. apply list_elem_of_here.
Qed.

Lemma pool_ok_set_world h cache w s : pool_ok h cache s -> pool_ok h cache (set_world w s).
Proof. done. Qed.

(** The removal of a layer by the main flow, from a state [s]: the layer
    is gone, or the removal has failed and the function returns. *)
Lemma remove_step (h : Host) (cache : Cache) (l : buildpack.Layer) (s0 s : RState) :
  pool_ok h cache s -> appends not_go (world s0) (world s) ->
  let out := bind (atomic (perform (R:=option error) (CallRemove l) (buildpack.Remove h l)))
               (fun err : option error =>
                  match err with
                  | Some err => return_ (Some (errors_Wrap err "removing layer"))
                  | None => ret tt
                  end) s in
  appends not_go (world s0) (world out.1)
  /\ removes l (events_since (world s0) (world out.1))
  /\ ((out.2 = Next tt /\ layer_absent h l (disk (world out.1)))
      \/ exists e, out.2 = Return (Some (errors_Wrap e "removing layer"))).
Proof.
  intros Hpool Happ0.
  destruct (atomic_perform_ok h cache (R:=option error) (CallRemove l)
              (buildpack.Remove h l) s Hpool) as (s1 & _ & _ & Happ1 & Hat).
  cbv zeta. unfold bind. rewrite Hat.
  pose proof (Remove_absent h l (disk (world s1))) as Habs.
  assert (Happ : appends not_go (world s0) (world s1)).
  { eapply appends_trans; [exact Happ0|].
    eapply appends_weaken; [apply task_not_go | exact Happ1]. }
  assert (Hev : forall d (o : Step (option error) unit),
            appends not_go (world s0)
              (world (set_world {| disk := d;
                                   trace := (trace (world s1) ++ [CallRemove l])%list |} s1,
                      o).1)
            /\ removes l (events_since (world s0)
                            (world (set_world {| disk := d;
                                                 trace := (trace (world s1)
                                                           ++ [CallRemove l])%list |} s1,
                                    o).1))).
  { intros d o. split.
    - eapply appends_trans; [exact Happ|]. exists [CallRemove l]. by repeat constructor.
    - unfold removes. eapply last_event_elem. exact Happ. }
  destruct (buildpack.Remove h l (disk (world s1))) as [d1 [e|]]; cbn [fst snd] in *.
  - destruct (Hev d1 (Return (Some (errors_Wrap e "removing layer")))) as [H1 H2].
    split; [exact H1|]. split; [exact H2|]. right. by exists e.
  - destruct (Hev d1 (Next tt)) as [H1 H2].
    split; [exact H1|]. split; [exact H2|]. left. split; [reflexivity | by apply Habs].
Qed.

Lemma Restore_layer_missing (h : Host) (cache : Cache) (store : layer.SHAStore)
  (bp : buildpack.GroupBuildpack)
  (cachedLayers : gmap string platform.BuildpackLayerMetadata)
  (l : buildpack.Layer) (s : RState) :
  pool_ok h cache s ->
  cachedLayers !! buildpack.Name h l = None ->
  let out := Restore_layer h cache store bp cachedLayers l s in
  appends not_go (world s) (world out.1)
  /\ removes l (events_since (world s) (world out.1))
  /\ ((out.2 = Next tt /\ layer_absent h l (disk (world out.1)))
      \/ exists e, out.2 = Return (Some (errors_Wrap e "removing layer"))).
Proof.
  intros Hpool Hcl.
  destruct (atomic_logf_ok h cache (R:=option error)
              (Infof "Removing %q, not in cache" [buildpack.Identifier l]) s Hpool)
    as (s1 & _ & Hp1 & Happ1 & Hat1).
  match goal with |- let out := ?o in _ =>
    pose proof (eq_refl : o = o) as Heq; intros out; subst out end.
  unfold Restore_layer in Heq at 2. rewrite Hcl in Heq.
  unfold bind at 1 in Heq. rewrite Hat1 in Heq. rewrite Heq.
  apply (remove_step h cache l s); [by apply pool_ok_set_world|].
  simpl. eapply appends_trans.
  - eapply appends_weaken; [apply task_not_go | exact Happ1].
  - by apply appends_log.
Qed.

Lemma Restore_layer_present (h : Host) (cache : Cache) (store : layer.SHAStore)
  (bp : buildpack.GroupBuildpack)
  (cachedLayers : gmap string platform.BuildpackLayerMetadata)
  (l : buildpack.Layer) (rec : platform.BuildpackLayerMetadata) (s : RState) :
  pool_ok h cache s ->
  cachedLayers !! buildpack.Name h l = Some rec ->
  exists s1,
    goroutines_ran s s1
    /\ let asked := (layer.Get h store (buildpack.ID bp) l (disk (world s1))).2 in
       let out := Restore_layer h cache store bp cachedLayers l s in
       let new := events_since (world s) (world out.1) in
       match asked with
       | (_, Some e) =>
           out.2 = Return (Some e)
           /\ appends not_go (world s) (world out.1)
           /\ appends not_remove (world s) (world out.1)
       | (sha, None) =>
           if bool_decide (sha <> platform.SHA rec)
           then appends not_go (world s) (world out.1)
                /\ removes l new
                /\ ((out.2 = Next tt /\ layer_absent h l (disk (world out.1)))
                    \/ exists e, out.2 = Return (Some (errors_Wrap e "removing layer")))
           else out.2 = Next tt
                /\ appends not_remove (world s) (world out.1)
                /\ CallGo l (platform.SHA rec) ∈ new
                /\ exists rest,
                     errgroup.pending (g out.1)
                     = (rest ++ [Restorer_restoreCacheLayer h cache (platform.SHA rec)])%list
       end.
Proof.
  intros Hpool Hcl.
  destruct (atomic_perform_ok h cache (R:=option error)
              (CallSHAGet store (buildpack.ID bp) l)
              (layer.Get h store (buildpack.ID bp) l) s Hpool)
    as (s1 & Hran1 & Hp1 & Happ1 & Hat1).
  exists s1. split; [exact Hran1|].
  pose proof (eq_refl : Restore_layer h cache store bp cachedLayers l s
                        = Restore_layer h cache store bp cachedLayers l s) as Heq.
  unfold Restore_layer in Heq at 2. rewrite Hcl in Heq.
  unfold bind at 1 in Heq. rewrite Hat1 in Heq.
  cbv zeta. rewrite Heq. clear Heq.
  destruct (layer.Get h store (buildpack.ID bp) l (disk (world s1)))
    as [d1 [sha [e|]]] eqn:Hget; cbn [fst snd].
  - split; [reflexivity|]. split.
    + eapply appends_step; [exact Happ1 | apply task_not_go | exact I].
    + eapply appends_step; [exact Happ1 | apply task_not_remove | exact I].
  - set (s1' := set_world {| disk := d1;
                             trace := (trace (world s1)
                                       ++ [CallSHAGet store (buildpack.ID bp) l])%list |} s1).
    assert (Hp1' : pool_ok h cache s1') by exact Hp1.
    assert (Happ1' : forall P : Event -> Prop,
               (forall e, task_event e -> P e) ->
               P (CallSHAGet store (buildpack.ID bp) l) ->
               appends P (world s) (world s1')).
    { intros P HP He. eapply appends_step; [exact Happ1 | exact HP | exact He]. }
    case_bool_decide as Hsha.
    + destruct (atomic_logf_ok h cache (R:=option error)
                  (Infof "Removing %q, wrong sha" [buildpack.Identifier l]) s1' Hp1')
        as (s2 & _ & Hp2 & Happ2 & Hat2).
      set (s2' := set_world (log (Infof "Removing %q, wrong sha" [buildpack.Identifier l])
                                 (world s2)) s2) in *.
      assert (Hp2' : pool_ok h cache s2') by exact Hp2.
      destruct (atomic_logf_ok h cache (R:=option error)
                  (Debugf "Layer sha: %q, cache sha: %q" [sha; platform.SHA rec]) s2' Hp2')
        as (s3 & _ & Hp3 & Happ3 & Hat3).
      match goal with |- context [?prog s1'] =>
        assert (Heq : prog s1'
                      = bind (atomic (perform (R:=option error) (CallRemove l)
                                              (buildpack.Remove h l)))
                          (fun err : option error =>
                             match err with
                             | Some err => return_ (Some (errors_Wrap err "removing layer"))
                             | None => ret tt
                             end)
                          (set_world (log (Debugf "Layer sha: %q, cache sha: %q"
                                                  [sha; platform.SHA rec]) (world s3)) s3))
      end.
      { unfold bind at 1. rewrite Hat2. unfold bind at 1. rewrite Hat3. reflexivity. }
      rewrite Heq.
      apply (remove_step h cache l s); [by apply pool_ok_set_world|].
      simpl.
      apply (appends_trans _ _ (world s1')); [apply Happ1'; [apply task_not_go | exact I]|].
      apply (appends_trans _ _ (world s2')).
      { apply (appends_step _ (world s1') (world s2));
          [exact Happ2 | apply task_not_go | exact I]. }
      apply (appends_step _ (world s2') (world s3));
        [exact Happ3 | apply task_not_go | exact I].
    + destruct (atomic_logf_ok h cache (R:=option error)
                  (Infof "Restoring data for %q from cache" [buildpack.Identifier l])
                  s1' Hp1')
        as (s2 & _ & Hp2 & Happ2 & Hat2).
      set (s2' := set_world (log (Infof "Restoring data for %q from cache"
                                        [buildpack.Identifier l]) (world s2)) s2) in *.
      assert (Hp2' : pool_ok h cache s2') by exact Hp2.
      destruct (atomic_logf_ok h cache (R:=option error)
                  (CallGo l (platform.SHA rec)) s2' Hp2')
        as (s3 & _ & Hp3 & Happ3 & Hat3).
      match goal with |- context [?prog s1'] =>
        assert (Heq : prog s1'
                      = (set_g {| errgroup.pending :=
                                    (errgroup.pending (g s3)
                                     ++ [Restorer_restoreCacheLayer h cache
                                           (platform.SHA rec)])%list;
                                  errgroup.err := errgroup.err (g s3) |}
                               (set_world (log (CallGo l (platform.SHA rec)) (world s3)) s3),
                         Next tt))
      end.
      { unfold bind at 1. rewrite Hat2. unfold bind at 1. rewrite Hat3. reflexivity. }
      rewrite Heq. cbn [fst snd world g set_g set_world errgroup.pending].
      assert (Happ : appends not_remove (world s) (world s3)).
      { apply (appends_trans _ _ (world s1'));
          [apply Happ1'; [apply task_not_remove | exact I]|].
        apply (appends_trans _ _ (world s2')).
        { apply (appends_step _ (world s1') (world s2));
            [exact Happ2 | apply task_not_remove | exact I]. }
        eapply appends_weaken; [apply task_not_remove | exact Happ3]. }
      split; [reflexivity|]. split; [|split].
      * eapply appends_trans; [exact Happ|]. by apply appends_log.
      * eapply (last_event_elem _ (world s) (world s3)). exact Happ.
      * by eexists.
Qed.

Lemma not_go_no_restore (l : buildpack.Layer) (w w' : World) :
  appends not_go w w' -> ~ starts_restore l (events_since w w').
Proof. intros Happ [sha Hin]. by apply (appends_elem _ _ _ _ Happ) in Hin. Qed.

Lemma not_remove_not_removes (l : buildpack.Layer) (w w' : World) :
  appends not_remove w w' -> ~ removes l (events_since w w').
Proof. intros Happ Hin. by apply (appends_elem _ _ _ _ Happ) in Hin. Qed.

(** ** The choice of the candidates *)





(** The same layers directory under the two rules: on the buildpack API
    0.6 the pass deals with the recorded layer [L1] alone, on 0.5 with
    both layers, whose descriptors have the cache flag. *)
Example candidates_by_buildpack_api :
  let s := sample_state sample_layers_disk [] [] in
  let pass api := Restore_buildpack sample_host (sample_restorer [sample_bp "bp1" api] "0.6")
                    sample_cache sample_cacheMeta layer.fileSHAStore (sample_bp "bp1" api) s in
  trace (world (pass "0.6").1)
  = [CallReadLayersDir (sample_bp "bp1" "0.6");
     CallSHAGet layer.fileSHAStore "bp1" (sample_layer "bp1" "L1");
     Infof "Restoring data for %q from cache" ["bp1:L1"];
     CallGo (sample_layer "bp1" "L1") "good"]
  /\ trace (world (pass "0.5").1)
     = [CallReadLayersDir (sample_bp "bp1" "0.5");
        CallSHAGet layer.fileSHAStore "bp1" (sample_layer "bp1" "L1");
        Infof "Restoring data for %q from cache" ["bp1:L1"];
        CallGo (sample_layer "bp1" "L1") "good";
        Infof "Removing %q, not in cache" ["bp1:old"];
        CallRemove (sample_layer "bp1" "old")].
Proof. vm_compute. repeat split. Qed.

(** ** Running [Restore] again: what a run leaves *)

Lemma stable_refl d : stable d d.
Proof. split; [done | auto]. Qed.

Lemma stable_trans d1 d2 d3 : stable d1 d2 -> stable d2 d3 -> stable d1 d3.
Proof.
  intros [H1 H1'] [H2 H2']. split; [by etrans|].
  intros p x Hp Hx. apply H2'; [done|]. apply H1'; [|done].
  destruct Hp as [md Hmd]. exists md. eapply lookup_weaken; eauto.
Qed.

Lemma stable_files d (f : gmap string os.Node) :
  stable d {| files := f; descriptors := descriptors d; shaFiles := shaFiles d |}.
Proof. split; [done | auto]. Qed.

Lemma Extract_sidecars (h : Host) (rc : layers.Archive) (dest : string) (d : Disk) :
  descriptors (layers.Extract h rc dest d).1 = descriptors d
  /\ shaFiles (layers.Extract h rc dest d).1 = shaFiles d.
Proof.
  revert d. induction rc as [|[name|name data|name] rc IH]; intros d; simpl; [done| | |done].
  - destruct (files d !! _) as [[|?]|]; try done;
      destruct (IH (layers.write (filepath.Join (GOOS h) [dest; name]) os.Dir d)); done.
  - destruct (files d !! _) as [[|?]|]; try done;
      destruct (IH (layers.write (filepath.Join (GOOS h) [dest; name]) (os.File data) d)); done.
Qed.

Lemma stable_sidecars d d' :
  descriptors d' = descriptors d -> shaFiles d' = shaFiles d -> stable d d'.
Proof. intros H1 H2. split; [by rewrite H1 | intros p x _; by rewrite H2]. Qed.

Lemma Extract_stable (h : Host) (rc : layers.Archive) (dest : string) (d : Disk) :
  stable d (layers.Extract h rc dest d).1.
Proof. destruct (Extract_sidecars h rc dest d). by apply stable_sidecars. Qed.

Lemma Copy_stable (h : Host) (src dst : string) (d : Disk) :
  stable d (Copy h src dst d).1.
Proof.
  unfold Copy. destruct (files d !! src) as [[|data]|]; try apply stable_refl.
  destruct (files d !! filepath.Dir (GOOS h) dst) as [[|?]|]; try apply stable_refl.
  destruct (files d !! dst) as [[|?]|]; try apply stable_refl; apply stable_files.
Qed.

Lemma os_RemoveAll_stable (h : Host) (root : string) (d : Disk) :
  stable d (os_RemoveAll h root d).
Proof.
  split; simpl.
  - apply map_filter_subseteq.
  - intros p x [md Hmd] Hx. apply map_lookup_filter_Some in Hmd as [_ Hb].
    apply map_lookup_filter_Some. done.
Qed.

Lemma Remove_stable (h : Host) (l : buildpack.Layer) (d : Disk) :
  (buildpack.Remove h l d).2 = None -> stable d (buildpack.Remove h l d).1.
Proof.
  intros Hok. rewrite (Remove_result h l d Hok).
  destruct (os_RemoveAll_stable h (buildpack.path l) d) as [H1 H2].
  split; simpl.
  - etrans; [apply delete_subseteq | exact H1].
  - intros p x [md Hmd] Hx.
    apply lookup_delete_Some in Hmd as [Hne Hmd].
    rewrite lookup_delete_ne by done. apply H2; [by exists md | done].
Qed.

Lemma Get_stable (h : Host) (store : layer.SHAStore) (id : string)
  (l : buildpack.Layer) (d : Disk) :
  stable d (layer.Get h store id l d).1.
Proof.
  unfold layer.Get. destruct store.
  - destruct (shaFiles d !! buildpack.path l) as [sha|] eqn:Hs; [apply stable_refl|].
    destruct (files d !! buildpack.path l) as [[|?]|]; try apply stable_refl.
    split; simpl; [done|]. intros p x _ Hx.
    rewrite lookup_insert_ne; [done|]. intros <-. congruence.
  - destruct (descriptors d !! buildpack.path l); apply stable_refl.
Qed.


Lemma Get_after (h : Host) (store : layer.SHAStore) (id : string)
  (l : buildpack.Layer) (d d' : Disk) (sha : string) :
  layer.Get h store id l d = (d', (sha, None)) ->
  stored store d' (buildpack.path l) = Some sha.
Proof.
  unfold stored, layer.Get. destruct store.
  - destruct (shaFiles d !! buildpack.path l) as [sha'|] eqn:Hs.
    + by intros [= <- <-].
    + destruct (files d !! buildpack.path l) as [[|?]|]; try done.
      intros [= <- <-]. simpl. apply lookup_insert_eq.
  - destruct (descriptors d !! buildpack.path l) as [md|] eqn:Hd; [|done].
    intros [= <- <-]. by rewrite Hd.
Qed.

Lemma stored_stable (store : layer.SHAStore) (d d' : Disk) (p sha : string) :
  stable d d' -> is_Some (descriptors d' !! p) ->
  stored store d p = Some sha -> stored store d' p = Some sha.
Proof.
  intros [Hsub Hsha] Hp. unfold stored. destruct store.
  - by apply Hsha.
  - destruct Hp as [md Hmd]. rewrite Hmd.
    rewrite (lookup_weaken _ _ _ _ Hmd Hsub). done.
Qed.

Lemma restoreCacheLayer_stable (h : Host) (cache : Cache) (sha : string) (w : World) :
  stable (disk w) (disk (run (Restorer_restoreCacheLayer h cache sha) w).1).
Proof.
  unfold Restorer_restoreCacheLayer, run. destruct cache as [c|]; simpl.
  - unfold bind, logf. rewrite perform_spec. simpl.
    destruct (RetrieveLayer c sha) as [rc [err|]]; simpl; [apply stable_refl|].
    unfold return_. rewrite perform_spec. simpl. apply Extract_stable.
  - apply stable_refl.
Qed.

Lemma run_tasks_stable (h : Host) (cache : Cache) (ts : list errgroup.Task) (w : World) :
  Forall (fun t => exists sha, t = Restorer_restoreCacheLayer h cache sha) ts ->
  stable (disk w) (disk (run_tasks ts w).1).
Proof.
  intros Hts. revert w. induction Hts as [|t ts [sha ->] _ IH]; intros w; simpl.
  - apply stable_refl.
  - pose proof (restoreCacheLayer_stable h cache sha w) as Hst.
    destruct (restoreCacheLayer_run h cache sha w) as (w' & e & Hrun & _).
    rewrite Hrun in Hst |- *. simpl in Hst.
    specialize (IH (log (TaskDone e) w')).
    destruct (run_tasks ts (log (TaskDone e) w')) as [w2 es]. simpl in *.
    eapply stable_trans; eauto.
Qed.

Lemma goroutines_ran_stable (h : Host) (cache : Cache) (s s' : RState) :
  pool_ok h cache s -> goroutines_ran s s' ->
  stable (disk (world s)) (disk (world s')).
Proof.
  intros Hpool (ran & res & Hperm & Hrun & _ & _).
  unfold pool_ok in Hpool.
  apply (Permutation_Forall (Permutation_sym Hperm)) in Hpool.
  apply Forall_app in Hpool as [Hran _].
  pose proof (run_tasks_stable h cache ran (world s) Hran) as Hst.
  by rewrite Hrun in Hst.
Qed.

Lemma preserves_ret {A} h cache (a : A) :
  preserves h cache (@ret RState (option error) A a).
Proof. intros s Hs. split; [done | intros _; apply stable_refl]. Qed.

Lemma preserves_return {A} h cache (x : option error) :
  preserves h cache (@return_ RState (option error) A x).
Proof. intros s Hs. split; [done | intros _; apply stable_refl]. Qed.

Lemma preserves_panic {A} h cache : preserves h cache (@panic RState (option error) A).
Proof. intros s Hs. split; [done | intros _; apply stable_refl]. Qed.

Lemma preserves_must {A} h cache (o : option A) :
  preserves h cache (@must RState (option error) A o).
Proof. destruct o; [apply preserves_ret | apply preserves_panic]. Qed.

Lemma preserves_bind {A B} h cache (m : Go RState (option error) A)
  (k : A -> Go RState (option error) B) :
  preserves h cache m -> (forall a, preserves h cache (k a)) -> preserves h cache (bind m k).
Proof.
  intros Hm Hk s Hs. destruct (Hm s Hs) as [H1 H2]. unfold bind.
  destruct (m s) as [s1 [a|x|]]; simpl in *; try done.
  destruct (Hk a s1 H1) as [H3 H4]. split; [done|].
  intros Hok. eapply stable_trans; [apply H2; tauto | by apply H4].
Qed.

Lemma preserves_for_range {A} h cache (l : list A)
  (body : A -> Go RState (option error) unit) :
  (forall x, preserves h cache (body x)) -> preserves h cache (for_range l body).
Proof.
  intros Hb. induction l as [|x l IH]; simpl.
  - apply preserves_ret.
  - apply preserves_bind; [apply Hb | intros _; apply IH].
Qed.

Lemma preserves_yield h cache : preserves h cache (@yield (option error)).
Proof.
  intros s Hs. destruct (yield_ok h cache (R:=option error) s Hs) as (s1 & Hy & Hran).
  rewrite Hy. simpl.
  destruct (goroutines_ran_appends h cache s s1 Hs Hran) as [H1 _].
  split; [done | intros _; by eapply goroutines_ran_stable].
Qed.

Lemma preserves_direct {A} h cache (m : Go World (option error) A) :
  (forall w, stable (disk w) (disk (m w).1)) -> preserves h cache (direct m).
Proof.
  intros Hm s Hs. unfold direct. specialize (Hm (world s)).
  destruct (m (world s)) as [w' out]. simpl in *. split; [exact Hs | intros _; exact Hm].
Qed.

Lemma preserves_atomic {A} h cache (m : Go World (option error) A) :
  (forall w, stable (disk w) (disk (m w).1)) -> preserves h cache (atomic m).
Proof.
  intros Hm. unfold atomic. apply preserves_bind.
  - apply preserves_yield.
  - intros _. by apply preserves_direct.
Qed.

Lemma preserves_logf h cache (e : Event) :
  preserves h cache (@atomic (option error) unit (logf e)).
Proof. apply preserves_atomic. intros w. apply stable_refl. Qed.

Lemma preserves_perform {A} h cache (e : Event) (f : Disk -> Disk * A) :
  (forall d, stable d (f d).1) -> preserves h cache (@atomic (option error) A (perform e f)).
Proof. intros Hf. apply preserves_atomic. intros w. rewrite perform_spec. apply Hf. Qed.

Lemma preserves_Go h cache (sha : string) :
  preserves h cache (@errgroup_Go (option error) (Restorer_restoreCacheLayer h cache sha)).
Proof.
  intros s Hs. simpl. split; [|intros _; apply stable_refl].
  unfold pool_ok. simpl. apply Forall_app. split; [exact Hs|].
  constructor; [by exists sha | constructor].
Qed.

Lemma preserves_Wait h cache : preserves h cache (@errgroup_Wait (option error)).
Proof.
  intros s Hs. destruct (Wait_ok h cache (R:=option error) s Hs) as (s1 & Hw & Hp & Hran).
  rewrite Hw. simpl.
  destruct (goroutines_ran_appends h cache s s1 Hs Hran) as [H1 _].
  split; [done | intros _; by eapply goroutines_ran_stable].
Qed.

(** The removal of a layer with what follows it: a removal that fails
    makes the function return. *)
Lemma preserves_remove h cache (l : buildpack.Layer) :
  preserves h cache
    (bind (atomic (perform (R:=option error) (CallRemove l) (buildpack.Remove h l)))
       (fun err : option error =>
          match err with
          | Some err => return_ (Some (errors_Wrap err "removing layer"))
          | None => ret tt
          end)).
Proof.
  intros s Hs.
  destruct (atomic_perform_ok h cache (R:=option error) (CallRemove l)
              (buildpack.Remove h l) s Hs) as (s1 & Hran & Hp1 & _ & Hat).
  pose proof (goroutines_ran_stable h cache s s1 Hs Hran) as Hst.
  unfold bind. rewrite Hat.
  pose proof (Remove_stable h l (disk (world s1))) as Hrm.
  destruct (buildpack.Remove h l (disk (world s1))) as [d1 [e|]]; simpl in *.
  - split; [exact Hp1 | tauto].
  - split; [exact Hp1|]. intros _. eapply stable_trans; [exact Hst | by apply Hrm].
Qed.

Lemma Restore_layer_preserves h cache store bp cachedLayers l :
  preserves h cache (Restore_layer h cache store bp cachedLayers l).
Proof.
  unfold Restore_layer.
  destruct (cachedLayers !! buildpack.Name h l) as [rec|].
  - apply preserves_bind.
    + apply preserves_perform. intros d. apply Get_stable.
    + intros [sha [err|]]; [apply preserves_return|].
      case_bool_decide.
      * apply preserves_bind; [|intros _; apply preserves_bind; [|intros _]].
        -- apply preserves_logf.
        -- apply preserves_logf.
        -- apply preserves_remove.
      * apply preserves_bind; [|intros _; apply preserves_bind; [|intros _; apply preserves_Go]].
        -- apply preserves_logf.
        -- apply preserves_logf.
  - apply preserves_bind; [|intros _].
    + apply preserves_logf.
    + apply preserves_remove.
Qed.

Lemma Restore_buildpack_preserves h r cache cacheMeta store bp :
  preserves h cache (Restore_buildpack h r cache cacheMeta store bp).
Proof.
  unfold Restore_buildpack. apply preserves_bind; [apply preserves_must|].
  intros cachedFn. apply preserves_bind.
  - apply preserves_perform. intros d. apply stable_refl.
  - intros [dir [err|]]; [apply preserves_return|].
    apply preserves_bind.
    + apply preserves_atomic. intros w. apply stable_refl.
    + intros found. apply preserves_for_range. intros l. apply Restore_layer_preserves.
Qed.

Lemma restoreSBOMFunc_stable (h : Host) (r : Restorer) (bomType path : string)
  (info : option os.FileInfo) (err : option error) (w : World) :
  stable (disk w) (disk (run (Restorer_restoreSBOMFunc h r bomType path info err) w).1).
Proof.
  rewrite restoreSBOMFunc_run.
  destruct info as [i|]; [|apply stable_refl].
  destruct (os.IsRegular i); [|apply stable_refl].
  destruct (bomMatch h bomType path) as [[[bp ln] fn]|]; [|apply stable_refl].
  destruct (Restorer_buildpackDetected h r bp); [|apply stable_refl].
  simpl. apply Copy_stable.
Qed.

Lemma Walk_nodes_stable (h : Host) (r : Restorer) (bomType : string) {R}
  (nodes : list (string * os.Node)) (w : World) :
  stable (disk w)
    (disk (@filepath_Walk_nodes R (Restorer_restoreSBOMFunc h r bomType) nodes w).1).
Proof.
  revert w. induction nodes as [|[p n] nodes IH]; intros w.
  - apply stable_refl.
  - pose proof (restoreSBOMFunc_stable h r bomType p (Some (os.Lstat_info n)) None w) as Hst.
    cbn [filepath_Walk_nodes]. unfold bind, call.
    destruct (run (Restorer_restoreSBOMFunc h r bomType p (Some (os.Lstat_info n)) None) w)
      as [w1 [[e|]|]]; cbn [fst snd] in *; try exact Hst.
    eapply stable_trans; [exact Hst | apply IH].
Qed.

Lemma Walk_stable (h : Host) (r : Restorer) (bomType root : string) {R} (w : World) :
  stable (disk w)
    (disk (@filepath_Walk R h root (Restorer_restoreSBOMFunc h r bomType) w).1).
Proof.
  unfold filepath_Walk, bind, logf, get.
  change (files (disk (log (CallWalk root) w)) !! root) with (files (disk w) !! root).
  destruct (files (disk w) !! root) as [n|].
  - apply (Walk_nodes_stable h r bomType (R:=R) _ (log (CallWalk root) w)).
  - unfold call. rewrite restoreSBOMFunc_run. apply stable_refl.
Qed.

Lemma restoreSBOM_stable (h : Host) (r : Restorer) (w : World) :
  stable (disk w) (disk (run (Restorer_restoreSBOM h r) w).1).
Proof.
  destruct (restoreSBOM_run h r w) as (w1 & e1 & Hw1 & _ & Hrest).
  pose proof (Walk_stable h r "cache" (sbomSubdir h r "cache") (R:=option error) w) as H1.
  rewrite Hw1 in H1. simpl in H1.
  destruct e1 as [err|].
  - rewrite Hrest. simpl. eapply stable_trans; [exact H1 | apply os_RemoveAll_stable].
  - destruct Hrest as (w2 & e2 & Hw2 & _ & Hrun). rewrite Hrun. simpl.
    pose proof (Walk_stable h r "launch" (sbomSubdir h r "launch") (R:=option error) w1) as H2.
    rewrite Hw2 in H2. simpl in H2.
    eapply stable_trans; [exact H1|].
    eapply stable_trans; [exact H2 | apply os_RemoveAll_stable].
Qed.

Lemma Restore_finish_preserves (h : Host) (r : Restorer) (cache : Cache) :
  preserves h cache (Restore_finish h r).
Proof.
  unfold Restore_finish. apply preserves_bind; [apply preserves_Wait|].
  intros [err|]; [apply preserves_return|].
  apply preserves_bind; [apply preserves_must|]. intros v.
  apply preserves_bind; [apply preserves_must|]. intros [|]; [|apply preserves_return].
  apply preserves_bind; [|intros e; apply preserves_return].
  apply preserves_direct. intros w. unfold call.
  pose proof (restoreSBOM_stable h r w) as Hst.
  destruct (run (Restorer_restoreSBOM h r) w) as [w' [e|]]; exact Hst.
Qed.

(** ** Running [Restore] again: the layers a run leaves *)

Lemma layers_of_elem (h : Host) (r : Restorer) (bp : buildpack.GroupBuildpack)
  (d : Disk) (l : buildpack.Layer) :
  l ∈ layers_of h r bp d ->
  is_Some (descriptors d !! buildpack.path l)
  /\ filepath.Dir (GOOS h) (buildpack.path l)
     = filepath.Join (GOOS h) [LayersDir r; EscapeID h (buildpack.ID bp)]
  /\ buildpack.identifier l
     = buildpack.ID bp +:+ ":" +:+ filepath.Base (GOOS h) (buildpack.path l).
Proof.
  unfold layers_of, buildpack.ReadLayersDir. simpl. rewrite lookup_empty. simpl.
  intros Hin. apply list_elem_of_In, in_map_iff in Hin as (p & <- & Hp). simpl.
  apply list_elem_of_In in Hp. rewrite merge_sort_Permutation in Hp.
  apply list_elem_of_filter in Hp as [Hdir Hp].
  apply list_elem_of_In, in_map_iff in Hp as ([p' md] & <- & Hp).
  apply list_elem_of_In, elem_of_map_to_list in Hp. simpl in *.
  split; [by exists md | done].
Qed.

Lemma layers_of_intro (h : Host) (r : Restorer) (bp : buildpack.GroupBuildpack)
  (d : Disk) (l : buildpack.Layer) :
  is_Some (descriptors d !! buildpack.path l) ->
  filepath.Dir (GOOS h) (buildpack.path l)
  = filepath.Join (GOOS h) [LayersDir r; EscapeID h (buildpack.ID bp)] ->
  buildpack.identifier l
  = buildpack.ID bp +:+ ":" +:+ filepath.Base (GOOS h) (buildpack.path l) ->
  l ∈ layers_of h r bp d.
Proof.
  intros [md Hmd] Hdir Hid.
  unfold layers_of, buildpack.ReadLayersDir. simpl. rewrite lookup_empty. simpl.
  apply list_elem_of_In, in_map_iff. exists (buildpack.path l). split.
  - destruct l as [p i]. simpl in *. by rewrite Hid.
  - apply list_elem_of_In. rewrite merge_sort_Permutation.
    apply list_elem_of_filter. split; [done|].
    apply list_elem_of_In, in_map_iff. exists (buildpack.path l, md). split; [done|].
    by apply list_elem_of_In, elem_of_map_to_list.
Qed.

Lemma layers_of_stable (h : Host) (r : Restorer) (bp : buildpack.GroupBuildpack)
  (d d' : Disk) (l : buildpack.Layer) :
  descriptors d' ⊆ descriptors d -> l ∈ layers_of h r bp d' -> l ∈ layers_of h r bp d.
Proof.
  intros Hsub Hin. apply layers_of_elem in Hin as ([md Hmd] & Hdir & Hid).
  apply layers_of_intro; try done. exists md. eapply lookup_weaken; eauto.
Qed.

Lemma ReadLayersDir_layers (h : Host) (r : Restorer) (bp : buildpack.GroupBuildpack)
  (d : Disk) :
  (buildpack.ReadLayersDir h (LayersDir r) bp d).2 = None ->
  buildpack.layers (buildpack.ReadLayersDir h (LayersDir r) bp d).1 = layers_of h r bp d.
Proof.
  unfold layers_of, buildpack.ReadLayersDir. simpl. rewrite lookup_empty.
  by destruct (files d !! _) as [[|?]|].
Qed.

Lemma cachedFn_stable (h : Host) (bp : buildpack.GroupBuildpack)
  (cachedLayers : gmap string platform.BuildpackLayerMetadata)
  (f : Disk -> buildpack.Layer -> bool) (d d' : Disk) (l : buildpack.Layer) :
  Restore_cachedFn h bp cachedLayers = Some f ->
  descriptors d' ⊆ descriptors d -> is_Some (descriptors d' !! buildpack.path l) ->
  f d' l = f d l.
Proof.
  unfold Restore_cachedFn. intros Hf Hsub [md Hmd].
  destruct (api.MustParse (buildpack.API bp)) as [v|]; [|done].
  destruct (api.AtLeast v "0.6") as [[|]|]; try done; injection Hf as <-; [done|].
  unfold buildpack.MadeCached. by rewrite Hmd, (lookup_weaken _ _ _ _ Hmd Hsub).
Qed.

Lemma settled_stable (h : Host) (r : Restorer) (cacheMeta : platform.CacheMetadata)
  (store : layer.SHAStore) (bp : buildpack.GroupBuildpack) (d d' : Disk) :
  stable d d' -> settled h r cacheMeta store bp d -> settled h r cacheMeta store bp d'.
Proof.
  intros Hst Hset l (f & Hf & Hin & Hfl).
  pose proof (layers_of_elem h r bp d' l Hin) as (Hsome & _ & _).
  destruct (Hset l) as (rec & Hrec & Hsha).
  - exists f. split; [done|]. split.
    + eapply layers_of_stable; [apply Hst | done].
    + rewrite <- Hfl. symmetry. eapply cachedFn_stable; eauto. apply Hst.
  - exists rec. split; [done|]. eapply stored_stable; eauto.
Qed.

(** *** Taking runs apart *)

Lemma bind_inv {S R A B} (m : Go S R A) (k : A -> Go S R B) (s s' : S) (o : Step R B) :
  bind m k s = (s', o) ->
  (exists s1 a, m s = (s1, Next a) /\ k a s1 = (s', o))
  \/ (exists x, m s = (s', Return x) /\ o = Return x)
  \/ (m s = (s', Panic) /\ o = Panic).
Proof.
  unfold bind. destruct (m s) as [s1 [a|x|]]; intros H.
  - left. by exists s1, a.
  - right. left. injection H as <- <-. by exists x.
  - right. right. by injection H as <- <-.
Qed.

Lemma bind_inv_Next {S R A B} (m : Go S R A) (k : A -> Go S R B) (s s' : S) (b : B) :
  bind m k s = (s', Next b) ->
  exists s1 a, m s = (s1, Next a) /\ k a s1 = (s', Next b).
Proof.
  intros H. apply bind_inv in H as [H1|[(x & _ & H1)|[_ H1]]]; [done|done|done].
Qed.

Lemma no_nil_return_ret {S A} (a : A) : no_nil_return (@ret S (option error) A a).
Proof. intros s x H. done. Qed.

Lemma no_nil_return_panic {S A} : no_nil_return (@panic S (option error) A).
Proof. intros s x H. done. Qed.

Lemma no_nil_return_must {S A} (o : option A) : no_nil_return (@must S (option error) A o).
Proof. destruct o; [apply no_nil_return_ret | apply no_nil_return_panic]. Qed.

Lemma no_nil_return_error {S A} (e : error) :
  no_nil_return (@return_ S (option error) A (Some e)).
Proof. intros s x H. injection H as <-. done. Qed.

Lemma no_nil_return_bind {S A B} (m : Go S (option error) A)
  (k : A -> Go S (option error) B) :
  no_nil_return m -> (forall a, no_nil_return (k a)) -> no_nil_return (bind m k).
Proof.
  intros Hm Hk s x H. unfold bind in H.
  destruct (m s) as [s1 [a|y|]] eqn:Hms; simpl in H.
  - by apply (Hk a s1).
  - injection H as <-. apply (Hm s). by rewrite Hms.
  - done.
Qed.

Lemma no_nil_return_for_range {S A} (l : list A) (body : A -> Go S (option error) unit) :
  (forall x, no_nil_return (body x)) -> no_nil_return (for_range l body).
Proof.
  intros Hb. induction l as [|x l IH]; simpl.
  - apply no_nil_return_ret.
  - apply no_nil_return_bind; [apply Hb | intros _; apply IH].
Qed.

Lemma no_nil_return_yield : no_nil_return (@yield (option error)).
Proof.
  assert (Hfin : forall t, no_nil_return (@errgroup_finish (option error) t)).
  { intros t s x. unfold errgroup_finish. by destruct (run t (world s)) as [w' [e|]]. }
  assert (Hpicks : forall picks, no_nil_return (@errgroup_run_picks (option error) picks)).
  { induction picks as [|i picks IH]; [apply no_nil_return_ret|].
    intros s x. simpl. destruct (errgroup.pending (g s) !! i) as [t|]; [|apply IH].
    apply (no_nil_return_bind (errgroup_finish t) (fun _ => errgroup_run_picks picks));
      [apply Hfin | intros _; apply IH]. }
  intros s x. unfold yield. destruct (schedule s) as [|picks later]; [done|].
  apply Hpicks.
Qed.

Lemma no_nil_return_atomic {A} (m : Go World (option error) A) :
  (forall w x, (m w).2 <> Return x) -> no_nil_return (atomic m).
Proof.
  intros Hm. unfold atomic. apply no_nil_return_bind; [apply no_nil_return_yield|].
  intros _ s x. unfold direct. specialize (Hm (world s)).
  destruct (m (world s)) as [w' out]. simpl in *. intros ->. by destruct (Hm x).
Qed.

Lemma no_nil_return_perform {A} (e : Event) (f : Disk -> Disk * A) :
  no_nil_return (@atomic (option error) A (perform e f)).
Proof. apply no_nil_return_atomic. intros w x. by rewrite perform_spec. Qed.

Lemma no_nil_return_logf (e : Event) : no_nil_return (@atomic (option error) unit (logf e)).
Proof. by apply no_nil_return_atomic. Qed.

Lemma Restore_layer_no_nil h cache store bp cachedLayers l :
  no_nil_return (Restore_layer h cache store bp cachedLayers l).
Proof.
  unfold Restore_layer.
  destruct (cachedLayers !! buildpack.Name h l) as [rec|].
  - apply no_nil_return_bind; [apply no_nil_return_perform|].
    intros [sha [err|]]; [apply no_nil_return_error|].
    case_bool_decide.
    + apply no_nil_return_bind; [apply no_nil_return_logf|]. intros _.
      apply no_nil_return_bind; [apply no_nil_return_logf|]. intros _.
      apply no_nil_return_bind; [apply no_nil_return_perform|].
      intros [err|]; [apply no_nil_return_error | apply no_nil_return_ret].
    + apply no_nil_return_bind; [apply no_nil_return_logf|]. intros _.
      apply no_nil_return_bind; [apply no_nil_return_logf|]. intros _.
      intros s x Hgo. done.
  - apply no_nil_return_bind; [apply no_nil_return_logf|]. intros _.
    apply no_nil_return_bind; [apply no_nil_return_perform|].
    intros [err|]; [apply no_nil_return_error | apply no_nil_return_ret].
Qed.

Lemma Restore_buildpack_no_nil h r cache cacheMeta store bp :
  no_nil_return (Restore_buildpack h r cache cacheMeta store bp).
Proof.
  unfold Restore_buildpack. apply no_nil_return_bind; [apply no_nil_return_must|].
  intros cachedFn. apply no_nil_return_bind; [apply no_nil_return_perform|].
  intros [dir [err|]]; [apply no_nil_return_error|].
  apply no_nil_return_bind; [by apply no_nil_return_atomic|].
  intros found. apply no_nil_return_for_range. intros l. apply Restore_layer_no_nil.
Qed.

Lemma preserves_run {A} h cache (m : Go RState (option error) A) (s s' : RState)
  (o : Step (option error) A) :
  preserves h cache m -> pool_ok h cache s -> m s = (s', o) -> ~ failed o ->
  pool_ok h cache s' /\ stable (disk (world s)) (disk (world s')).
Proof.
  intros Hm Hs Hrun Hok. destruct (Hm s Hs) as [H1 H2]. rewrite Hrun in H1, H2.
  split; [exact H1 | by apply H2].
Qed.

Lemma preserves_next {A} h cache (m : Go RState (option error) A) (s s' : RState) (a : A) :
  preserves h cache m -> pool_ok h cache s -> m s = (s', Next a) ->
  pool_ok h cache s' /\ stable (disk (world s)) (disk (world s')).
Proof. intros Hm Hs Hrun. eapply preserves_run; eauto. Qed.

Lemma atomic_perform_inv (h : Host) (cache : Cache) {R A} (e : Event)
  (f : Disk -> Disk * A) (s s' : RState) (a : A) :
  pool_ok h cache s -> @atomic R A (perform e f) s = (s', Next a) ->
  exists s1,
    pool_ok h cache s1 /\ stable (disk (world s)) (disk (world s1))
    /\ f (disk (world s1)) = (disk (world s'), a)
    /\ pool_ok h cache s'.
Proof.
  intros Hpool Hrun.
  destruct (atomic_perform_ok h cache (R:=R) e f s Hpool) as (s1 & Hran & Hp1 & _ & Heq).
  rewrite Heq in Hrun. injection Hrun as <- <-.
  exists s1. split; [done|]. split; [by eapply goroutines_ran_stable|].
  split; [by destruct (f (disk (world s1)))|]. exact Hp1.
Qed.

(** A layer that [Restore] has dealt with is gone or has the hash of its
    record in the store. *)
Lemma Restore_layer_settles (h : Host) (cache : Cache) (store : layer.SHAStore)
  (bp : buildpack.GroupBuildpack)
  (cachedLayers : gmap string platform.BuildpackLayerMetadata)
  (l : buildpack.Layer) (s s' : RState) :
  pool_ok h cache s ->
  Restore_layer h cache store bp cachedLayers l s = (s', Next tt) ->
  is_Some (descriptors (disk (world s')) !! buildpack.path l) ->
  exists rec, cachedLayers !! buildpack.Name h l = Some rec
              /\ stored store (disk (world s')) (buildpack.path l) = Some (platform.SHA rec).
Proof.
  intros Hpool Hrun Hsome.
  assert (Hremove : forall s0 s1,
            pool_ok h cache s0 ->
            @atomic (option error) _ (perform (CallRemove l) (buildpack.Remove h l)) s0
            = (s1, Next None) ->
            descriptors (disk (world s1)) !! buildpack.path l = None).
  { intros s0 s1 Hp0 Hrm.
    destruct (atomic_perform_inv h cache _ _ _ _ _ Hp0 Hrm) as (s2 & _ & _ & Hf & _).
    pose proof (Remove_absent h l (disk (world s2))) as Habs. rewrite Hf in Habs.
    by apply Habs. }
  unfold Restore_layer in Hrun.
  destruct (cachedLayers !! buildpack.Name h l) as [rec|] eqn:Hrec.
  - apply bind_inv_Next in Hrun as (s1 & [sha err] & Hget & Hrun).
    destruct (atomic_perform_inv h cache _ _ _ _ _ Hpool Hget) as (s0 & _ & _ & Hf & Hp1).
    destruct err as [err|]; [done|].
    apply Get_after in Hf.
    destruct (bool_decide (sha <> platform.SHA rec)) eqn:Hne.
    + apply bind_inv_Next in Hrun as (s2 & [] & Hlog1 & Hrun).
      apply bind_inv_Next in Hrun as (s3 & [] & Hlog2 & Hrun).
      apply bind_inv_Next in Hrun as (s4 & o & Hrm & Hrun).
      destruct (preserves_next h cache _ _ _ _ (preserves_logf h cache _) Hp1 Hlog1)
        as [Hp2 _].
      destruct (preserves_next h cache _ _ _ _ (preserves_logf h cache _) Hp2 Hlog2)
        as [Hp3 _].
      destruct o as [err|]; [done|]. injection Hrun as <-.
      pose proof (Hremove s3 s4 Hp3 Hrm) as Hnone.
      rewrite Hnone in Hsome. by destruct Hsome.
    + apply bool_decide_eq_false in Hne.
      assert (sha = platform.SHA rec) as -> by (by destruct (decide (sha = platform.SHA rec))).
      exists rec. split; [done|].
      assert (Hrest : preserves h cache
                (bind (@atomic (option error) _
                         (logf (Infof "Restoring data for %q from cache"
                                      [buildpack.Identifier l])))
                   (fun _ => bind (atomic (logf (CallGo l (platform.SHA rec))))
                      (fun _ => errgroup_Go
                                  (Restorer_restoreCacheLayer h cache (platform.SHA rec)))))).
      { apply preserves_bind; [apply preserves_logf|]. intros _.
        apply preserves_bind; [apply preserves_logf|]. intros _. apply preserves_Go. }
      destruct (preserves_next h cache _ _ _ _ Hrest Hp1 Hrun) as [_ Hst].
      eapply stored_stable; eauto.
  - apply bind_inv_Next in Hrun as (s2 & [] & Hlog1 & Hrun).
    apply bind_inv_Next in Hrun as (s4 & o & Hrm & Hrun).
    destruct (preserves_next h cache _ _ _ _ (preserves_logf h cache _) Hpool Hlog1)
      as [Hp2 _].
    destruct o as [err|]; [done|]. injection Hrun as <-.
    pose proof (Hremove s2 s4 Hp2 Hrm) as Hnone.
    rewrite Hnone in Hsome. by destruct Hsome.
Qed.

Lemma Restore_layers_settle (h : Host) (cache : Cache) (store : layer.SHAStore)
  (bp : buildpack.GroupBuildpack)
  (cachedLayers : gmap string platform.BuildpackLayerMetadata)
  (ls : list buildpack.Layer) (s s' : RState) :
  pool_ok h cache s ->
  for_range ls (Restore_layer h cache store bp cachedLayers) s = (s', Next tt) ->
  forall l, l ∈ ls ->
    is_Some (descriptors (disk (world s')) !! buildpack.path l) ->
    exists rec, cachedLayers !! buildpack.Name h l = Some rec
                /\ stored store (disk (world s')) (buildpack.path l)
                   = Some (platform.SHA rec).
Proof.
  revert s. induction ls as [|l0 ls IH]; intros s Hpool Hrun l Hin Hsome.
  - by apply elem_of_nil in Hin.
  - simpl in Hrun. apply bind_inv_Next in Hrun as (s1 & [] & Hbody & Hrest).
    destruct (preserves_next h cache _ _ _ _
                (Restore_layer_preserves h cache store bp cachedLayers l0) Hpool Hbody)
      as [Hp1 _].
    destruct (preserves_next h cache _ _ _ _
                (preserves_for_range h cache ls _
                   (Restore_layer_preserves h cache store bp cachedLayers)) Hp1 Hrest)
      as [_ Hst].
    apply elem_of_cons in Hin as [->|Hin]; [|by eapply IH].
    destruct (Restore_layer_settles h cache store bp cachedLayers l0 s s1 Hpool Hbody)
      as (rec & Hrec & Hsha).
    { destruct Hsome as [md Hmd]. exists md.
      eapply lookup_weaken; [exact Hmd | apply Hst]. }
    exists rec. split; [done|]. eapply stored_stable; eauto.
Qed.

(** After the pass over a buildpack, every layer of it that [Restore]
    would consider has the hash of its record in the store. *)
Lemma Restore_buildpack_settles (h : Host) (r : Restorer) (cache : Cache)
  (cacheMeta : platform.CacheMetadata) (store : layer.SHAStore)
  (bp : buildpack.GroupBuildpack) (s s' : RState) :
  pool_ok h cache s ->
  Restore_buildpack h r cache cacheMeta store bp s = (s', Next tt) ->
  is_Some (Restore_cachedFn h bp (cachedLayersOf cacheMeta bp))
  /\ settled h r cacheMeta store bp (disk (world s')).
Proof.
  intros Hpool Hrun. unfold Restore_buildpack in Hrun.
  fold (cachedLayersOf cacheMeta bp) in Hrun.
  apply bind_inv_Next in Hrun as (s0 & f0 & Hf & Hrun).
  destruct (Restore_cachedFn h bp (cachedLayersOf cacheMeta bp)) as [f|] eqn:Hfn; [|done].
  injection Hf as <- <-. split; [by exists f|].
  apply bind_inv_Next in Hrun as (s1 & [dir err] & Hread & Hrun).
  destruct (atomic_perform_inv h cache _ _ _ _ _ Hpool Hread) as (sa & _ & _ & Hfa & Hp1).
  destruct err as [err|]; [done|].
  apply bind_inv_Next in Hrun as (s2 & found & Hfind & Hrun).
  destruct (atomic_ok h cache (R:=option error)
              (fun w => (w, Next (buildpack.FindLayers dir (f (disk w))))) s1 Hp1)
    as (sb & Hranb & Hat).
  rewrite Hat in Hfind. simpl in Hfind. injection Hfind as <- <-.
  destruct (goroutines_ran_appends h cache s1 sb Hp1 Hranb) as [Hpb _].
  pose proof (goroutines_ran_stable h cache s1 sb Hp1 Hranb) as Hstb.
  assert (Hp2 : pool_ok h cache (set_world (world sb) sb)) by exact Hpb.
  destruct (preserves_next h cache _ _ _ _
              (preserves_for_range h cache _ _
                 (Restore_layer_preserves h cache store bp (cachedLayersOf cacheMeta bp)))
              Hp2 Hrun) as [_ Hst2].
  intros l (f0 & Hf0 & Hin & Hfl). rewrite Hf0 in Hfn. injection Hfn as ->.
  pose proof (layers_of_elem h r bp _ l Hin) as (Hsome & _ & _).
  eapply (Restore_layers_settle h cache store bp _ _ _ s' Hp2 Hrun); [|done].
  apply list_elem_of_filter. split.
  - rewrite <- Hfl. symmetry. eapply cachedFn_stable; eauto. apply Hst2.
  - assert (Hdir : dir = (buildpack.ReadLayersDir h (LayersDir r) bp (disk (world s1))).1
                   /\ (buildpack.ReadLayersDir h (LayersDir r) bp (disk (world s1))).2 = None).
    { injection Hfa as Hd Hres. rewrite Hd in Hres. by rewrite Hres. }
    destruct Hdir as [-> Hnone]. rewrite (ReadLayersDir_layers h r bp _ Hnone).
    eapply layers_of_stable; [|exact Hin].
    etrans; [apply Hst2 | apply Hstb].
Qed.

Lemma Restore_loop_settles (h : Host) (r : Restorer) (cache : Cache)
  (cacheMeta : platform.CacheMetadata) (store : layer.SHAStore)
  (bps : list buildpack.GroupBuildpack) (s s' : RState) :
  pool_ok h cache s ->
  for_range bps (Restore_buildpack h r cache cacheMeta store) s = (s', Next tt) ->
  forall bp, bp ∈ bps ->
    is_Some (Restore_cachedFn h bp (cachedLayersOf cacheMeta bp))
    /\ settled h r cacheMeta store bp (disk (world s')).
Proof.
  revert s. induction bps as [|bp0 bps IH]; intros s Hpool Hrun bp Hin.
  - by apply elem_of_nil in Hin.
  - simpl in Hrun. apply bind_inv_Next in Hrun as (s1 & [] & Hbody & Hrest).
    destruct (preserves_next h cache _ _ _ _
                (Restore_buildpack_preserves h r cache cacheMeta store bp0) Hpool Hbody)
      as [Hp1 _].
    destruct (preserves_next h cache _ _ _ _
                (preserves_for_range h cache bps _
                   (Restore_buildpack_preserves h r cache cacheMeta store)) Hp1 Hrest)
      as [_ Hst].
    apply elem_of_cons in Hin as [->|Hin]; [|by eapply IH].
    destruct (Restore_buildpack_settles h r cache cacheMeta store bp0 s s1 Hpool Hbody)
      as [Hfn Hset].
    split; [done|]. eapply settled_stable; eauto.
Qed.

Lemma os_RemoveAll_again (h : Host) (root : string) (d : Disk) :
  os_RemoveAll h root (os_RemoveAll h root d) = os_RemoveAll h root d.
Proof.
  unfold os_RemoveAll. simpl. f_equal.
  - apply map_filter_id. intros p n Hp. by apply map_lookup_filter_Some in Hp as [_ Hp].
  - apply map_filter_id. intros p n Hp. by apply map_lookup_filter_Some in Hp as [_ Hp].
  - apply map_filter_id. intros p n Hp. by apply map_lookup_filter_Some in Hp as [_ Hp].
Qed.

(** When [Restore] ends without error on a platform with SBOM files, the
    staging directory is gone. *)
Lemma Restore_finish_clean (h : Host) (r : Restorer) (cache : Cache) (v : api.Version)
  (s s' : RState) (o : Step (option error) (option error)) :
  pool_ok h cache s ->
  api.MustParse (cmd.API (Platform r)) = Some v -> at_least_0 8 v = true ->
  Restore_finish h r s = (s', o) -> o = Return None \/ o = Next None ->
  os_RemoveAll h (sbomDir h r) (disk (world s')) = disk (world s').
Proof.
  intros Hpool Hv H8 Hrun Ho.
  destruct (Wait_ok h cache (R:=option error) s Hpool) as (s1 & Hw & _ & _).
  unfold Restore_finish, bind in Hrun. rewrite Hw in Hrun.
  destruct (errgroup.err (g s1)) as [err|].
  { injection Hrun as <- <-. by destruct Ho. }
  rewrite Hv in Hrun. unfold must, ret in Hrun. cbv beta iota in Hrun.
  rewrite AtLeast_08, H8 in Hrun. unfold direct, call in Hrun.
  destruct (restoreSBOM_run h r (world s1)) as (w1 & e1 & _ & _ & Hrest).
  assert (Hclean : exists w0 e, run (Restorer_restoreSBOM h r) (world s1)
                                = (sbomCleanup h r w0, Returned e)).
  { destruct e1 as [err|]; [by eexists _, _|].
    destruct Hrest as (w2 & e2 & _ & _ & Hrest). by eexists _, _. }
  destruct Hclean as (w0 & e & Hclean). rewrite Hclean in Hrun.
  injection Hrun as <- <-. simpl. apply os_RemoveAll_again.
Qed.

(** What a run of [Restore] without error leaves: the cache metadata and
    the platform API were read, every buildpack of the group has an API
    that is understood and is settled, and the staging directory of the
    SBOM files is gone. *)
Lemma Restore_leaves (h : Host) (r : Restorer) (cache : Cache) (s s' : RState) :
  run (Restorer_Restore h r cache) s = (s', Returned None) ->
  exists cacheMeta v,
    retrieveCacheMetadata cache = (cacheMeta, None)
    /\ api.MustParse (cmd.API (Platform r)) = Some v
    /\ (forall bp, bp ∈ Buildpacks r ->
          is_Some (Restore_cachedFn h bp (cachedLayersOf cacheMeta bp))
          /\ settled h r cacheMeta (layer.NewSHAStore (negb (at_least_0 7 v))) bp
               (disk (world s')))
    /\ (at_least_0 8 v = true ->
        os_RemoveAll h (sbomDir h r) (disk (world s')) = disk (world s')).
Proof.
  intros Hrun.
  destruct (retrieveCacheMetadata cache) as [cacheMeta [err|]] eqn:Hcm.
  { unfold Restorer_Restore in Hrun. rewrite Hcm in Hrun. done. }
  destruct (api.MustParse (cmd.API (Platform r))) as [v|] eqn:Hv.
  2: { unfold Restorer_Restore, Restorer_restoresLayerMetadata in Hrun.
       rewrite Hcm, Hv in Hrun. done. }
  exists cacheMeta, v. split; [done|]. split; [done|].
  set (store := layer.NewSHAStore (negb (at_least_0 7 v))).
  assert (Hrest : exists s0 o,
            bind (modify (set_g errgroup.zero))
              (fun _ => bind (for_range (Buildpacks r)
                                (Restore_buildpack h r cache cacheMeta store))
                             (fun _ => Restore_finish h r)) s0 = (s', o)
            /\ (o = Return None \/ o = Next None)).
  { unfold run in Hrun. rewrite (Restore_unfold h r cache cacheMeta v s Hv Hcm) in Hrun.
    fold store in Hrun. cbv zeta in Hrun.
    destruct (at_least_0 7 v).
    - destruct (LayerMetadataRestorer r (Buildpacks r) (LayersMetadata r) cacheMeta store
                  (disk (world s))) as [d1 [err|]]; simpl in Hrun; [done|].
      match type of Hrun with
      | match ?m ?s0 with _ => _ end = _ =>
          destruct (m s0) as [s1 [x|x|]] eqn:Hm; [| |done];
          injection Hrun as <- <-; exists s0; eexists; (split; [exact Hm|]); auto
      end.
    - match type of Hrun with
      | match ?m ?s0 with _ => _ end = _ =>
          destruct (m s0) as [s1 [x|x|]] eqn:Hm; [| |done];
          injection Hrun as <- <-; exists s0; eexists; (split; [exact Hm|]); auto
      end. }
  destruct Hrest as (s0 & o & Hrest & Ho).
  apply bind_inv in Hrest as [(s1 & [] & Hmod & Hrest)|[(x & Hmod & _)|[Hmod _]]];
    [|done|done].
  injection Hmod as <-.
  assert (Hp1 : pool_ok h cache (set_g errgroup.zero s0)) by constructor.
  apply bind_inv in Hrest as [(s2 & [] & Hloop & Hfin)|[(x & Hloop & ->)|[_ ->]]].
  - destruct (preserves_next h cache _ _ _ _
                (preserves_for_range h cache _ _
                   (Restore_buildpack_preserves h r cache cacheMeta store)) Hp1 Hloop)
      as [Hp2 _].
    assert (Hnf : ~ failed o) by (destruct Ho as [->| ->]; intros []).
    destruct (preserves_run h cache _ _ _ _ (Restore_finish_preserves h r cache) Hp2 Hfin
                Hnf) as [_ Hst].
    split.
    + intros bp Hbp.
      destruct (Restore_loop_settles h r cache cacheMeta store _ _ _ Hp1 Hloop bp Hbp)
        as [Hfn Hset].
      split; [done|]. eapply settled_stable; eauto.
    + intros H8. eapply Restore_finish_clean; eauto.
  - exfalso.
    assert (Hx : x <> None).
    { eapply (no_nil_return_for_range _ _
                (Restore_buildpack_no_nil h r cache cacheMeta store)).
      by rewrite Hloop. }
    destruct Ho as [[= ->]|[=]]. done.
  - by destruct Ho.
Qed.

(** ** Paths below the staging directory *)

(** [filepath.Dir] on some paths: what stands before the last separator,
    and the root for a path directly below it. *)
Example Dir_of_paths :
  map (filepath.Dir "linux") ["/a"; "a"; "/a/b"; ""; "a/b/"; "/"]
  = ["/"; "."; "/a"; "."; "a/b"; "/"].
Proof. vm_compute. reflexivity. Qed.


















(** ** Running [Restore] again: the second run *)













Lemma Walk_missing (h : Host) (r : Restorer) (bomType root : string) (w : World) :
  files (disk w) !! root = None ->
  @filepath_Walk (option error) h root (Restorer_restoreSBOMFunc h r bomType) w
  = (log (CallWalk root) w, Next None).
Proof.
  intros Hroot. unfold filepath_Walk, bind, logf, get.
  change (files (disk (log (CallWalk root) w)) !! root) with (files (disk w) !! root).
  rewrite Hroot. unfold call. by rewrite restoreSBOMFunc_run.
Qed.



(** ** Running [Restore] again: the result *)




(** The same two runs, evaluated: the error is the same, the data of [L1]
    is not. *)
Example restore_returns_before_goroutines :
  let r := sample_restorer [sample_bp "bp1" "0.6"] "0.6" in
  let first := run (Restorer_Restore sample_host r sample_cache)
                   (sample_state sample_failing_disk [] []) in
  let second := run (Restorer_Restore sample_host r sample_cache)
                    (sample_state (disk (world first.1)) [] sample_schedule) in
  first.2 = Returned (Some (errors_New "compute layer hash: not a directory"))
  /\ second.2 = first.2
  /\ files (disk (world first.1)) !! "/layers/bp1/L1/data" = Some (os.File "stale")
  /\ files (disk (world second.1)) !! "/layers/bp1/L1/data" = Some (os.File "cached").
Proof. vm_compute. repeat split. Qed.

(** The archives have to be in place.  Here the archive of [L1] holds a
    file of the directory of [L2].  In the first run the goroutine runs
    before [L2] is removed, and the file goes with [L2]; in the second run,
    under the same schedule, nothing removes the file: both runs return
    without error, and the disks differ. *)
Example restore_again_stray_archive :
  let r := sample_restorer [sample_bp "bp1" "0.6"] "0.6" in
  let cache := sample_cache_of "/layers/bp1/L2/extra" in
  let first := run (Restorer_Restore sample_host r cache)
                   (sample_state sample_stray_disk [] sample_schedule) in
  let second := run (Restorer_Restore sample_host r cache)
                    (sample_state (disk (world first.1)) [] sample_schedule) in
  first.2 = Returned None /\ second.2 = Returned None
  /\ files (disk (world first.1)) !! "/layers/bp1/L2/extra" = None
  /\ files (disk (world second.1)) !! "/layers/bp1/L2/extra" = Some (os.File "stray").
Proof. vm_compute. repeat split. Qed.

(** The layer directories have to stay readable.  Here the archive of
    [L1] holds a file at the place of the layers directory of [bp2], which
    has no layers: the first run returns without error, the second cannot
    read the directory of [bp2]. *)
Example restore_again_unreadable_directory :
  let r := sample_restorer [sample_bp "bp1" "0.6"; sample_bp "bp2" "0.6"] "0.6" in
  let cache := sample_cache_of "/layers/bp2" in
  let first := run (Restorer_Restore sample_host r cache)
                   (sample_state sample_layers_disk [] []) in
  let second := run (Restorer_Restore sample_host r cache)
                    (sample_state (disk (world first.1)) [] []) in
  first.2 = Returned None
  /\ second.2 = Returned (Some (errors_Wrap
                                  (errors_New "read layers directory: not a directory")
                                  "reading buildpack layer directory")).
Proof. vm_compute. repeat split. Qed.

(** The metadata restorer has to repeat itself.  One that refuses to write
    over the descriptor it wrote in the first run makes the second run
    fail. *)
Example restore_again_metadata_restorer :
  let r := {| LayersDir := "/layers";
              Buildpacks := [sample_bp "bp1" "0.6"];
              LayerMetadataRestorer := sample_fresh_restorer;
              LayersMetadata := {| platform.App := ∅ |};
              Platform := {| cmd.API := "0.7" |} |} in
  let first := run (Restorer_Restore sample_host r sample_cache)
                   (sample_state empty_disk [] []) in
  let second := run (Restorer_Restore sample_host r sample_cache)
                    (sample_state (disk (world first.1)) [] []) in
  first.2 = Returned None
  /\ second.2 = Returned (Some (errors_New "layer metadata exists")).
Proof. vm_compute. repeat split. Qed.

(** ** The progress of a run *)

Lemma task_results_app (a b : list Event) :
  task_results (a ++ b) = (task_results a ++ task_results b)%list.
Proof. apply omap_app. Qed.

Lemma go_shas_app (a b : list Event) : go_shas (a ++ b) = (go_shas a ++ go_shas b)%list.
Proof. apply omap_app. Qed.

Lemma quiet_task_results (evs : list Event) : Forall quiet_event evs -> task_results evs = [].
Proof.
  induction 1 as [|e evs He _ IH]; [done|].
  destruct e; try done; apply IH.
Qed.

Lemma quiet_go_shas (evs : list Event) : Forall quiet_event evs -> go_shas evs = [].
Proof.
  induction 1 as [|e evs He _ IH]; [done|].
  destruct e; try done; apply IH.
Qed.

Lemma task_go_shas (evs : list Event) : Forall task_event evs -> go_shas evs = [].
Proof.
  induction 1 as [|e evs He _ IH]; [done|].
  destruct e; try done; apply IH.
Qed.

Lemma go_shas_elem (evs : list Event) (sha : string) :
  sha ∈ go_shas evs <-> exists l, CallGo l sha ∈ evs.
Proof.
  unfold go_shas. rewrite list_elem_of_omap. split.
  - intros (e & Hin & He). destruct e; try done. injection He as ->. by eexists.
  - intros (l & Hin). by exists (CallGo l sha).
Qed.

Lemma restored_task_app_r (sha : string) (a b : list Event) :
  restored_task sha a -> restored_task sha (a ++ b).
Proof.
  intros (pre & post & ->). exists pre, (post ++ b)%list. by rewrite <- !app_assoc.
Qed.

Lemma restored_task_app_l (sha : string) (a b : list Event) :
  restored_task sha b -> restored_task sha (a ++ b).
Proof.
  intros (pre & post & ->). exists (a ++ pre)%list, post. by rewrite <- !app_assoc.
Qed.

Lemma first_error_none (e0 : option error) (res : list (option error)) :
  first_error (e0 :: res) = None -> e0 = None /\ Forall (fun e => e = None) res.
Proof.
  destruct e0 as [e0|]; [done|]. simpl. intros H. split; [done|].
  induction res as [|[e|] res IH]; [done|done|]. constructor; [done | by apply IH].
Qed.

Lemma progress_refl (h : Host) (cache : Cache) (s : RState) : progress h cache s s.
Proof.
  exists []. rewrite app_nil_r. split; [done|]. split; [apply stable_refl|].
  split; [by intros l Hin; apply elem_of_nil in Hin|]. split; [done|].
  intros He. split; [done|]. split; [constructor|].
  intros sha [Hin|Hin]; [by left | by apply elem_of_nil in Hin].
Qed.

Lemma progress_trans (h : Host) (cache : Cache) (s1 s2 s3 : RState) :
  progress h cache s1 s2 -> progress h cache s2 s3 -> progress h cache s1 s3.
Proof.
  intros (a & Ha & Hsa & Hra & Hca & Hea) (b & Hb & Hsb & Hrb & Hcb & Heb).
  exists (a ++ b)%list. split; [by rewrite Hb, Ha, app_assoc|].
  split; [by eapply stable_trans|]. split; [|split].
  - intros l Hin. apply elem_of_app in Hin as [Hin|Hin]; [|by apply Hrb].
    eapply lookup_weaken_None; [by apply Hra | apply Hsb].
  - rewrite task_results_app, go_shas_app, !length_app. lia.
  - intros He3. destruct (Heb He3) as (He2 & Hnb & Hpb).
    destruct (Hea He2) as (He1 & Hna & Hpa).
    split; [done|]. split; [rewrite task_results_app; by apply Forall_app|].
    intros sha Hsha.
    assert (Hmid : Restorer_restoreCacheLayer h cache sha ∈ errgroup.pending (g s2)
                   \/ restored_task sha a \/ sha ∈ go_shas b).
    { destruct Hsha as [Hin|Hin].
      - destruct (Hpa sha (or_introl Hin)); tauto.
      - rewrite go_shas_app in Hin. apply elem_of_app in Hin as [Hin|Hin]; [|tauto].
        destruct (Hpa sha (or_intror Hin)); tauto. }
    destruct Hmid as [Hin|[Hin|Hin]].
    + destruct (Hpb sha (or_introl Hin)) as [H|H]; [by left|].
      right. by apply restored_task_app_l.
    + right. by apply restored_task_app_r.
    + destruct (Hpb sha (or_intror Hin)) as [H|H]; [by left|].
      right. by apply restored_task_app_l.
Qed.

(** The events of a goroutine that has returned nil. *)
Lemma restoreCacheLayer_block (h : Host) (cache : Cache) (sha : string) (w w' : World) :
  run (Restorer_restoreCacheLayer h cache sha) w = (w', Returned None) ->
  (trace (log (TaskDone None) w') = trace w ++ task_block sha)%list.
Proof.
  unfold Restorer_restoreCacheLayer, run. destruct cache as [c|]; simpl; [|done].
  unfold bind, logf. rewrite perform_spec. simpl.
  destruct (RetrieveLayer c sha) as [rc [err|]]; simpl; [done|].
  unfold return_. rewrite perform_spec. simpl.
  destruct (layers.Extract h rc "" (disk w)) as [d' [err|]]; simpl; [done|].
  intros [= <-]. simpl. by rewrite <- !app_assoc.
Qed.

Lemma restoreCacheLayer_quiet (h : Host) (cache : Cache) (sha : string) (w : World) :
  exists w' e evs,
    run (Restorer_restoreCacheLayer h cache sha) w = (w', Returned e)
    /\ trace w' = (trace w ++ evs)%list
    /\ Forall task_event evs /\ Forall quiet_event evs.
Proof.
  unfold Restorer_restoreCacheLayer, run. destruct cache as [c|]; simpl.
  - unfold bind, logf. rewrite perform_spec. simpl.
    destruct (RetrieveLayer c sha) as [rc [err|]]; simpl.
    + eexists _, _, [Debugf "Retrieving data for %q" [sha]; CallRetrieveLayer sha].
      split; [reflexivity|]. split; [simpl; by rewrite <- app_assoc|].
      split; repeat constructor.
    + unfold return_. rewrite perform_spec. simpl.
      eexists _, _, [Debugf "Retrieving data for %q" [sha]; CallRetrieveLayer sha;
                     CallExtract ""].
      split; [reflexivity|]. split; [simpl; by rewrite <- !app_assoc|].
      split; repeat constructor.
  - eexists _, _, []. split; [reflexivity|]. by rewrite app_nil_r.
Qed.

(** What goroutines of [Restore] that run one after the other append to
    the trace. *)
Lemma run_tasks_events (h : Host) (cache : Cache) (ts : list errgroup.Task) (w : World) :
  Forall (fun t => exists sha, t = Restorer_restoreCacheLayer h cache sha) ts ->
  exists evs,
    trace (run_tasks ts w).1 = (trace w ++ evs)%list
    /\ Forall task_event evs
    /\ task_results evs = (run_tasks ts w).2
    /\ (Forall (fun e => e = None) (run_tasks ts w).2 ->
        forall sha, Restorer_restoreCacheLayer h cache sha ∈ ts -> restored_task sha evs).
Proof.
  intros Hts. revert w. induction Hts as [|t ts [sha0 Ht] _ IH]; intros w; simpl.
  - exists []. rewrite app_nil_r. repeat split; try done.
    intros _ sha Hin. by apply elem_of_nil in Hin.
  - destruct (restoreCacheLayer_quiet h cache sha0 w)
      as (w1 & e & evs0 & Hrun & Htr & Hev & Hq).
    rewrite <- Ht in Hrun. rewrite Hrun.
    destruct (IH (log (TaskDone e) w1)) as (evs' & Htr' & Hev' & Hres' & Hdone').
    destruct (run_tasks ts (log (TaskDone e) w1)) as [w2 res]. cbn [fst snd] in *.
    exists (evs0 ++ [TaskDone e] ++ evs')%list. split; [|split; [|split]].
    + rewrite Htr'. simpl. rewrite Htr. by rewrite <- !app_assoc.
    + apply Forall_app. split; [done|]. by constructor.
    + rewrite !task_results_app, Hres'.
      assert (H0 : task_results evs0 = [])
        by (by apply quiet_task_results).
      rewrite H0. reflexivity.
    + intros Hall sha Hin. inversion Hall as [|? ? -> Hall']; subst.
      apply elem_of_cons in Hin as [Heq|Hin].
      * rewrite <- Heq in Hrun.
        pose proof (restoreCacheLayer_block h cache sha w w1 Hrun) as Hb.
        simpl in Hb. rewrite Htr in Hb. rewrite <- app_assoc in Hb.
        apply app_inv_head in Hb.
        exists [], evs'. simpl. change (evs0 ++ TaskDone None :: evs')%list
          with (evs0 ++ [TaskDone None] ++ evs')%list.
        rewrite app_assoc, Hb. reflexivity.
      * apply (restored_task_app_l sha (evs0 ++ [TaskDone None])) in Hdone'; [|done..].
        by rewrite <- app_assoc in Hdone'.
Qed.

(** Goroutines that run are a progress. *)
Lemma progress_ran (h : Host) (cache : Cache) (s s' : RState) :
  pool_ok h cache s -> goroutines_ran s s' -> progress h cache s s'.
Proof.
  intros Hpool Hran.
  pose proof (goroutines_ran_stable h cache s s' Hpool Hran) as Hst.
  destruct Hran as (ran & res & Hperm & Hrun & Hlen & Herr).
  assert (Hranp : Forall (fun t => exists sha, t = Restorer_restoreCacheLayer h cache sha) ran).
  { unfold pool_ok in Hpool.
    apply (Permutation_Forall (Permutation_sym Hperm)) in Hpool.
    by apply Forall_app in Hpool as [H _]. }
  destruct (run_tasks_events h cache ran (world s) Hranp) as (evs & Htr & Hev & Hres & Hdone).
  rewrite Hrun in Htr, Hres, Hdone. cbn [fst snd] in *.
  exists evs. split; [done|]. split; [done|]. split; [|split].
  - intros l Hin. rewrite Forall_forall in Hev. by apply Hev in Hin.
  - rewrite Hres, Hlen, (task_go_shas evs Hev). simpl.
    apply Permutation_length in Hperm. rewrite length_app in Hperm. lia.
  - intros He. rewrite Herr in He. apply first_error_none in He as [He Hall].
    split; [done|]. split; [by rewrite Hres|].
    intros sha [Hin|Hin]; [|by rewrite (task_go_shas evs Hev) in Hin; apply elem_of_nil in Hin].
    rewrite <- Hperm in Hin. apply elem_of_app in Hin as [Hin|Hin]; [|by left].
    right. by apply Hdone.
Qed.

(** A step of the main flow that starts no goroutine and removes no
    layer is a progress. *)
Lemma progress_quiet (h : Host) (cache : Cache) (s : RState) (w' : World)
  (evs : list Event) :
  trace w' = (trace (world s) ++ evs)%list -> Forall quiet_event evs ->
  stable (disk (world s)) (disk w') ->
  progress h cache s (set_world w' s).
Proof.
  intros Htr Hq Hst. exists evs. split; [done|]. split; [done|]. split; [|split].
  - intros l Hin. rewrite Forall_forall in Hq. by apply Hq in Hin.
  - by rewrite (quiet_task_results evs Hq), (quiet_go_shas evs Hq).
  - intros He. split; [done|]. rewrite (quiet_task_results evs Hq). split; [constructor|].
    intros sha [Hin|Hin]; [by left|].
    rewrite (quiet_go_shas evs Hq) in Hin. by apply elem_of_nil in Hin.
Qed.

Lemma along_ret {A} h cache (a : A) : along h cache (@ret RState (option error) A a).
Proof. intros s Hs. split; [done | intros _; apply progress_refl]. Qed.

Lemma along_return {A} h cache (x : option error) :
  along h cache (@return_ RState (option error) A x).
Proof. intros s Hs. split; [done | intros _; apply progress_refl]. Qed.

Lemma along_panic {A} h cache : along h cache (@panic RState (option error) A).
Proof. intros s Hs. split; [done | intros _; apply progress_refl]. Qed.

Lemma along_must {A} h cache (o : option A) :
  along h cache (@must RState (option error) A o).
Proof. destruct o; [apply along_ret | apply along_panic]. Qed.

Lemma along_bind {A B} h cache (m : Go RState (option error) A)
  (k : A -> Go RState (option error) B) :
  along h cache m -> (forall a, along h cache (k a)) -> along h cache (bind m k).
Proof.
  intros Hm Hk s Hs. destruct (Hm s Hs) as [H1 H2]. unfold bind.
  destruct (m s) as [s1 [a|x|]]; simpl in *; try done.
  destruct (Hk a s1 H1) as [H3 H4]. split; [done|].
  intros Hok. eapply progress_trans; [apply H2; tauto | by apply H4].
Qed.

Lemma along_for_range_in {A} h cache (l : list A)
  (body : A -> Go RState (option error) unit) :
  (forall x, x ∈ l -> along h cache (body x)) -> along h cache (for_range l body).
Proof.
  induction l as [|x l IH]; intros Hb; simpl.
  - apply along_ret.
  - apply along_bind; [apply Hb; by left|]. intros _. apply IH.
    intros y Hy. apply Hb. by right.
Qed.

Lemma along_for_range {A} h cache (l : list A)
  (body : A -> Go RState (option error) unit) :
  (forall x, along h cache (body x)) -> along h cache (for_range l body).
Proof. intros Hb. apply along_for_range_in. intros x _. apply Hb. Qed.

Lemma along_yield h cache : along h cache (@yield (option error)).
Proof.
  intros s Hs. destruct (yield_ok h cache (R:=option error) s Hs) as (s1 & Hy & Hran).
  rewrite Hy. simpl.
  destruct (goroutines_ran_appends h cache s s1 Hs Hran) as [H1 _].
  split; [done | intros _; by apply progress_ran].
Qed.

Lemma along_direct {A} h cache (m : Go World (option error) A) :
  (forall w, exists evs, trace (m w).1 = (trace w ++ evs)%list
                         /\ Forall quiet_event evs
                         /\ stable (disk w) (disk (m w).1)) ->
  along h cache (direct m).
Proof.
  intros Hm s Hs. unfold direct. destruct (Hm (world s)) as (evs & Htr & Hq & Hst).
  destruct (m (world s)) as [w' out]. simpl in *.
  split; [exact Hs | intros _; by eapply progress_quiet].
Qed.

Lemma along_atomic {A} h cache (m : Go World (option error) A) :
  (forall w, exists evs, trace (m w).1 = (trace w ++ evs)%list
                         /\ Forall quiet_event evs
                         /\ stable (disk w) (disk (m w).1)) ->
  along h cache (atomic m).
Proof.
  intros Hm. unfold atomic. apply along_bind.
  - apply along_yield.
  - intros _. by apply along_direct.
Qed.

Lemma along_logf h cache (e : Event) :
  quiet_event e -> along h cache (@atomic (option error) unit (logf e)).
Proof.
  intros He. apply along_atomic. intros w. exists [e].
  split; [done|]. split; [by constructor | apply stable_refl].
Qed.

Lemma along_perform {A} h cache (e : Event) (f : Disk -> Disk * A) :
  quiet_event e -> (forall d, stable d (f d).1) ->
  along h cache (@atomic (option error) A (perform e f)).
Proof.
  intros He Hf. apply along_atomic. intros w. rewrite perform_spec. exists [e].
  split; [done|]. split; [by constructor | apply Hf].
Qed.

Lemma along_value {A} h cache (f : World -> A) :
  along h cache (@atomic (option error) A (fun w => (w, Next (f w)))).
Proof.
  apply along_atomic. intros w. exists []. rewrite app_nil_r.
  split; [done|]. split; [constructor | apply stable_refl].
Qed.

Lemma along_Wait h cache : along h cache (@errgroup_Wait (option error)).
Proof.
  intros s Hs. destruct (Wait_ok h cache (R:=option error) s Hs) as (s1 & Hw & Hp & Hran).
  rewrite Hw. simpl.
  destruct (goroutines_ran_appends h cache s s1 Hs Hran) as [H1 _].
  split; [done | intros _; by apply progress_ran].
Qed.

(** The removal of a layer with what follows it: unless it fails, the
    descriptor of the layer is gone. *)
Lemma along_remove h cache (l : buildpack.Layer) :
  along h cache
    (bind (atomic (perform (R:=option error) (CallRemove l) (buildpack.Remove h l)))
       (fun err : option error =>
          match err with
          | Some err => return_ (Some (errors_Wrap err "removing layer"))
          | None => ret tt
          end)).
Proof.
  intros s Hs.
  destruct (atomic_perform_ok h cache (R:=option error) (CallRemove l)
              (buildpack.Remove h l) s Hs) as (s1 & Hran & Hp1 & _ & Hat).
  pose proof (progress_ran h cache s s1 Hs Hran) as Hpr.
  unfold bind. rewrite Hat.
  pose proof (Remove_stable h l (disk (world s1))) as Hrm.
  pose proof (Remove_absent h l (disk (world s1))) as Habs.
  destruct (buildpack.Remove h l (disk (world s1))) as [d1 [e|]]; simpl in *.
  - split; [exact Hp1 | tauto].
  - split; [exact Hp1|]. intros _. eapply progress_trans; [exact Hpr|].
    exists [CallRemove l]. split; [done|]. split; [by apply Hrm|]. split; [|split].
    + intros l' Hin. apply list_elem_of_singleton in Hin. injection Hin as ->.
      by apply Habs.
    + done.
    + intros He. split; [done|]. split; [constructor|].
      intros sha [Hin|Hin]; [by left | by apply elem_of_nil in Hin].
Qed.

(** The start of a goroutine, announced in the trace. *)
Lemma along_Go h cache (l : buildpack.Layer) (sha : string) :
  along h cache
    (bind (@atomic (option error) _ (logf (CallGo l sha)))
       (fun _ => errgroup_Go (Restorer_restoreCacheLayer h cache sha))).
Proof.
  intros s Hs.
  destruct (atomic_logf_ok h cache (R:=option error) (CallGo l sha) s Hs)
    as (s1 & Hran & Hp1 & _ & Hat).
  pose proof (progress_ran h cache s s1 Hs Hran) as Hpr.
  unfold bind. rewrite Hat. simpl. split.
  - unfold pool_ok. simpl. apply Forall_app. split; [exact Hp1|].
    constructor; [by exists sha | constructor].
  - intros _. eapply progress_trans; [exact Hpr|].
    exists [CallGo l sha]. split; [done|]. split; [apply stable_refl|]. split; [|split].
    + intros l' Hin. apply list_elem_of_singleton in Hin. done.
    + simpl. rewrite length_app. simpl. lia.
    + simpl. intros He. split; [done|]. split; [constructor|].
      intros sha' [Hin|Hin]; left; apply elem_of_app; [by left|right].
      apply list_elem_of_singleton in Hin as ->. apply list_elem_of_here.
Qed.

Lemma Restore_layer_along h cache store bp cachedLayers l :
  along h cache (Restore_layer h cache store bp cachedLayers l).
Proof.
  unfold Restore_layer.
  destruct (cachedLayers !! buildpack.Name h l) as [rec|].
  - apply along_bind.
    + apply along_perform; [exact I|]. intros d. apply Get_stable.
    + intros [sha [err|]]; [apply along_return|].
      case_bool_decide.
      * apply along_bind; [by apply along_logf|]. intros _.
        apply along_bind; [by apply along_logf|]. intros _. apply along_remove.
      * apply along_bind; [by apply along_logf|]. intros _. apply along_Go.
  - apply along_bind; [by apply along_logf|]. intros _. apply along_remove.
Qed.

Lemma Restore_buildpack_along h r cache cacheMeta store bp :
  along h cache (Restore_buildpack h r cache cacheMeta store bp).
Proof.
  unfold Restore_buildpack. apply along_bind; [apply along_must|].
  intros cachedFn. apply along_bind.
  - apply along_perform; [exact I|]. intros d. apply stable_refl.
  - intros [dir [err|]]; [apply along_return|].
    apply along_bind; [apply along_value|].
    intros found. apply along_for_range. intros l. apply Restore_layer_along.
Qed.

Lemma sbom_quiet (e : Event) : sbom_event e -> quiet_event e.
Proof. by destruct e. Qed.

Lemma Restore_finish_along (h : Host) (r : Restorer) (cache : Cache) :
  along h cache (Restore_finish h r).
Proof.
  unfold Restore_finish. apply along_bind; [apply along_Wait|].
  intros [err|]; [apply along_return|].
  apply along_bind; [apply along_must|]. intros v.
  apply along_bind; [apply along_must|]. intros [|]; [|apply along_return].
  apply along_bind; [|intros e; apply along_return].
  apply along_direct. intros w. unfold call.
  pose proof (restoreSBOM_stable h r w) as Hst.
  destruct (restoreSBOM_appends h r w) as (evs & Htr & Hev).
  destruct (run (Restorer_restoreSBOM h r) w) as [w' [e|]]; simpl in *;
    (exists evs; split; [done|]; split; [|done];
     eapply Forall_impl; [exact Hev | apply sbom_quiet]).
Qed.

Lemma task_event_decided h r cacheMeta e : task_event e -> decided_event h r cacheMeta e.
Proof. by destruct e. Qed.

Lemma Restore_layer_decided h r cache cacheMeta store bp l :
  bp ∈ Buildpacks r ->
  keeps h cache (decided_event h r cacheMeta)
    (Restore_layer h cache store bp (cachedLayersOf cacheMeta bp) l).
Proof.
  intros Hbp. unfold Restore_layer.
  destruct (cachedLayersOf cacheMeta bp !! buildpack.Name h l) as [rec|] eqn:Hrec.
  - apply keeps_bind.
    + apply keeps_atomic; [apply task_event_decided|].
      intros w. by apply appends_perform.
    + intros [sha [err|]]; [apply keeps_return|].
      case_bool_decide.
      * apply keeps_bind; [|intros _; apply keeps_bind; [|intros _; apply keeps_bind]].
        -- apply keeps_atomic; [apply task_event_decided|]. intros w. by apply appends_logf.
        -- apply keeps_atomic; [apply task_event_decided|]. intros w. by apply appends_logf.
        -- apply keeps_atomic; [apply task_event_decided|]. intros w. by apply appends_perform.
        -- intros [err|]; [apply keeps_return | apply keeps_ret].
      * apply keeps_bind; [|intros _; apply keeps_bind; [|intros _; apply keeps_Go]].
        -- apply keeps_atomic; [apply task_event_decided|]. intros w. by apply appends_logf.
        -- apply keeps_atomic; [apply task_event_decided|]. intros w.
           apply appends_logf. by exists bp, rec.
  - apply keeps_bind; [|intros _; apply keeps_bind].
    + apply keeps_atomic; [apply task_event_decided|]. intros w. by apply appends_logf.
    + apply keeps_atomic; [apply task_event_decided|]. intros w. by apply appends_perform.
    + intros [err|]; [apply keeps_return | apply keeps_ret].
Qed.

Lemma Restore_buildpack_decided h r cache cacheMeta store bp :
  bp ∈ Buildpacks r ->
  keeps h cache (decided_event h r cacheMeta)
    (Restore_buildpack h r cache cacheMeta store bp).
Proof.
  intros Hbp. unfold Restore_buildpack. fold (cachedLayersOf cacheMeta bp).
  apply keeps_bind; [apply keeps_must|].
  intros cachedFn. apply keeps_bind.
  - apply keeps_atomic; [apply task_event_decided|]. intros w. by apply appends_perform.
  - intros [dir [err|]]; [apply keeps_return|].
    apply keeps_bind.
    + apply keeps_atomic; [apply task_event_decided|]. intros w. apply appends_refl.
    + intros found. apply keeps_for_range. intros l. by apply Restore_layer_decided.
Qed.

Lemma sbom_event_decided h r cacheMeta e : sbom_event e -> decided_event h r cacheMeta e.
Proof. by destruct e. Qed.

Lemma Restore_finish_decided (h : Host) (r : Restorer) (cache : Cache)
  (cacheMeta : platform.CacheMetadata) :
  keeps h cache (decided_event h r cacheMeta) (Restore_finish h r).
Proof.
  unfold Restore_finish. apply keeps_bind.
  - apply keeps_Wait. apply task_event_decided.
  - intros [err|]; [apply keeps_return|].
    apply keeps_bind; [apply keeps_must|]. intros v.
    apply keeps_bind; [apply keeps_must|]. intros [|]; [|apply keeps_return].
    apply keeps_bind; [|intros e; apply keeps_return].
    apply keeps_direct. intros w. unfold call.
    pose proof (restoreSBOM_appends h r w) as Hsb.
    apply (appends_weaken _ _ _ _ (sbom_event_decided h r cacheMeta)) in Hsb.
    by destruct (run (Restorer_restoreSBOM h r) w) as [w' [e|]].
Qed.

(** When [Restore_finish] does not fail, no goroutine is left to run and
    the group has no error. *)
Lemma Restore_finish_nil (h : Host) (r : Restorer) (cache : Cache)
  (s s' : RState) (o : Step (option error) (option error)) :
  pool_ok h cache s ->
  Restore_finish h r s = (s', o) -> ~ failed o ->
  errgroup.pending (g s') = [] /\ errgroup.err (g s') = None.
Proof.
  intros Hpool Hrun Ho.
  destruct (Wait_ok h cache (R:=option error) s Hpool) as (s1 & Hw & Hp & _).
  unfold Restore_finish, bind in Hrun. rewrite Hw in Hrun.
  destruct (errgroup.err (g s1)) as [err|] eqn:He.
  { injection Hrun as <- <-. by destruct Ho. }
  destruct (api.MustParse (cmd.API (Platform r))) as [v|];
    unfold must, ret, panic in Hrun; cbv beta iota in Hrun.
  2: { injection Hrun as <- <-. by destruct Ho. }
  rewrite AtLeast_08 in Hrun. cbv beta iota in Hrun.
  destruct (at_least_0 8 v).
  - unfold direct, call in Hrun.
    destruct (run (Restorer_restoreSBOM h r) (world s1)) as [w' [e|]];
      injection Hrun as <- <-; done.
  - injection Hrun as <- <-. done.
Qed.

(** A run of [Restore] that returns nil, taken apart: the metadata of the
    cache and the platform API were read, the metadata restorer has run
    where it has to, and what follows it is a progress at whose end no
    goroutine is left to run and none has failed. *)
Lemma Restore_done (h : Host) (r : Restorer) (cache : Cache) (s s' : RState) :
  run (Restorer_Restore h r cache) s = (s', Returned None) ->
  exists cacheMeta v s0 pre,
    retrieveCacheMetadata cache = (cacheMeta, None)
    /\ api.MustParse (cmd.API (Platform r)) = Some v
    /\ trace (world s0) = (trace (world s) ++ pre)%list
    /\ Forall quiet_event pre
    /\ progress h cache (set_g errgroup.zero s0) s'
    /\ appends (decided_event h r cacheMeta) (world s0) (world s')
    /\ errgroup.pending (g s') = [] /\ errgroup.err (g s') = None.
Proof.
  intros Hrun.
  destruct (retrieveCacheMetadata cache) as [cacheMeta [err|]] eqn:Hcm.
  { unfold Restorer_Restore in Hrun. rewrite Hcm in Hrun. done. }
  destruct (api.MustParse (cmd.API (Platform r))) as [v|] eqn:Hv.
  2: { unfold Restorer_Restore, Restorer_restoresLayerMetadata in Hrun.
       rewrite Hcm, Hv in Hrun. done. }
  exists cacheMeta, v.
  set (store := layer.NewSHAStore (negb (at_least_0 7 v))).
  assert (Hrest : exists s0 pre o,
            trace (world s0) = (trace (world s) ++ pre)%list
            /\ Forall quiet_event pre
            /\ bind (for_range (Buildpacks r)
                       (Restore_buildpack h r cache cacheMeta store))
                    (fun _ => Restore_finish h r) (set_g errgroup.zero s0) = (s', o)
            /\ ~ failed o).
  { unfold run in Hrun. rewrite (Restore_unfold h r cache cacheMeta v s Hv Hcm) in Hrun.
    fold store in Hrun. cbv zeta in Hrun.
    destruct (at_least_0 7 v).
    - destruct (LayerMetadataRestorer r (Buildpacks r) (LayersMetadata r) cacheMeta store
                  (disk (world s))) as [d1 [err|]]; simpl in Hrun; [done|].
      unfold bind at 1, modify in Hrun.
      match type of Hrun with
      | match ?m ?s1 with _ => _ end = _ =>
          destruct (m s1) as [s2 [x|x|]] eqn:Hm; [| |done];
          injection Hrun as <- ->;
          match type of Hm with
          | _ (set_g errgroup.zero ?s0) = _ =>
              exists s0, [CallMetadataRestore store]
          end;
          eexists;
          (split; [reflexivity|]); (split; [by repeat constructor|]);
          (split; [exact Hm|]); by intros []
      end.
    - unfold bind at 1, modify in Hrun.
      match type of Hrun with
      | match ?m ?s1 with _ => _ end = _ =>
          destruct (m s1) as [s2 [x|x|]] eqn:Hm; [| |done];
          injection Hrun as <- ->;
          exists s, [];
          eexists; (split; [by rewrite app_nil_r|]); (split; [constructor|]);
          (split; [exact Hm|]); by intros []
      end. }
  destruct Hrest as (s0 & pre & o & Htr & Hq & Hrest & Ho).
  exists s0, pre. split; [done|]. split; [done|]. split; [done|]. split; [done|].
  assert (Hp0 : pool_ok h cache (set_g errgroup.zero s0)) by constructor.
  assert (Hal : along h cache
                  (bind (for_range (Buildpacks r)
                           (Restore_buildpack h r cache cacheMeta store))
                        (fun _ => Restore_finish h r))).
  { apply along_bind; [|intros _; apply Restore_finish_along].
    apply along_for_range. intros bp. apply Restore_buildpack_along. }
  assert (Hk : keeps h cache (decided_event h r cacheMeta)
                 (bind (for_range (Buildpacks r)
                          (Restore_buildpack h r cache cacheMeta store))
                       (fun _ => Restore_finish h r))).
  { apply keeps_bind; [|intros _; apply Restore_finish_decided].
    apply keeps_for_range_in. intros bp Hbp. by apply Restore_buildpack_decided. }
  destruct (Hal _ Hp0) as [_ Hprog]. destruct (Hk _ Hp0) as [_ Happ].
  rewrite Hrest in Hprog, Happ. cbn [fst snd] in *.
  split; [by apply Hprog|]. split; [exact Happ|].
  apply bind_inv in Hrest as [(s2 & [] & Hloop & Hfin)|[(x & Hloop & ->)|[_ ->]]].
  - eapply (Restore_finish_nil h r cache s2); eauto.
    assert (Hl : along h cache (for_range (Buildpacks r)
                                  (Restore_buildpack h r cache cacheMeta store))).
    { apply along_for_range. intros bp. apply Restore_buildpack_along. }
    destruct (Hl _ Hp0) as [Hp2 _]. by rewrite Hloop in Hp2.
  - exfalso.
    assert (Hx : x <> None).
    { eapply (no_nil_return_for_range _ _
                (Restore_buildpack_no_nil h r cache cacheMeta store)).
      by rewrite Hloop. }
    destruct x; [by apply Ho | done].
  - exfalso. by apply Ho.
Qed.

(** ** The layers of a run that returns nil *)

Lemma restoreCacheLayer_nil (h : Host) (cache : Cache) (sha : string) (w : World) :
  (run (Restorer_restoreCacheLayer h cache sha) w).2 = Returned None
  <-> exists c rc,
        cache = Some c /\ RetrieveLayer c sha = (rc, None)
        /\ layers.Extract h rc "" (disk w)
           = (disk (run (Restorer_restoreCacheLayer h cache sha) w).1, None).
Proof.
  unfold Restorer_restoreCacheLayer, run. destruct cache as [c|]; simpl.
  - unfold bind, logf. rewrite perform_spec. simpl.
    destruct (RetrieveLayer c sha) as [rc [err|]] eqn:Hrc; simpl.
    + split; [done|]. intros (c' & rc' & [= <-] & Hrc' & _). congruence.
    + unfold return_. rewrite perform_spec. simpl.
      destruct (layers.Extract h rc "" (disk w)) as [d' [err|]] eqn:Hex; simpl.
      * split; [done|]. intros (c' & rc' & [= <-] & Hrc' & Hex').
        rewrite Hrc in Hrc'. injection Hrc' as <-. congruence.
      * split; [|done]. intros _. by exists c, rc.
  - split; [done|]. by intros (c & rc & [=] & _).
Qed.

(** What a run of [Restore] that returns nil has done with the layers:
    every goroutine started has run to its end and has returned nil, the
    layers it was started for have a record with its hash, and the layers
    whose removal was called have no descriptor left. *)
Lemma Restore_nil_layers (h : Host) (r : Restorer) (cache : Cache) (s s' : RState) :
  run (Restorer_Restore h r cache) s = (s', Returned None) ->
  let new := events_since (world s) (world s') in
  let cacheMeta := (retrieveCacheMetadata cache).1 in
  (forall l sha, CallGo l sha ∈ new ->
     restored_task sha new
     /\ exists bp rec, bp ∈ Buildpacks r
                       /\ cachedLayersOf cacheMeta bp !! buildpack.Name h l = Some rec
                       /\ sha = platform.SHA rec)
  /\ (forall l, CallRemove l ∈ new ->
        descriptors (disk (world s')) !! buildpack.path l = None)
  /\ length (task_results new) = length (go_shas new)
  /\ Forall (fun e => e = None) (task_results new)
  /\ errgroup.pending (g s') = [].
Proof.
  intros Hrun new cacheMeta.
  destruct (Restore_done h r cache s s' Hrun)
    as (cm & v & s0 & pre & Hcm & Hv & Htr & Hq & Hprog & Hdec & Hpend & Herr).
  assert (cacheMeta = cm) as -> by (unfold cacheMeta; by rewrite Hcm).
  destruct Hprog as (evs & Hevs & Hst & Hrem & Hcount & Hall). simpl in Hevs, Hcount.
  destruct (Hall Herr) as (_ & Hnone & Hdone).
  assert (Hnew : new = (pre ++ evs)%list).
  { unfold new. apply events_since_app. by rewrite Hevs, Htr, app_assoc. }
  assert (Hpre : forall e, e ∈ pre -> quiet_event e)
    by (by apply Forall_forall).
  rewrite Hnew. split; [|split; [|split; [|split]]].
  - intros l sha Hin. apply elem_of_app in Hin as [Hin|Hin]; [by apply Hpre in Hin|].
    split.
    + apply restored_task_app_l.
      destruct (Hdone sha) as [Hp|Hr]; [right; apply go_shas_elem; by exists l | |done].
      rewrite Hpend in Hp. by apply elem_of_nil in Hp.
    + destruct Hdec as (evs' & Hevs' & Hd). rewrite Hevs in Hevs'.
      apply app_inv_head in Hevs'. subst evs'.
      rewrite Forall_forall in Hd. by apply Hd in Hin.
  - intros l Hin. apply elem_of_app in Hin as [Hin|Hin]; [by apply Hpre in Hin|].
    by apply Hrem.
  - rewrite task_results_app, go_shas_app, (quiet_task_results pre Hq),
      (quiet_go_shas pre Hq). simpl. rewrite Hpend in Hcount. simpl in Hcount. lia.
  - rewrite task_results_app, (quiet_task_results pre Hq). exact Hnone.
  - exact Hpend.
Qed.

(** C1, amended.  The decision on a layer that [Restore] considers: a
    goroutine is started to restore its data exactly when the cached
    layers of the buildpack have a record of its name and the hash that
    the store gives for it, without error, is the hash of that record;
    when the record is missing, or the hash differs, the removal of the
    layer is called and no goroutine is started, and then either the
    layer is gone from the disk as a whole (its directory, its descriptor
    and its hash file) or the removal has failed and [Restore] returns its
    error, wrapped in [removing layer]; when the store fails, [Restore]
    returns its error and does neither.  A goroutine returns nil exactly
    when the cache has given the archive of the hash and the archive has
    been extracted without error.  When [Restore] returns nil, every
    goroutine it has started has run to its end and has returned nil, each
    was started for a layer with a record of that hash in the cache
    metadata of a buildpack of the group, and every layer whose removal
    was called has no descriptor left. *)
Theorem C1_layer_decision_amended (h : Host) (r : Restorer) (cache : Cache) :
  (forall (store : layer.SHAStore) (bp : buildpack.GroupBuildpack)
          (cachedLayers : gmap string platform.BuildpackLayerMetadata)
          (l : buildpack.Layer) (s : RState),
     pool_ok h cache s ->
     exists s1,
       goroutines_ran s s1
       /\ let asked := (layer.Get h store (buildpack.ID bp) l (disk (world s1))).2 in
          let out := Restore_layer h cache store bp cachedLayers l s in
          let new := events_since (world s) (world out.1) in
          (starts_restore l new
           <-> exists rec, cachedLayers !! buildpack.Name h l = Some rec
                           /\ asked = (platform.SHA rec, None))
          /\ (starts_restore l new ->
              out.2 = Next tt /\ ~ removes l new
              /\ exists rec rest,
                   cachedLayers !! buildpack.Name h l = Some rec
                   /\ CallGo l (platform.SHA rec) ∈ new
                   /\ errgroup.pending (g out.1)
                      = (rest ++ [Restorer_restoreCacheLayer h cache
                                    (platform.SHA rec)])%list)
          /\ (cachedLayers !! buildpack.Name h l = None
              \/ (exists rec sha, cachedLayers !! buildpack.Name h l = Some rec
                                  /\ asked = (sha, None) /\ sha <> platform.SHA rec) ->
              removes l new /\ ~ starts_restore l new
              /\ ((out.2 = Next tt /\ layer_absent h l (disk (world out.1)))
                  \/ exists e, out.2 = Return (Some (errors_Wrap e "removing layer"))))
          /\ (forall rec sha e,
                cachedLayers !! buildpack.Name h l = Some rec ->
                asked = (sha, Some e) ->
                out.2 = Return (Some e) /\ ~ removes l new /\ ~ starts_restore l new))
  /\ (forall (sha : string) (w : World),
        (run (Restorer_restoreCacheLayer h cache sha) w).2 = Returned None
        <-> exists c rc,
              cache = Some c /\ RetrieveLayer c sha = (rc, None)
              /\ layers.Extract h rc "" (disk w)
                 = (disk (run (Restorer_restoreCacheLayer h cache sha) w).1, None))
  /\ (forall s s' : RState,
        run (Restorer_Restore h r cache) s = (s', Returned None) ->
        let new := events_since (world s) (world s') in
        let cacheMeta := (retrieveCacheMetadata cache).1 in
        (forall l sha, CallGo l sha ∈ new ->
           restored_task sha new
           /\ exists bp rec, bp ∈ Buildpacks r
                             /\ cachedLayersOf cacheMeta bp !! buildpack.Name h l = Some rec
                             /\ sha = platform.SHA rec)
        /\ (forall l, CallRemove l ∈ new ->
              descriptors (disk (world s')) !! buildpack.path l = None)
        /\ length (task_results new) = length (go_shas new)
        /\ Forall (fun e => e = None) (task_results new)
        /\ errgroup.pending (g s') = []).
Proof.
  split; [|split].
  - intros store bp cachedLayers l s Hpool.
    destruct (cachedLayers !! buildpack.Name h l) as [rec|] eqn:Hcl.
    + destruct (Restore_layer_present h cache store bp cachedLayers l rec s Hpool Hcl)
        as (s1 & Hran & Hspec).
      exists s1. split; [exact Hran|]. cbv zeta in *.
      destruct (layer.Get h store (buildpack.ID bp) l (disk (world s1))).2
        as [sha [e|]] eqn:Hasked.
      * destruct Hspec as (Hout & Hng & Hnr).
        pose proof (not_go_no_restore l _ _ Hng) as Hnres.
        pose proof (not_remove_not_removes l _ _ Hnr) as Hnrem.
        split; [|split; [|split]].
        -- split; [done|]. intros (rec' & _ & [=]).
        -- done.
        -- intros [[=]|(rec' & sha' & _ & [=] & _)].
        -- intros rec' sha' e' _ [= <- <-]. done.
      * case_bool_decide as Hsha.
        -- destruct Hspec as (Hng & Hrem & Hout).
           pose proof (not_go_no_restore l _ _ Hng) as Hnres.
           split; [|split; [|split]].
           ++ split; [done|]. intros (rec' & [= <-] & [= ->]). done.
           ++ done.
           ++ intros _. done.
           ++ intros rec' sha' e' _ [=].
        -- subst sha.
           destruct Hspec as (Hout & Hnr & Hgo & rest & Hpend).
           pose proof (not_remove_not_removes l _ _ Hnr) as Hnrem.
           assert (Hres : starts_restore l
                            (events_since (world s)
                               (world (Restore_layer h cache store bp cachedLayers l s).1)))
             by (by exists (platform.SHA rec)).
           split; [|split; [|split]].
           ++ split; [intros _; by exists rec | done].
           ++ intros _. split; [done|]. split; [done|]. by exists rec, rest.
           ++ intros [[=]|(rec' & sha' & [= <-] & [= <-] & Hne)]. done.
           ++ intros rec' sha' e' _ [=].
    + exists s. split; [apply goroutines_ran_refl|]. cbv zeta.
      destruct (Restore_layer_missing h cache store bp cachedLayers l s Hpool Hcl)
        as (Hng & Hrem & Hout).
      pose proof (not_go_no_restore l _ _ Hng) as Hnres.
      split; [|split; [|split]].
      * split; [done|]. intros (rec' & [=] & _).
      * done.
      * intros _. done.
      * intros rec' sha' e' [=].
  - intros sha w. apply restoreCacheLayer_nil.
  - intros s s' Hrun. by apply Restore_nil_layers.
Qed.

Lemma C1_layer_decision_amended_witness :
  let r := sample_restorer [sample_bp "bp1" "0.5"] "0.6" in
  let s := sample_state sample_layers_disk [] [] in
  let cachedLayers :=
    platform.Layers (platform.MetadataForBuildpack sample_cacheMeta "bp1") in
  let out l := Restore_layer sample_host sample_cache layer.fileSHAStore
                 (sample_bp "bp1" "0.5") cachedLayers l s in
  let s' := (run (Restorer_Restore sample_host r sample_cache) s).1 in
  starts_restore (sample_layer "bp1" "L1")
    (events_since (world s) (world (out (sample_layer "bp1" "L1")).1))
  /\ layer_absent sample_host (sample_layer "bp1" "old")
       (disk (world (out (sample_layer "bp1" "old")).1))
  /\ restored_task "good" (events_since (world s) (world s'))
  /\ descriptors (disk (world s')) !! "/layers/bp1/old" = None.
Proof.
  intros r s cachedLayers out s'.
  destruct (C1_layer_decision_amended sample_host r sample_cache) as (HI & _ & HIII).
  split; [|split].
  - destruct (HI layer.fileSHAStore (sample_bp "bp1" "0.5") cachedLayers
                (sample_layer "bp1" "L1") s) as (s1 & Hran & Hiff & _); [constructor|].
    apply Hiff. exists (sample_record "good" true). split; [reflexivity|].
    destruct Hran as (ran & res & Hperm & Hrun & _).
    apply Permutation_sym, Permutation_nil in Hperm.
    apply app_eq_nil in Hperm as [-> _].
    simpl in Hrun. injection Hrun as <- _. reflexivity.
  - destruct (HI layer.fileSHAStore (sample_bp "bp1" "0.5") cachedLayers
                (sample_layer "bp1" "old") s) as (s1 & Hran & _ & _ & Hrem & _);
      [constructor|].
    destruct Hrem as (_ & _ & [[_ Habs]|[e He]]); [by left | exact Habs|].
    vm_compute in He. discriminate.
  - destruct (HIII s s') as (Hgo & Hrm & _); [vm_compute; reflexivity|].
    split.
    + apply (Hgo (sample_layer "bp1" "L1") "good"). vm_compute.
      repeat first [apply list_elem_of_here | apply list_elem_of_further].
    + apply (Hrm (sample_layer "bp1" "old")). vm_compute.
      repeat first [apply list_elem_of_here | apply list_elem_of_further].
Defined.

(** C1 as the spec states it does not hold.  The layer [L2] is a
    candidate, has a record, and the hash of its hash file is the hash of
    the record, but the archive that the cache holds for this hash cannot be
    extracted: its goroutine fails, [Restore] returns the error, and [L2]
    is neither restored nor removed. *)
Lemma C1_counterexample :
  ~ (forall (h : Host) (r : Restorer) (cache : Cache) (s s' : RState)
            (o : Outcome (option error)) (bp : buildpack.GroupBuildpack)
            (l : buildpack.Layer) (rec : platform.BuildpackLayerMetadata),
        Restorer_restoresLayerMetadata r = Some false ->
        run (Restorer_Restore h r cache) s = (s', o) ->
        bp ∈ Buildpacks r ->
        candidate h r (retrieveCacheMetadata cache).1 bp (disk (world s)) l ->
        cachedLayersOf (retrieveCacheMetadata cache).1 bp !! buildpack.Name h l
        = Some rec ->
        stored layer.fileSHAStore (disk (world s)) (buildpack.path l)
        = Some (platform.SHA rec) ->
        restored_task (platform.SHA rec) (events_since (world s) (world s'))
        \/ layer_absent h l (disk (world s'))).
Proof.
  intros Hclaim.
  pose (r := sample_restorer [sample_bp "bp1" "0.6"] "0.6").
  pose (s := sample_state sample_stale_disk [] []).
  pose (out := run (Restorer_Restore sample_host r sample_cache) s).
  destruct (Hclaim sample_host r sample_cache s out.1 out.2 (sample_bp "bp1" "0.6")
              (sample_layer "bp1" "L2") (sample_record "bad" true))
    as [(pre & post & Hev)|(Hd & _)].
  - reflexivity.
  - apply surjective_pairing.
  - apply list_elem_of_here.
  - eexists. split; [reflexivity|]. split; [|reflexivity].
    vm_compute. repeat first [apply list_elem_of_here | apply list_elem_of_further].
  - reflexivity.
  - reflexivity.
  - assert (Hlook : exists i, (pre ++ task_block "bad" ++ post)%list !! S i
                               = Some (CallRetrieveLayer "bad")
                             /\ (pre ++ task_block "bad" ++ post)%list !! S (S (S i))
                                = Some (TaskDone None)).
    { exists (length pre). split.
      - rewrite lookup_app_r by lia. by replace (S (length pre) - length pre) with 1 by lia.
      - rewrite lookup_app_r by lia.
        by replace (S (S (S (length pre))) - length pre) with 3 by lia. }
    change (platform.SHA (sample_record "bad" true)) with "bad" in Hev.
    rewrite <- Hev in Hlook. destruct Hlook as (i & H1 & H3).
    vm_compute in H1, H3.
    do 16 (destruct i as [|i]; [discriminate|]). discriminate.
  - vm_compute in Hd. discriminate.
Qed.

(** The same run, evaluated: [Restore] returns the error of the goroutine
    of [L2], whose data is as stale as before and which is still on the
    disk; the data of [L1] has been restored. *)
Example candidate_with_matching_hash_not_restored :
  let r := sample_restorer [sample_bp "bp1" "0.6"] "0.6" in
  let out := run (Restorer_Restore sample_host r sample_cache)
                 (sample_state sample_stale_disk [] []) in
  out.2 = Returned (Some (errors_Wrap (errors_New "extract: unknown file type in tar")
                                      "restoring data"))
  /\ task_results (trace (world out.1))
     = [None; Some (errors_New "extract: unknown file type in tar")]
  /\ files (disk (world out.1)) !! "/layers/bp1/L1/data" = Some (os.File "cached")
  /\ files (disk (world out.1)) !! "/layers/bp1/L2/data" = Some (os.File "stale too")
  /\ is_Some (descriptors (disk (world out.1)) !! "/layers/bp1/L2").
Proof. vm_compute. repeat split. by eexists. Qed.

(** A removal that fails half-way: the directory of the layer [old],
    which has no record, is gone, its hash file cannot be removed, and
    [Restore] returns the error at once, leaving the hash file and the
    descriptor behind. *)
Example removal_fails_half_way :
  let r := sample_restorer [sample_bp "bp1" "0.5"] "0.6" in
  let out := run (Restorer_Restore sample_host_readonly r sample_cache)
                 (sample_state sample_layers_disk [] []) in
  out.2 = Returned (Some (errors_Wrap (errors_New "remove: permission denied")
                                      "removing layer"))
  /\ files (disk (world out.1)) !! "/layers/bp1/old" = None
  /\ shaFiles (disk (world out.1)) !! "/layers/bp1/old" = Some "gone"
  /\ is_Some (descriptors (disk (world out.1)) !! "/layers/bp1/old").
Proof. vm_compute. repeat split. by eexists. Qed.

(* ================================================================== *)
(** * Part IV: further properties of the code                          *)
(* ================================================================== *)

(** ** [Restore] without a cache *)

Lemma run_picks_idle {R} (picks : list nat) (s : RState) :
  errgroup.pending (g s) = [] -> @errgroup_run_picks R picks s = (s, Next tt).
Proof.
  intros Hs. induction picks as [|i picks IH]; simpl; [done|]. by rewrite Hs.
Qed.

Lemma yield_idle {R} (s : RState) :
  idle s -> idle (@yield R s).1 /\ world (@yield R s).1 = world s.
Proof.
  intros [Hp He]. unfold yield. destruct (schedule s) as [|picks later]; [done|].
  by rewrite run_picks_idle.
Qed.

Lemma keeps_idle_ret {R A} P (a : A) : keeps_idle P (@ret RState R A a).
Proof. intros s Hs. split; [done | apply appends_refl]. Qed.

Lemma keeps_idle_return {R A} P (x : R) : keeps_idle P (@return_ RState R A x).
Proof. intros s Hs. split; [done | apply appends_refl]. Qed.

Lemma keeps_idle_panic {R A} P : keeps_idle P (@panic RState R A).
Proof. intros s Hs. split; [done | apply appends_refl]. Qed.

Lemma keeps_idle_must {R A} P (o : option A) : keeps_idle P (@must RState R A o).
Proof. destruct o; [apply keeps_idle_ret | apply keeps_idle_panic]. Qed.

Lemma keeps_idle_bind {R A B} P (m : Go RState R A) (k : A -> Go RState R B) :
  keeps_idle P m -> (forall a, keeps_idle P (k a)) -> keeps_idle P (bind m k).
Proof.
  intros Hm Hk s Hs. destruct (Hm s Hs) as [H1 H2]. unfold bind.
  destruct (m s) as [s1 [a|x|]]; simpl in *; try done.
  destruct (Hk a s1 H1) as [H3 H4]. split; [done|].
  eapply appends_trans; eauto.
Qed.

Lemma keeps_idle_for_range {R A} P (l : list A) (body : A -> Go RState R unit) :
  (forall x, keeps_idle P (body x)) -> keeps_idle P (for_range l body).
Proof.
  intros Hb. induction l as [|x l IH]; simpl.
  - apply keeps_idle_ret.
  - apply keeps_idle_bind; [apply Hb | intros _; apply IH].
Qed.

Lemma keeps_idle_atomic {R A} (P : Event -> Prop) (m : Go World R A) :
  (forall w, appends P w (m w).1) -> keeps_idle P (atomic m).
Proof.
  intros Hm s Hs. destruct (yield_idle (R:=R) s Hs) as [Hi Hw].
  unfold atomic, bind. destruct (yield s) as [s1 [[]|x|]] eqn:Hy; simpl in *.
  - unfold direct. specialize (Hm (world s1)).
    destruct (m (world s1)) as [w' out]. simpl in *. split; [exact Hi|].
    by rewrite <- Hw.
  - split; [exact Hi|]. rewrite Hw. apply appends_refl.
  - split; [exact Hi|]. rewrite Hw. apply appends_refl.
Qed.

Lemma Wait_idle {R} (s : RState) :
  idle s ->
  exists s1, @errgroup_Wait R s = (s1, Next None) /\ idle s1 /\ world s1 = world s.
Proof.
  intros Hs. destruct (yield_idle (R:=R) s Hs) as [[Hp He] Hw].
  unfold errgroup_Wait, bind, get, modify, ret.
  destruct (yield s) as [s1 [[]|x|]] eqn:Hy; simpl in *.
  - rewrite Hp. simpl. rewrite He. eexists. split; [reflexivity|]. by repeat split.
  - unfold yield in Hy. destruct (schedule s) as [|picks later]; [done|].
    rewrite run_picks_idle in Hy by apply Hs. done.
  - unfold yield in Hy. destruct (schedule s) as [|picks later]; [done|].
    rewrite run_picks_idle in Hy by apply Hs. done.
Qed.

Lemma Restore_layer_cacheless h cache store bp l :
  keeps_idle cacheless_event (Restore_layer h cache store bp ∅ l).
Proof.
  unfold Restore_layer. rewrite lookup_empty.
  apply keeps_idle_bind; [|intros _; apply keeps_idle_bind].
  - apply keeps_idle_atomic. intros w. by apply appends_logf.
  - apply keeps_idle_atomic. intros w. by apply appends_perform.
  - intros [err|]; [apply keeps_idle_return | apply keeps_idle_ret].
Qed.

Lemma Restore_buildpack_cacheless h r cache store bp :
  keeps_idle cacheless_event
    (Restore_buildpack h r cache platform.CacheMetadata_empty store bp).
Proof.
  unfold Restore_buildpack.
  change (platform.Layers
            (platform.MetadataForBuildpack platform.CacheMetadata_empty (buildpack.ID bp)))
    with (platform.Layers (default {| platform.Layers := ∅ |}
            ((∅ : gmap string platform.BuildpackLayersMetadata) !! buildpack.ID bp))).
  rewrite lookup_empty. simpl.
  apply keeps_idle_bind; [apply keeps_idle_must|].
  intros cachedFn. apply keeps_idle_bind.
  - apply keeps_idle_atomic. intros w. by apply appends_perform.
  - intros [dir [err|]]; [apply keeps_idle_return|].
    apply keeps_idle_bind.
    + apply keeps_idle_atomic. intros w. apply appends_refl.
    + intros found. apply keeps_idle_for_range. intros l. apply Restore_layer_cacheless.
Qed.

Lemma Restore_finish_cacheless h r :
  keeps_idle cacheless_event (Restore_finish h r).
Proof.
  intros s Hs. destruct (Wait_idle (R:=option error) s Hs) as (s1 & Hw & Hi & Hws).
  unfold Restore_finish, bind, must, ret, return_, panic. rewrite Hw.
  destruct (api.MustParse (cmd.API (Platform r))) as [v|]; cbv beta iota.
  2: { split; [done|]. cbn [fst]. rewrite Hws. apply appends_refl. }
  rewrite AtLeast_08. cbv beta iota.
  destruct (at_least_0 8 v).
  - unfold direct, call.
    pose proof (restoreSBOM_appends h r (world s1)) as Hsb.
    destruct (run (Restorer_restoreSBOM h r) (world s1)) as [w' [e|]]; simpl in *;
      (split; [exact Hi|]); rewrite <- Hws;
      (eapply appends_weaken; [|exact Hsb]); by intros [].
  - split; [done|]. cbn [fst]. rewrite Hws. apply appends_refl.
Qed.

(** X1: without a cache ([cache] is nil), [Restore] restores nothing from
    one: in the whole run no hash of a layer is asked for, no restore
    goroutine is started and no archive is retrieved or extracted,
    whatever is on the disk. *)
Theorem X1_no_cache_nothing_restored (h : Host) (r : Restorer) (s : RState) :
  appends cacheless_event (world s) (world (Restorer_Restore h r None s).1).
Proof.
  destruct (api.MustParse (cmd.API (Platform r))) as [v|] eqn:Hv.
  2: { unfold Restorer_Restore, Restorer_restoresLayerMetadata. simpl. rewrite Hv.
       apply appends_refl. }
  assert (Hrest : forall s0,
            appends cacheless_event (world s0)
              (world (bind (modify (set_g errgroup.zero))
                        (fun _ => bind (for_range (Buildpacks r)
                                          (Restore_buildpack h r None
                                             platform.CacheMetadata_empty
                                             (layer.NewSHAStore (negb (at_least_0 7 v)))))
                                       (fun _ => Restore_finish h r)) s0).1)).
  { intros s0. unfold bind at 1, modify.
    assert (Hk : keeps_idle cacheless_event
                   (bind (for_range (Buildpacks r)
                            (Restore_buildpack h r None platform.CacheMetadata_empty
                               (layer.NewSHAStore (negb (at_least_0 7 v)))))
                         (fun _ => Restore_finish h r))).
    { apply keeps_idle_bind.
      - apply keeps_idle_for_range. intros bp. apply Restore_buildpack_cacheless.
      - intros _. apply Restore_finish_cacheless. }
    destruct (Hk (set_g errgroup.zero s0)) as [_ Happ]; [done|]. exact Happ. }
  rewrite (Restore_unfold h r None platform.CacheMetadata_empty v s Hv eq_refl). cbv zeta.
  destruct (at_least_0 7 v).
  - set (res := LayerMetadataRestorer r _ _ _ _ _).
    set (s1 := set_world _ s).
    assert (H1 : appends cacheless_event (world s) (world s1)).
    { eexists [_]. split; [reflexivity|]. by repeat constructor. }
    destruct (res.2); [exact H1|].
    eapply appends_trans; [exact H1 | apply Hrest].
  - apply Hrest.
Qed.

(** ** Layers that the cache does not know *)

Lemma task_event_recorded h cachedLayers e :
  task_event e -> recorded_event h cachedLayers e.
Proof. by destruct e. Qed.

Lemma Restore_layer_recorded h cache store bp cachedLayers l rec :
  cachedLayers !! buildpack.Name h l = Some rec -> platform.Cache rec = true ->
  keeps h cache (recorded_event h cachedLayers)
    (Restore_layer h cache store bp cachedLayers l).
Proof.
  intros Hrec Hcache.
  assert (Hl : exists rec0, cachedLayers !! buildpack.Name h l = Some rec0
                            /\ platform.Cache rec0 = true) by (by exists rec).
  unfold Restore_layer. rewrite Hrec.
  apply keeps_bind.
  - apply keeps_atomic; [apply task_event_recorded|].
    intros w. by apply appends_perform.
  - intros [sha [err|]]; [apply keeps_return|].
    case_bool_decide.
    + apply keeps_bind; [|intros _; apply keeps_bind; [|intros _; apply keeps_bind]].
      * apply keeps_atomic; [apply task_event_recorded|]. intros w. by apply appends_logf.
      * apply keeps_atomic; [apply task_event_recorded|]. intros w. by apply appends_logf.
      * apply keeps_atomic; [apply task_event_recorded|]. intros w. by apply appends_perform.
      * intros [err|]; [apply keeps_return | apply keeps_ret].
    + apply keeps_bind; [|intros _; apply keeps_bind; [|intros _; apply keeps_Go]].
      * apply keeps_atomic; [apply task_event_recorded|]. intros w. by apply appends_logf.
      * apply keeps_atomic; [apply task_event_recorded|]. intros w. by apply appends_logf.
Qed.

Lemma keeps_must_Some {R A B} h cache P (a : A) (k : A -> Go RState R B) :
  keeps h cache P (k a) -> keeps h cache P (bind (must (Some a)) k).
Proof. intros Hk s Hs. exact (Hk s Hs). Qed.

Lemma keeps_atomic_value {R A B} h cache (P : Event -> Prop) (f : World -> A)
  (k : A -> Go RState R B) :
  (forall e, task_event e -> P e) ->
  (forall w, keeps h cache P (k (f w))) ->
  keeps h cache P (bind (atomic (fun w => (w, Next (f w)))) k).
Proof.
  intros HP Hk s Hs.
  destruct (atomic_ok h cache (R:=R) (fun w => (w, Next (f w))) s Hs) as (s1 & Hran & Hat).
  destruct (goroutines_ran_appends h cache s s1 Hs Hran) as [Hs1 Happ].
  unfold bind. rewrite Hat. simpl.
  destruct (Hk (world s1) (set_world (world s1) s1) Hs1) as [H1 H2].
  split; [exact H1|]. eapply appends_trans; [|exact H2].
  by eapply appends_weaken.
Qed.

(** X2: on a buildpack API of at least 0.6, the pass of [Restore] over a
    buildpack deals with no layer but those that the cache metadata of the
    buildpack records with the cache flag: every layer whose hash it asks
    for, that it removes or that it restores is one of them, and it never
    removes a layer as not in the cache.  A layer on disk that the cache
    metadata does not know is neither hashed nor removed nor restored. *)
Theorem X2_unrecorded_layers_left_alone (h : Host) (r : Restorer) (cache : Cache)
  (cacheMeta : platform.CacheMetadata) (store : layer.SHAStore)
  (bp : buildpack.GroupBuildpack) (v : api.Version) (s : RState) :
  api.MustParse (buildpack.API bp) = Some v -> at_least_0 6 v = true ->
  pool_ok h cache s ->
  appends (recorded_event h (cachedLayersOf cacheMeta bp)) (world s)
    (world (Restore_buildpack h r cache cacheMeta store bp s).1).
Proof.
  intros Hv H6 Hpool.
  assert (Hk : keeps h cache (recorded_event h (cachedLayersOf cacheMeta bp))
                 (Restore_buildpack h r cache cacheMeta store bp)); [|by apply Hk].
  unfold Restore_buildpack. fold (cachedLayersOf cacheMeta bp).
  unfold Restore_cachedFn. rewrite Hv, AtLeast_06, H6.
  apply keeps_must_Some. apply keeps_bind.
  - apply keeps_atomic; [apply task_event_recorded|]. intros w. by apply appends_perform.
  - intros [dir [err|]]; [apply keeps_return|].
    apply (keeps_atomic_value h cache _
             (fun w => buildpack.FindLayers dir
                         (fun l => match cachedLayersOf cacheMeta bp
                                          !! filepath.Base (GOOS h) (buildpack.Path l) with
                                   | Some bpLayer => platform.Cache bpLayer
                                   | None => false
                                   end)));
      [apply task_event_recorded|].
    intros w. apply keeps_for_range_in. intros l Hl.
    unfold buildpack.FindLayers in Hl. apply list_elem_of_filter in Hl as [Hl _].
    destruct (cachedLayersOf cacheMeta bp !! filepath.Base (GOOS h) (buildpack.Path l))
      as [rec|] eqn:Hrec; [|done].
    by apply (Restore_layer_recorded h cache store bp _ l rec).
Qed.

Lemma X2_unrecorded_layers_left_alone_witness :
  appends (recorded_event sample_host (cachedLayersOf sample_cacheMeta (sample_bp "bp1" "0.6")))
    (world (sample_state sample_layers_disk [] []))
    (world (Restore_buildpack sample_host (sample_restorer [sample_bp "bp1" "0.6"] "0.6")
              sample_cache sample_cacheMeta layer.fileSHAStore (sample_bp "bp1" "0.6")
              (sample_state sample_layers_disk [] [])).1).
Proof.
  apply (X2_unrecorded_layers_left_alone sample_host
           (sample_restorer [sample_bp "bp1" "0.6"] "0.6") sample_cache sample_cacheMeta
           layer.fileSHAStore (sample_bp "bp1" "0.6") {| api.major := 0; api.minor := 6 |}).
  - reflexivity.
  - reflexivity.
  - constructor.
Defined.

(** The layer [old] of the sample disk has a descriptor with the cache
    flag and a hash file, but no record in the cache metadata: the pass on
    the buildpack API 0.6 leaves it, the pass on the buildpack API 0.5
    removes it. *)
Example unrecorded_layer_by_buildpack_api :
  let pass api :=
    Restore_buildpack sample_host (sample_restorer [sample_bp "bp1" api] "0.6")
      sample_cache sample_cacheMeta layer.fileSHAStore (sample_bp "bp1" api)
      (sample_state sample_layers_disk [] []) in
  files (disk (world (pass "0.6").1)) !! "/layers/bp1/old/data" = Some (os.File "old")
  /\ descriptors (disk (world (pass "0.6").1)) !! "/layers/bp1/old"
     = Some (sample_descriptor true)
  /\ files (disk (world (pass "0.5").1)) !! "/layers/bp1/old/data" = None
  /\ descriptors (disk (world (pass "0.5").1)) !! "/layers/bp1/old" = None.
Proof. vm_compute. repeat split. Qed.

(** ** The phases of [Restore] *)

Lemma loop_event_not_sbom store e : loop_event store e -> ~ sbom_event e.
Proof. destruct e; simpl; tauto. Qed.

Lemma task_event_not_sbom e : task_event e -> ~ sbom_event e.
Proof. destruct e; simpl; tauto. Qed.

(** At the end of a progress from a state without goroutines to one
    without goroutines and without error, every goroutine started has
    ended and has returned nil. *)
Lemma progress_done (h : Host) (cache : Cache) (s s' : RState) (evs : list Event) :
  progress h cache s s' ->
  trace (world s') = (trace (world s) ++ evs)%list ->
  errgroup.pending (g s) = [] -> errgroup.pending (g s') = [] ->
  errgroup.err (g s') = None ->
  length (task_results evs) = length (go_shas evs)
  /\ Forall (fun e => e = None) (task_results evs)
  /\ forall l sha, CallGo l sha ∈ evs -> restored_task sha evs.
Proof.
  intros (evs' & Hevs' & _ & _ & Hcount & Hall) Hevs Hp Hp' He.
  rewrite Hevs in Hevs'. apply app_inv_head in Hevs'. subst evs'.
  destruct (Hall He) as (_ & Hnone & Hdone).
  rewrite Hp, Hp' in Hcount. simpl in Hcount.
  split; [lia|]. split; [done|]. intros l sha Hin.
  destruct (Hdone sha) as [H|H]; [right; apply go_shas_elem; by exists l | |done].
  rewrite Hp' in H. by apply elem_of_nil in H.
Qed.

(** The end of [Restore]: the goroutines still to run run to their end,
    then, if none has failed, the relocator may run. *)
Lemma Restore_finish_waited (h : Host) (r : Restorer) (cache : Cache) (s : RState) :
  pool_ok h cache s ->
  exists s1 evs2,
    goroutines_ran s s1
    /\ errgroup.pending (g s1) = []
    /\ trace (world (Restore_finish h r s).1) = (trace (world s1) ++ evs2)%list
    /\ Forall sbom_event evs2
    /\ g (Restore_finish h r s).1 = g s1
    /\ (evs2 <> [] -> errgroup.err (g s1) = None).
Proof.
  intros Hs.
  destruct (Wait_ok h cache (R:=option error) s Hs) as (s1 & Hw & Hp & Hran).
  exists s1.
  assert (Hnil : forall o : Step (option error) (option error),
            exists evs2 : list Event,
              goroutines_ran s s1
              /\ errgroup.pending (g s1) = []
              /\ trace (world (s1, o).1) = (trace (world s1) ++ evs2)%list
              /\ Forall sbom_event evs2
              /\ g (s1, o).1 = g s1
              /\ (evs2 <> [] -> errgroup.err (g s1) = None)).
  { intros o. exists []. rewrite app_nil_r. by repeat split. }
  unfold Restore_finish, bind, must, ret, return_, panic. rewrite Hw.
  destruct (errgroup.err (g s1)) eqn:He; [apply Hnil|].
  destruct (api.MustParse (cmd.API (Platform r))) as [v|]; cbv beta iota; [|apply Hnil].
  rewrite AtLeast_08. cbv beta iota.
  destruct (at_least_0 8 v); [|apply Hnil].
  unfold direct, call.
  destruct (restoreSBOM_appends h r (world s1)) as (evs2 & Htr & Hev).
  exists evs2.
  destruct (run (Restorer_restoreSBOM h r) (world s1)) as [w' [e|]]; by repeat split.
Qed.

(** X3: the relocation of SBOM files is the last thing [Restore] does:
    the events of a run are first those of the metadata restorer, of the
    passes over the buildpacks and of the restore goroutines, then those of
    the relocator (walks, copies and the removal of the staging root).
    When the relocator runs at all, no goroutine is left to run: every
    goroutine that [Restore] has started has run to its end before the
    first walk, and has returned nil. *)
Theorem X3_relocation_comes_last (h : Host) (r : Restorer) (cache : Cache) (s : RState) :
  exists evs1 evs2,
    trace (world (Restorer_Restore h r cache s).1) = (trace (world s) ++ evs1 ++ evs2)%list
    /\ Forall (fun e => ~ sbom_event e) evs1
    /\ Forall sbom_event evs2
    /\ (evs2 <> [] ->
        errgroup.pending (g (Restorer_Restore h r cache s).1) = []
        /\ length (task_results evs1) = length (go_shas evs1)
        /\ Forall (fun e => e = None) (task_results evs1)
        /\ forall l sha, CallGo l sha ∈ evs1 -> restored_task sha evs1).
Proof.
  assert (Hnone : forall s0 : RState, exists evs1 evs2 : list Event,
            trace (world s0) = (trace (world s0) ++ evs1 ++ evs2)%list
            /\ Forall (fun e => ~ sbom_event e) evs1 /\ Forall sbom_event evs2
            /\ (evs2 <> [] ->
                errgroup.pending (g s0) = []
                /\ length (task_results evs1) = length (go_shas evs1)
                /\ Forall (fun e => e = None) (task_results evs1)
                /\ forall l sha, CallGo l sha ∈ evs1 -> restored_task sha evs1)).
  { intros s0. exists [], []. by rewrite !app_nil_r. }
  destruct (retrieveCacheMetadata cache) as [cacheMeta [err|]] eqn:Hcm.
  { unfold Restorer_Restore. rewrite Hcm. apply Hnone. }
  destruct (api.MustParse (cmd.API (Platform r))) as [v|] eqn:Hv.
  2: { unfold Restorer_Restore, Restorer_restoresLayerMetadata. rewrite Hcm, Hv.
       apply Hnone. }
  set (store := layer.NewSHAStore (negb (at_least_0 7 v))).
  assert (Hrest : forall s0 pre,
            Forall quiet_event pre -> Forall (fun e => ~ sbom_event e) pre ->
            trace (world s0) = (trace (world s) ++ pre)%list ->
            let out := bind (modify (set_g errgroup.zero))
                         (fun _ => bind (for_range (Buildpacks r)
                                           (Restore_buildpack h r cache cacheMeta store))
                                        (fun _ => Restore_finish h r)) s0 in
            exists evs1 evs2,
              trace (world out.1) = (trace (world s) ++ evs1 ++ evs2)%list
              /\ Forall (fun e => ~ sbom_event e) evs1 /\ Forall sbom_event evs2
              /\ (evs2 <> [] ->
                  errgroup.pending (g out.1) = []
                  /\ length (task_results evs1) = length (go_shas evs1)
                  /\ Forall (fun e => e = None) (task_results evs1)
                  /\ forall l sha, CallGo l sha ∈ evs1 -> restored_task sha evs1)).
  { intros s0 pre Hq Hns Hpre. cbv zeta. unfold bind at 1, modify.
    assert (Hp0 : pool_ok h cache (set_g errgroup.zero s0)) by constructor.
    destruct (keeps_for_range h cache (loop_event store) (Buildpacks r) _
                (Restore_buildpack_keeps h r cache cacheMeta store) _ Hp0)
      as [Hp1 (evsL & HtrL & HevL)].
    assert (HnsL : Forall (fun e => ~ sbom_event e) evsL).
    { eapply Forall_impl; [exact HevL | apply loop_event_not_sbom]. }
    assert (Hal : along h cache (for_range (Buildpacks r)
                                   (Restore_buildpack h r cache cacheMeta store))).
    { apply along_for_range. intros bp. apply Restore_buildpack_along. }
    destruct (Hal _ Hp0) as [_ Hprog].
    unfold bind.
    destruct (for_range (Buildpacks r) (Restore_buildpack h r cache cacheMeta store)
                (set_g errgroup.zero s0)) as [s1 [[]|x|]]; cbn [fst snd] in *.
    - destruct (Restore_finish_waited h r cache s1 Hp1)
        as (s2 & evs2 & Hran & Hpend & Htr2 & Hev2 & Hg & Herr).
      destruct (goroutines_ran_appends h cache s1 s2 Hp1 Hran) as [_ (evsT & HtrT & HevT)].
      exists (pre ++ evsL ++ evsT)%list, evs2. split; [|split; [|split]].
      + rewrite Htr2, HtrT, HtrL. simpl. rewrite Hpre. by rewrite <- !app_assoc.
      + apply Forall_app. split; [done|]. apply Forall_app. split; [done|].
        eapply Forall_impl; [exact HevT | apply task_event_not_sbom].
      + done.
      + intros Hne. rewrite Hg. split; [done|].
        assert (Hprog2 : progress h cache (set_g errgroup.zero s0) s2).
        { eapply progress_trans; [apply Hprog; by intros []|].
          by apply progress_ran. }
        destruct (progress_done h cache _ s2 (evsL ++ evsT) Hprog2)
          as (Hc & Hn & Hd); try done.
        { rewrite HtrT, HtrL. simpl. by rewrite <- app_assoc. }
        { by apply Herr. }
        rewrite task_results_app, go_shas_app, (quiet_task_results pre Hq),
          (quiet_go_shas pre Hq). simpl.
        split; [done|]. split; [done|]. intros l sha Hin.
        apply restored_task_app_l.
        apply elem_of_app in Hin as [Hin|Hin]; [|by eapply Hd].
        rewrite Forall_forall in Hq. by apply Hq in Hin.
    - exists (pre ++ evsL)%list, []. rewrite app_nil_r. split; [|split; [|split]]; try done.
      + rewrite HtrL. simpl. by rewrite Hpre, <- app_assoc.
      + by apply Forall_app.
    - exists (pre ++ evsL)%list, []. rewrite app_nil_r. split; [|split; [|split]]; try done.
      + rewrite HtrL. simpl. by rewrite Hpre, <- app_assoc.
      + by apply Forall_app. }
  rewrite (Restore_unfold h r cache cacheMeta v s Hv Hcm). fold store. cbv zeta.
  destruct (at_least_0 7 v).
  - set (res := LayerMetadataRestorer r _ _ _ _ _).
    set (s1 := set_world _ s).
    destruct (res.2).
    + exists [CallMetadataRestore store], []. split; [done|].
      split; [by repeat constructor; intros []|]. split; [constructor | done].
    + apply (Hrest s1 [CallMetadataRestore store]).
      * by repeat constructor.
      * repeat constructor. by intros [].
      * reflexivity.
  - apply (Hrest s []); [constructor | constructor | by rewrite app_nil_r].
Qed.

Lemma X3_relocation_comes_last_witness :
  let r := sample_restorer [sample_bp "bp1" "0.6"] "0.8" in
  let s := sample_state sample_restore_disk [] [] in
  exists evs1 evs2,
    trace (world (Restorer_Restore sample_host r sample_cache s).1)
    = (trace (world s) ++ evs1 ++ evs2)%list
    /\ errgroup.pending (g (Restorer_Restore sample_host r sample_cache s).1) = []
    /\ length (task_results evs1) = length (go_shas evs1).
Proof.
  intros r s.
  destruct (X3_relocation_comes_last sample_host r sample_cache s)
    as (evs1 & evs2 & Htr & Hns & _ & Hdone).
  exists evs1, evs2. split; [exact Htr|].
  destruct Hdone as (Hp & Hc & _); [|by split].
  intros ->. rewrite app_nil_r in Htr.
  change (trace (world s) ++ evs1)%list with evs1 in Htr.
  rewrite Forall_forall in Hns. apply (Hns (CallWalk "/layers/sbom/cache")); [|exact I].
  rewrite <- Htr. vm_compute.
  repeat first [apply list_elem_of_here | apply list_elem_of_further].
Defined.

(** A run with two goroutines and staged files: the results of both
    goroutines come before the first walk. *)
Example goroutines_end_before_relocation :
  let r := sample_restorer [sample_bp "bp1" "0.6"] "0.8" in
  let out := run (Restorer_Restore sample_host r sample_cache)
                 (sample_state sample_restore_disk [] []) in
  out.2 = Returned None
  /\ exists evs1 evs2,
       trace (world out.1) = (evs1 ++ CallWalk "/layers/sbom/cache" :: evs2)%list
       /\ task_results evs1 = [None] /\ go_shas evs1 = ["good"]
       /\ task_results evs2 = [].
Proof.
  vm_compute. split; [reflexivity|].
  eexists [_; _; _; _; _; _; _; _; _; _; _; _; _], _.
  split; [reflexivity|]. repeat split.
Qed.

(** ** What a successful run leaves *)

(** X4: when [Restore] has returned without error, every layer of a
    buildpack of the group that is still on the disk and that the predicate
    of the buildpack selects has a record in the cache metadata, and the
    hash that the store of the run holds for it is the hash of the record:
    no layer is left that another run would remove. *)
Theorem X4_candidates_settled (h : Host) (r : Restorer) (cache : Cache)
  (s s' : RState) (restores : bool) (bp : buildpack.GroupBuildpack) :
  run (Restorer_Restore h r cache) s = (s', Returned None) ->
  Restorer_restoresLayerMetadata r = Some restores ->
  bp ∈ Buildpacks r ->
  settled h r (retrieveCacheMetadata cache).1 (layer.NewSHAStore (negb restores)) bp
    (disk (world s')).
Proof.
  intros Hrun Hres Hbp.
  destruct (Restore_leaves h r cache s s' Hrun) as (cm & v & Hcm & Hv & Hset & _).
  rewrite (restoresLayerMetadata_spec r v Hv) in Hres. injection Hres as <-.
  rewrite Hcm. by apply Hset.
Qed.

Lemma X4_candidates_settled_witness :
  settled sample_host (sample_restorer [sample_bp "bp1" "0.6"] "0.8")
    (retrieveCacheMetadata sample_cache).1 (layer.NewSHAStore (negb true))
    (sample_bp "bp1" "0.6")
    (disk (world (run (Restorer_Restore sample_host
                         (sample_restorer [sample_bp "bp1" "0.6"] "0.8") sample_cache)
                      (sample_state sample_restore_disk [] sample_schedule)).1)).
Proof.
  apply (X4_candidates_settled sample_host
           (sample_restorer [sample_bp "bp1" "0.6"] "0.8") sample_cache
           (sample_state sample_restore_disk [] sample_schedule)).
  - vm_compute. reflexivity.
  - reflexivity.
  - apply list_elem_of_here.
Defined.

(** ** The relocator: nothing staged *)

(** X5: staging subtrees that do not exist are no error.  When neither
    the cache nor the launch subtree of the staging root exists,
    [restoreSBOM] walks both, copies nothing, removes the staging root and
    returns nil: the walk function ignores the error that the walk hands
    it for a root that is missing. *)
Theorem X5_nothing_staged (h : Host) (r : Restorer) (w : World) :
  files (disk w) !! sbomSubdir h r "cache" = None ->
  files (disk w) !! sbomSubdir h r "launch" = None ->
  run (Restorer_restoreSBOM h r) w
  = ({| disk := os_RemoveAll h (sbomDir h r) (disk w);
        trace := (trace w ++ [CallWalk (sbomSubdir h r "cache");
                              CallWalk (sbomSubdir h r "launch");
                              CallRemoveAll (sbomDir h r)])%list |},
     Returned None).
Proof.
  intros Hc Hl.
  destruct (restoreSBOM_run h r w) as (w1 & e1 & Hw1 & _ & Hrest).
  rewrite (Walk_missing h r "cache" _ w Hc) in Hw1. injection Hw1 as <- <-.
  destruct Hrest as (w2 & e2 & Hw2 & _ & Hrun).
  rewrite (Walk_missing h r "launch" _ (log (CallWalk (sbomSubdir h r "cache")) w) Hl)
    in Hw2.
  injection Hw2 as <- <-. rewrite Hrun. unfold sbomCleanup, log. simpl.
  by rewrite <- !app_assoc.
Qed.

Lemma X5_nothing_staged_witness :
  run (Restorer_restoreSBOM sample_host (sample_restorer [sample_bp "bp1" "0.6"] "0.8"))
      {| disk := sample_layers_disk; trace := [] |}
  = ({| disk := os_RemoveAll sample_host "/layers/sbom" sample_layers_disk;
        trace := [CallWalk "/layers/sbom/cache"; CallWalk "/layers/sbom/launch";
                  CallRemoveAll "/layers/sbom"] |},
     Returned None).
Proof.
  apply (X5_nothing_staged sample_host (sample_restorer [sample_bp "bp1" "0.6"] "0.8")
           {| disk := sample_layers_disk; trace := [] |}); reflexivity.
Defined.

(** ** The pattern of staged SBOM files *)

(** X6: what the pattern of [restoreSBOMFunc] finds is in the path.  When
    [FindStringSubmatch] yields the submatches [(a, b, f)] for the staging
    subtree [T], the path is some text, then [T], a separator, [a], a
    separator, [b], a separator and [f], then some text; [a] and [b] are
    not empty, and [f] is [sbom], a non-empty text and [json]. *)
Theorem X6_pattern_sound (sep : ascii) (T path a b f : string) :
  regexp.FindStringSubmatch sep T path = Some (a, b, f) ->
  exists pre x post,
    path = pre +:+ T +:+ String sep (a +:+ String sep (b +:+ String sep (f +:+ post)))
    /\ f = "sbom" +:+ x +:+ "json"
    /\ a <> "" /\ b <> "" /\ x <> "".
Proof.
  unfold regexp.FindStringSubmatch.
  destruct (regexp.find_from sep (list_ascii_of_string T) (list_ascii_of_string path))
    as [[[a' b'] f']|] eqn:Hfind; [|done].
  intros [= <- <- <-].
  apply find_from_sound in Hfind
    as (pre & x & post & Hpath & Hf & Ha & Hb & Hx & _).
  exists (string_of_list_ascii pre), (string_of_list_ascii x), (string_of_list_ascii post).
  split; [|split; [|by repeat split; apply string_of_list_ascii_nonempty]].
  - rewrite <- (string_of_list_ascii_of_string path), Hpath.
    repeat (rewrite string_of_list_ascii_app || rewrite string_of_list_ascii_cons).
    by rewrite string_of_list_ascii_of_string.
  - rewrite Hf, !string_of_list_ascii_app. by rewrite !string_of_list_ascii_of_string.
Qed.

Lemma X6_pattern_sound_witness :
  exists pre x post,
    "/layers/sbom/launch/bp1/layerX/sbom.cdx.json.bak"
    = pre +:+ "launch" +:+ String "/" ("bp1" +:+ String "/" ("layerX" +:+ String "/"
        ("sbom.cdx.json" +:+ post)))
    /\ "sbom.cdx.json" = "sbom" +:+ x +:+ "json"
    /\ "bp1" <> "" /\ "layerX" <> "" /\ x <> "".
Proof.
  apply (X6_pattern_sound "/" "launch" "/layers/sbom/launch/bp1/layerX/sbom.cdx.json.bak"
           "bp1" "layerX" "sbom.cdx.json").
  reflexivity.
Defined.

(** ** The analyze command: which phase restores layer metadata *)

Lemma analyzer_platform_spec (a : analyzer.analyzeCmd) (v : api.Version) :
  api.MustParse (cmd.API (analyzer.platform a)) = Some v ->
  analyzer.platformAPIVersionGreaterThan06 a = Some (at_least_0 7 v)
  /\ analyzer.restoresLayerMetadata a = Some (negb (at_least_0 7 v))
  /\ analyzer.supportsImageArgument a = Some (negb (at_least_0 7 v)).
Proof.
  intros Hv.
  assert (H : analyzer.platformAPIVersionGreaterThan06 a = Some (at_least_0 7 v)).
  { unfold analyzer.platformAPIVersionGreaterThan06.
    by apply (supportsStackValidation_spec (analyzer.stack_view a) v). }
  unfold analyzer.restoresLayerMetadata, analyzer.supportsImageArgument.
  by rewrite H.
Qed.

(** X7: for one platform API, layer metadata is restored by exactly one of
    the two phases: the analyzer restores it ([restoresLayerMetadata] of
    the analyze command) exactly when the restorer does not
    ([restoresLayerMetadata] of [Restorer]), the one below the platform
    API 0.7 and the other from it on. *)
Theorem X7_one_phase_restores_metadata (a : analyzer.analyzeCmd) (r : Restorer) (b : bool) :
  cmd.API (analyzer.platform a) = cmd.API (Platform r) ->
  analyzer.restoresLayerMetadata a = Some b
  <-> Restorer_restoresLayerMetadata r = Some (negb b).
Proof.
  intros Hapi. unfold Restorer_restoresLayerMetadata. rewrite <- Hapi.
  destruct (api.MustParse (cmd.API (analyzer.platform a))) as [v|] eqn:Hv.
  - destruct (analyzer_platform_spec a v Hv) as (_ & -> & _). rewrite AtLeast_07.
    split; intros [= H].
    + by rewrite <- H, negb_involutive.
    + f_equal. by rewrite H, negb_involutive.
  - unfold analyzer.restoresLayerMetadata, analyzer.platformAPIVersionGreaterThan06,
      main.analyzeCmd_platformAPIVersionGreaterThan06. simpl. rewrite Hv. done.
Qed.

Lemma X7_one_phase_restores_metadata_witness :
  analyzer.restoresLayerMetadata (sample_command "0.6" "app") = Some true
  <-> Restorer_restoresLayerMetadata (sample_restorer [] "0.6") = Some (negb true).
Proof.
  apply (X7_one_phase_restores_metadata (sample_command "0.6" "app")
           (sample_restorer [] "0.6") true).
  reflexivity.
Defined.

(** ** The analyze command: flags and arguments *)

(** X8: the image name of the command has one source on every platform
    API: the flag of the previous image is defined exactly where [Args]
    takes no image argument, and it is the only flag bound to the image
    name; the flags of the cache and of the group are defined exactly where
    the analyzer restores layer metadata; no two flags are bound to the
    same field. *)
Theorem X8_flags_by_platform (a : analyzer.analyzeCmd)
  (flags : list (analyzer.Flag * analyzer.Field)) (old : bool) :
  analyzer.DefineFlags a = Some flags ->
  analyzer.supportsImageArgument a = Some old ->
  ((analyzer.FlagPreviousImage, analyzer.field_imageName) ∈ flags <-> old = false)
  /\ (forall f, (f, analyzer.field_imageName) ∈ flags -> f = analyzer.FlagPreviousImage)
  /\ (forall f, f ∈ [analyzer.FlagCacheImage; analyzer.FlagCacheDir;
                     analyzer.FlagGroupPath; analyzer.FlagSkipLayers] ->
        f ∈ flags.*1 <-> analyzer.restoresLayerMetadata a = Some true)
  /\ NoDup flags.*1 /\ NoDup flags.*2.
Proof.
  unfold analyzer.DefineFlags, analyzer.supportsImageArgument,
    analyzer.restoresLayerMetadata.
  destruct (analyzer.platformAPIVersionGreaterThan06 a) as [[|]|]; [| |done];
    intros [= <-] [= <-]; simpl.
  - split; [split; [done | intros _; by apply (bool_decide_unpack _)]|].
    split.
    { intros f Hf. destruct f; try done; by apply (bool_decide_pack _) in Hf. }
    split.
    { intros f Hf. split; [|done]. intros Hin.
      destruct f; try (by apply (bool_decide_pack _) in Hf);
        by apply (bool_decide_pack _) in Hin. }
    split; by apply (bool_decide_unpack _).
  - split; [split; [|done]; intros Hin; by apply (bool_decide_pack _) in Hin|].
    split.
    { intros f Hf. destruct f; try done; by apply (bool_decide_pack _) in Hf. }
    split.
    { intros f Hf. split; [done|]. intros _.
      destruct f; try (by apply (bool_decide_pack _) in Hf);
        by apply (bool_decide_unpack _). }
    split; by apply (bool_decide_unpack _).
Qed.

Lemma X8_flags_by_platform_witness :
  ((analyzer.FlagPreviousImage, analyzer.field_imageName)
     ∈ [(analyzer.FlagAnalyzedPath, analyzer.field_analyzedPath);
        (analyzer.FlagLayersDir, analyzer.field_layersDir);
        (analyzer.FlagCacheImage, analyzer.field_cacheImageTag);
        (analyzer.FlagCacheDir, analyzer.field_cacheDir);
        (analyzer.FlagGroupPath, analyzer.field_groupPath);
        (analyzer.FlagSkipLayers, analyzer.field_skipLayers);
        (analyzer.FlagUseDaemon, analyzer.field_useDaemon);
        (analyzer.FlagUID, analyzer.field_uid);
        (analyzer.FlagGID, analyzer.field_gid)] <-> true = false).
Proof.
  apply (X8_flags_by_platform (sample_command "0.6" "") _ true); reflexivity.
Defined.

(** The arguments that [Args] accepts on a platform API that takes the
    image as an argument ([old]) or does not. *)
Lemma Args_image (env : analyzer.Env) (a : analyzer.analyzeCmd) (args : list string)
  (tr : list analyzer.Call) (old : bool) :
  analyzer.supportsImageArgument a = Some old ->
  let s := {| analyzer.self := a; analyzer.calls := tr |} in
  let out := run (analyzer.Args env (Z.of_nat (length args)) args) s in
  match old, args with
  | true, [x] =>
      if bool_decide (x = "")
      then out = (s, Returned (analyzer.invalid_args
                                 (errors_New "image argument is required")))
      else out.2 = Returned None /\ analyzer.imageName (analyzer.self out.1) = x
           /\ analyzer.calls out.1 = (tr ++ Args_warning a)%list
  | true, _ =>
      out = (s, Returned (analyzer.invalid_args
                            (errors_New (Sprintf_d "received %d arguments, but expected 1"
                                                   [Z.of_nat (length args)]))))
  | false, [] =>
      out.2 = Returned None
      /\ analyzer.imageName (analyzer.self out.1) = analyzer.imageName a
      /\ analyzer.calls out.1
         = (tr ++ if old then Args_warning a else [])%list
  | false, _ =>
      out = (s, Returned (analyzer.invalid_args
                            (errors_New "received unexpected arguments")))
  end.
Proof.
  intros Hsup s out. subst out s.
  assert (Hres : analyzer.restoresLayerMetadata a = Some old) by exact Hsup.
  assert (Himg : forall x, analyzer.restoresLayerMetadata (analyzer.set_imageName x a)
                           = Some old) by (intros x; exact Hsup).
  unfold analyzer.Args.
  cbv beta iota zeta delta [run bind ret return_ must panic modify analyzer.this
    analyzer.assign analyzer.call_out fst snd analyzer.self analyzer.calls].
  rewrite Hsup. cbv beta iota.
  destruct old.
  - destruct args as [|x [|y args]].
    + reflexivity.
    + change (Z.of_nat (length [x])) with 1%Z.
      rewrite (bool_decide_eq_false_2 (1%Z <> 1%Z)) by (intros H; by apply H).
      cbn [lookup list_lookup]. cbv beta iota.
      case_bool_decide as Hx; [reflexivity|].
      rewrite Himg. cbv beta iota. unfold Args_warning.
      cbn [analyzer.set_imageName analyzer.platform06 analyzer.cacheImageTag
           analyzer.cacheDir analyzer.analyzedPath analyzer.orderPath analyzer.layersDir
           analyzer.platform analyzer.groupPath].
      repeat (match goal with
              | |- context [bool_decide ?P] => destruct (bool_decide P)
              end; simpl);
        by rewrite ?app_nil_r.
    + rewrite bool_decide_eq_true_2; [reflexivity|]. cbn [length]. lia.
  - destruct args as [|x args].
    + change (Z.of_nat (length (@nil string))) with 0%Z.
      rewrite (bool_decide_eq_false_2 (0%Z <> 0%Z)) by (intros H; by apply H).
      rewrite Hres. cbv beta iota.
      repeat (match goal with
              | |- context [bool_decide ?P] => destruct (bool_decide P)
              end; simpl);
        by rewrite ?app_nil_r.
    + rewrite bool_decide_eq_true_2; [reflexivity|]. cbn [length]. lia.
Qed.

(** X9: [Args], called with the arguments of the command line and their
    number, accepts exactly one non-empty argument where the platform API
    takes the image as an argument (below 0.7) and no argument elsewhere.
    It then returns nil, and the image name of the command is the argument
    on the one side and what it was on the other; every other command line
    is refused with an error of the code for invalid arguments, and the
    command is left as it was. *)
Theorem X9_Args_image_argument (env : analyzer.Env) (a : analyzer.analyzeCmd)
  (args : list string) (tr : list analyzer.Call) (old : bool) :
  analyzer.supportsImageArgument a = Some old ->
  let s := {| analyzer.self := a; analyzer.calls := tr |} in
  let out := run (analyzer.Args env (Z.of_nat (length args)) args) s in
  let accepted := if old then exists x, args = [x] /\ x <> "" else args = [] in
  (accepted ->
     out.2 = Returned None
     /\ analyzer.imageName (analyzer.self out.1)
        = if old then List.hd "" args else analyzer.imageName a)
  /\ (~ accepted ->
      exists err,
        out = (s, Returned (Some (cmd_FailErrCode err CodeInvalidArgs "parse arguments")))).
Proof.
  intros Hsup s out accepted.
  pose proof (Args_image env a args tr old Hsup) as H. cbv zeta in H.
  fold s in H. fold out in H. subst accepted.
  destruct old.
  - destruct args as [|x [|y args]].
    + split; [by intros (x & Hx & _)|]. intros _. by eexists.
    + case_bool_decide as Hx.
      * split; [intros (x' & [= <-] & Hne); done|]. intros _. by eexists.
      * destruct H as (H1 & H2 & _). split; [done|]. intros Hn. destruct Hn. by exists x.
    + split; [by intros (x' & Hx & _)|]. intros _. by eexists.
  - destruct args as [|x args].
    + destruct H as (H1 & H2 & _). split; [done|]. by intros Hn.
    + split; [done|]. intros _. by eexists.
Qed.

Lemma X9_Args_image_argument_witness :
  let out := run (analyzer.Args sample_command_env 1 ["app"])
                 {| analyzer.self := sample_command "0.6" ""; analyzer.calls := [] |} in
  out.2 = Returned None /\ analyzer.imageName (analyzer.self out.1) = "app".
Proof.
  destruct (X9_Args_image_argument sample_command_env (sample_command "0.6" "") ["app"]
              [] true) as [Hacc _]; [reflexivity|].
  apply Hacc. by exists "app".
Defined.

(** X10: [Args] warns that cached layer metadata is not restored exactly
    when it accepts the command line on a platform API on which the
    analyzer restores layer metadata and neither a cache image nor a cache
    directory is given; the warning is the only call [Args] ever makes, and
    it does not keep [Args] from returning nil. *)
Theorem X10_Args_warning (env : analyzer.Env) (a : analyzer.analyzeCmd)
  (args : list string) (tr : list analyzer.Call) (old : bool) :
  analyzer.supportsImageArgument a = Some old ->
  let out := run (analyzer.Args env (Z.of_nat (length args)) args)
                 {| analyzer.self := a; analyzer.calls := tr |} in
  let warning :=
    analyzer.Warn "Not restoring cached layer metadata, no cache flag specified." in
  let warned :=
    out.2 = Returned None /\ old = true
    /\ analyzer.cacheImageTag (analyzer.platform06 a) = ""
    /\ analyzer.cacheDir (analyzer.platform06 a) = "" in
  (warned -> analyzer.calls out.1 = (tr ++ [warning])%list)
  /\ (~ warned -> analyzer.calls out.1 = tr).
Proof.
  intros Hsup out warning warned.
  pose proof (Args_image env a args tr old Hsup) as H. cbv zeta in H. fold out in H.
  assert (Hwarn : Args_warning a
                  = if bool_decide (analyzer.cacheImageTag (analyzer.platform06 a) = ""
                                    /\ analyzer.cacheDir (analyzer.platform06 a) = "")
                    then [warning] else []).
  { unfold Args_warning. do 3 case_bool_decide; simpl; try done; tauto. }
  subst warned.
  assert (Hfail : forall e, e <> Returned None ->
            out = ({| analyzer.self := a; analyzer.calls := tr |}, e) ->
            (out.2 = Returned None /\ old = true
             /\ analyzer.cacheImageTag (analyzer.platform06 a) = ""
             /\ analyzer.cacheDir (analyzer.platform06 a) = ""
             -> analyzer.calls out.1 = (tr ++ [warning])%list)
            /\ (~ (out.2 = Returned None /\ old = true
                   /\ analyzer.cacheImageTag (analyzer.platform06 a) = ""
                   /\ analyzer.cacheDir (analyzer.platform06 a) = "")
                -> analyzer.calls out.1 = tr)).
  { intros e He ->. simpl. split; [by intros [Hr _] | done]. }
  assert (Hok : out.2 = Returned None ->
                analyzer.calls out.1 = (tr ++ if old then Args_warning a else [])%list ->
            (out.2 = Returned None /\ old = true
             /\ analyzer.cacheImageTag (analyzer.platform06 a) = ""
             /\ analyzer.cacheDir (analyzer.platform06 a) = ""
             -> analyzer.calls out.1 = (tr ++ [warning])%list)
            /\ (~ (out.2 = Returned None /\ old = true
                   /\ analyzer.cacheImageTag (analyzer.platform06 a) = ""
                   /\ analyzer.cacheDir (analyzer.platform06 a) = "")
                -> analyzer.calls out.1 = tr)).
  { intros Hr Hc. rewrite Hc. destruct old.
    - rewrite Hwarn.
      destruct (decide (analyzer.cacheImageTag (analyzer.platform06 a) = ""
                        /\ analyzer.cacheDir (analyzer.platform06 a) = "")) as [Hw|Hw].
      + rewrite bool_decide_eq_true_2 by done. split; [done|]. intros Hn. by destruct Hn.
      + rewrite bool_decide_eq_false_2 by done. rewrite app_nil_r.
        split; [|done]. intros (_ & _ & Ht & Hd). by destruct Hw.
    - rewrite app_nil_r. split; [by intros (_ & ? & _) | done]. }
  destruct old.
  - destruct args as [|x [|y args]];
      [refine (Hfail _ _ H); done| |refine (Hfail _ _ H); done].
    destruct (bool_decide (x = "")); [refine (Hfail _ _ H); done|].
    destruct H as (Hr & _ & Hc). by apply Hok.
  - destruct args as [|x args]; [|refine (Hfail _ _ H); done].
    destruct H as (Hr & _ & Hc). by apply Hok.
Qed.

Lemma X10_Args_warning_witness :
  analyzer.calls
    (run (analyzer.Args sample_command_env 1 ["app"])
         {| analyzer.self := sample_command "0.6" ""; analyzer.calls := [] |}).1
  = [analyzer.Warn "Not restoring cached layer metadata, no cache flag specified."].
Proof.
  destruct (X10_Args_warning sample_command_env (sample_command "0.6" "") ["app"]
              [] true) as [Hwarned _]; [reflexivity|].
  apply Hwarned. repeat split.
Defined.

(** ** The analyze command: privileges *)

Lemma Privileges_run (env : analyzer.Env) (a : analyzer.analyzeCmd)
  (tr : list analyzer.Call) :
  let out := run (analyzer.Privileges env) {| analyzer.self := a; analyzer.calls := tr |} in
  analyzer.calls out.1 = (tr ++ Privileges_calls env a)%list
  /\ (out.2 = Returned None
      <-> privileged_ok env a
          /\ analyzer.priv_RunAs env (analyzer.uid a) (analyzer.gid a) = None).
Proof.
  unfold analyzer.Privileges, Privileges_calls, privileged_ok.
  cbv beta iota zeta delta [run bind ret return_ must panic modify analyzer.this
    analyzer.assign analyzer.call_out fst snd analyzer.self analyzer.calls].
  destruct (analyzer.auth_DefaultKeychain env (analyzer.registryImages a)) as [kc [e1|]];
    cbn [fst snd analyzer.self analyzer.calls].
  { split; [by rewrite <- ?app_assoc|]. split; [done | by intros [[? _] _]]. }
  cbn [analyzer.set_keychain analyzer.useDaemon].
  destruct (analyzer.useDaemon a) eqn:Hd.
  - destruct (analyzer.priv_DockerClient env) as [dc [e2|]];
      cbn [fst snd analyzer.self analyzer.calls].
    { split; [by rewrite <- ?app_assoc|]. split; [done|]. intros [(_ & H & _) _].
      by specialize (H eq_refl). }
    cbn [analyzer.set_docker analyzer.set_keychain analyzer.uid analyzer.gid
         analyzer.layersDir analyzer.platform06].
    destruct (analyzer.priv_EnsureOwner env (analyzer.uid a) (analyzer.gid a) _) as [e3|];
      cbn [fst snd analyzer.self analyzer.calls].
    { split; [by rewrite <- ?app_assoc|]. split; [done | by intros [(_ & _ & ?) _]]. }
    destruct (analyzer.priv_RunAs env (analyzer.uid a) (analyzer.gid a)) as [e4|];
      cbn [fst snd analyzer.self analyzer.calls].
    + split; [by rewrite <- ?app_assoc|]. split; [done | by intros [_ ?]].
    + split; [by rewrite <- ?app_assoc|]. done.
  - cbn [analyzer.set_docker analyzer.set_keychain analyzer.uid analyzer.gid
         analyzer.layersDir analyzer.platform06].
    destruct (analyzer.priv_EnsureOwner env (analyzer.uid a) (analyzer.gid a) _) as [e3|];
      cbn [fst snd analyzer.self analyzer.calls].
    { split; [by rewrite <- ?app_assoc|]. split; [done | by intros [(_ & _ & ?) _]]. }
    destruct (analyzer.priv_RunAs env (analyzer.uid a) (analyzer.gid a)) as [e4|];
      cbn [fst snd analyzer.self analyzer.calls].
    + split; [by rewrite <- ?app_assoc|]. split; [done | by intros [_ ?]].
    + split; [by rewrite <- ?app_assoc|]. done.
Qed.

(** X11: [Privileges] drops privileges last, and only when all that needs
    them has succeeded.  [RunAs] is called exactly when the keychain was
    resolved, the docker client was made (if the daemon is used) and the
    volumes were given to the user; it is then the last call, for the user
    and group of the command; and [Privileges] returns nil exactly when
    [RunAs] was called and succeeded. *)
Theorem X11_privileges_dropped_last (env : analyzer.Env) (a : analyzer.analyzeCmd)
  (tr : list analyzer.Call) :
  let out := run (analyzer.Privileges env) {| analyzer.self := a; analyzer.calls := tr |} in
  exists evs,
    analyzer.calls out.1 = (tr ++ evs)%list
    /\ ((exists u g, analyzer.CallRunAs u g ∈ evs) <-> privileged_ok env a)
    /\ (forall u g, analyzer.CallRunAs u g ∈ evs ->
          List.last evs (analyzer.Warn "")
          = analyzer.CallRunAs (analyzer.uid a) (analyzer.gid a))
    /\ (out.2 = Returned None
        <-> (exists u g, analyzer.CallRunAs u g ∈ evs)
            /\ analyzer.priv_RunAs env (analyzer.uid a) (analyzer.gid a) = None).
Proof.
  intros out. destruct (Privileges_run env a tr) as [Hcalls Hres]. fold out in Hcalls, Hres.
  exists (Privileges_calls env a). split; [exact Hcalls|].
  assert (Hrun : ((exists u g, analyzer.CallRunAs u g ∈ Privileges_calls env a)
                  <-> privileged_ok env a)
                 /\ (forall u g, analyzer.CallRunAs u g ∈ Privileges_calls env a ->
                       List.last (Privileges_calls env a) (analyzer.Warn "")
                       = analyzer.CallRunAs (analyzer.uid a) (analyzer.gid a))).
  { unfold Privileges_calls, privileged_ok.
    destruct (analyzer.auth_DefaultKeychain env (analyzer.registryImages a)) as [kc [e1|]];
      cbn [fst snd].
    { split; [split|].
      - intros (u & g & Hin). apply elem_of_cons in Hin as [Hin|Hin]; [done|].
        by apply elem_of_nil in Hin.
      - by intros [? _].
      - intros u g Hin. apply elem_of_cons in Hin as [Hin|Hin]; [done|].
        by apply elem_of_nil in Hin. }
    destruct (analyzer.useDaemon a);
      [destruct (analyzer.priv_DockerClient env) as [dc [e2|]]; cbn [fst snd]|];
      try destruct (analyzer.priv_EnsureOwner env _ _ _) as [e3|];
      cbn [app];
      (split; [split; [intros (u & g & Hin) | intros (H1 & H2 & H3)] | intros u g Hin]);
      first
        [ by repeat (apply elem_of_cons in Hin as [Hin|Hin]; [discriminate Hin|]);
             apply elem_of_nil in Hin
        | by specialize (H2 eq_refl)
        | discriminate H3
        | reflexivity
        | by repeat split
        | eexists _, _;
          repeat (first [apply list_elem_of_here | apply list_elem_of_further]) ]. }
  destruct Hrun as [Hiff Hlast]. split; [exact Hiff|]. split; [exact Hlast|].
  rewrite Hres. by rewrite Hiff.
Qed.

(** ** The analyze command: the analysis *)

(** The outcomes of [analyze]: it never panics and leaves the command as it
    is; with no name no image is opened; a failed opening ends it. *)
Lemma analyze_run (env : analyzer.Env) (aa : analyzer.analyzeCmd) (s : analyzer.State) :
  let an img :=
    {| analyzer.Analyzer_Buildpacks := analyzer.group (analyzer.platform06 aa);
       analyzer.Analyzer_Cache := analyzer.cache (analyzer.platform06 aa);
       analyzer.Analyzer_Platform := analyzer.platform aa;
       analyzer.Analyzer_Image := img;
       analyzer.Analyzer_layersDir := analyzer.layersDir aa;
       analyzer.Analyzer_skipLayers := analyzer.skipLayers (analyzer.platform06 aa) |} in
  let finish img :=
    match (analyzer.Analyzer_Analyze env (an img)).2 with
    | Some err =>
        (analyzer.AnalyzedMetadata_zero,
         Some (cmd_FailErrCode err (analyzer.CodeFor_AnalyzeError env (analyzer.platform aa))
                               "analyzer"))
    | None => ((analyzer.Analyzer_Analyze env (an img)).1, None)
    end in
  run (analyzer.analyze env aa) s
  = if bool_decide (analyzer.imageName aa <> "")
    then match (open_previous env aa).2 with
         | (_, Some err) =>
             ({| analyzer.self := analyzer.self s;
                 analyzer.calls := (analyzer.calls s ++ [(open_previous env aa).1])%list |},
              Returned (analyzer.AnalyzedMetadata_zero,
                        Some (cmd_FailErr err "get previous image")))
         | (img, None) =>
             ({| analyzer.self := analyzer.self s;
                 analyzer.calls := (analyzer.calls s
                                    ++ [(open_previous env aa).1; analyzer.CallAnalyze (an img)])%list |},
              Returned (finish img))
         end
    else ({| analyzer.self := analyzer.self s;
             analyzer.calls := (analyzer.calls s ++ [analyzer.CallAnalyze (an None)])%list |},
          Returned (finish None)).
Proof.
  intros an finish. subst an finish. unfold analyzer.analyze, open_previous.
  cbv beta iota zeta delta [run bind ret return_ must panic modify analyzer.this
    analyzer.assign analyzer.call_out fst snd analyzer.self analyzer.calls].
  destruct s as [a0 tr]. cbn [analyzer.self analyzer.calls].
  case_bool_decide as Hname.
  - destruct (analyzer.useDaemon aa).
    + destruct (main.local_NewImage _ _) as [img [e|]]; cbn [fst snd]; [reflexivity|].
      destruct (analyzer.Analyzer_Analyze env _) as [md [e|]]; cbn [fst snd];
        by rewrite <- app_assoc.
    + destruct (main.remote_NewImage _ _) as [img [e|]]; cbn [fst snd]; [reflexivity|].
      destruct (analyzer.Analyzer_Analyze env _) as [md [e|]]; cbn [fst snd];
        by rewrite <- app_assoc.
  - destruct (analyzer.Analyzer_Analyze env _) as [md [e|]]; reflexivity.
Qed.

(** X12: [analyze] opens the previous image only when the command names
    one, from the daemon if the daemon is used and from the registry
    otherwise.  The analyzer is run with the image that was opened, with no
    image when none is named, and not at all when the opening failed.  The
    command is left as it is, and with an error the metadata returned is
    empty; without one it is what the analyzer gave. *)
Theorem X12_analyze_previous_image (env : analyzer.Env) (aa : analyzer.analyzeCmd)
  (s : analyzer.State) :
  let out := run (analyzer.analyze env aa) s in
  analyzer.self out.1 = analyzer.self s
  /\ exists evs,
       analyzer.calls out.1 = (analyzer.calls s ++ evs)%list
       /\ (forall c, c ∈ evs -> image_call c ->
             analyzer.imageName aa <> "" /\ c = (open_previous env aa).1)
       /\ (forall an, analyzer.CallAnalyze an ∈ evs ->
             if bool_decide (analyzer.imageName aa <> "")
             then (open_previous env aa).2 = (analyzer.Analyzer_Image an, None)
             else analyzer.Analyzer_Image an = None)
       /\ (forall md e, out.2 = Returned (md, Some e) ->
             md = analyzer.AnalyzedMetadata_zero)
       /\ (forall md, out.2 = Returned (md, None) ->
             exists pre an, evs = (pre ++ [analyzer.CallAnalyze an])%list
                            /\ analyzer.Analyzer_Analyze env an = (md, None)).
Proof.
  intros out. subst out. rewrite analyze_run.
  case_bool_decide as Hname.
  - destruct (open_previous env aa) as [c0 [img [e0|]]] eqn:Hopen; cbn [fst snd].
    + split; [reflexivity|]. eexists. split; [reflexivity|].
      split; [|split; [|split]].
      * intros c Hc _. apply list_elem_of_singleton in Hc. done.
      * intros an Han. apply list_elem_of_singleton in Han. subst c0.
        unfold open_previous in Hopen. by destruct (analyzer.useDaemon aa).
      * intros md e Hout. by injection Hout as <- _.
      * intros md Hout. discriminate Hout.
    + split; [reflexivity|]. eexists. split; [reflexivity|].
      split; [|split; [|split]].
      * intros c Hc Himg. apply elem_of_cons in Hc as [->|Hc]; [done|].
        apply list_elem_of_singleton in Hc. subst c. destruct Himg.
      * intros an Han. apply elem_of_cons in Han as [Heq|Han].
        { subst c0. unfold open_previous in Hopen. by destruct (analyzer.useDaemon aa). }
        apply list_elem_of_singleton in Han. by injection Han as ->.
      * intros md e Hout.
        destruct (analyzer.Analyzer_Analyze env _) as [md0 [e1|]]; cbn [fst snd] in Hout;
          [by injection Hout as <- _ | discriminate Hout].
      * intros md Hout. exists [c0]. eexists. split; [reflexivity|].
        destruct (analyzer.Analyzer_Analyze env _) as [md0 [e1|]]; cbn [fst snd] in Hout;
          [discriminate Hout | by injection Hout as <-].
  - cbn [fst snd]. split; [reflexivity|]. eexists. split; [reflexivity|].
    split; [|split; [|split]].
    + intros c Hc Himg. apply list_elem_of_singleton in Hc. subst c. destruct Himg.
    + intros an Han. apply list_elem_of_singleton in Han. by injection Han as ->.
    + intros md e Hout.
      destruct (analyzer.Analyzer_Analyze env _) as [md0 [e1|]]; cbn [fst snd] in Hout;
        [by injection Hout as <- _ | discriminate Hout].
    + intros md Hout. exists []. eexists. split; [reflexivity|].
      destruct (analyzer.Analyzer_Analyze env _) as [md0 [e1|]]; cbn [fst snd] in Hout;
        [discriminate Hout | by injection Hout as <-].
Qed.

(** ** The analyze command: execution *)

Lemma call_validateStack {R'} (env : analyzer.Env) (s : analyzer.State) :
  call (R' := R') (analyzer.validateStack env) s
  = let r := run (main.analyzeCmd_validateStack (analyzer.stack_env env)
                    (analyzer.stack_view (analyzer.self s))) [] in
    ({| analyzer.self := analyzer.self s;
        analyzer.calls := (analyzer.calls s ++ map analyzer.CallStack r.1)%list |},
     match r.2 with Returned e => Next e | Panicked => Panic end).
Proof.
  unfold call, analyzer.validateStack. unfold run at 1.
  destruct (run (main.analyzeCmd_validateStack _ _) []) as [evs [e|]]; reflexivity.
Qed.

Lemma call_analyze {R'} (env : analyzer.Env) (aa : analyzer.analyzeCmd)
  (s : analyzer.State) :
  exists evs r,
    call (R' := R') (analyzer.analyze env aa) s
    = ({| analyzer.self := analyzer.self s;
          analyzer.calls := (analyzer.calls s ++ evs)%list |}, Next r)
    /\ Forall (fun c => ~ write_call c /\ ~ group_call c /\ ~ stack_call c
                         /\ analysis_with aa c) evs
    /\ (r.2 = None ->
        exists pre an, evs = (pre ++ [analyzer.CallAnalyze an])%list
                       /\ analyzer.Analyzer_Analyze env an = (r.1, None)).
Proof.
  unfold call. rewrite analyze_run.
  assert (Hopen : let c := (open_previous env aa).1 in
                  ~ write_call c /\ ~ group_call c /\ ~ stack_call c
                  /\ analysis_with aa c).
  { unfold open_previous. destruct (analyzer.useDaemon aa); simpl; tauto. }
  case_bool_decide as Hname.
  - destruct (open_previous env aa) as [c0 [img [e0|]]]; cbn [fst snd] in *.
    + eexists _, _. split; [reflexivity|]. split; [|done].
      by apply Forall_cons_2; [|apply Forall_nil_2].
    + eexists _, _. split; [reflexivity|]. split.
      * apply Forall_cons_2; [done|]. apply Forall_cons_2; [|apply Forall_nil_2].
        simpl; tauto.
      * intros Hok. exists [c0]. eexists. split; [reflexivity|].
        destruct (analyzer.Analyzer_Analyze env _) as [md0 [e1|]]; cbn [fst snd] in *;
          [discriminate Hok | reflexivity].
  - eexists _, _. split; [reflexivity|]. split.
    + apply Forall_cons_2; [|apply Forall_nil_2]. simpl; tauto.
    + intros Hok. exists []. eexists. split; [reflexivity|].
      destruct (analyzer.Analyzer_Analyze env _) as [md0 [e1|]]; cbn [fst snd] in *;
        [discriminate Hok | reflexivity].
Qed.

Ltac calls_eq :=
  first [ by rewrite app_nil_r | by rewrite <- ?app_assoc ].

Ltac no_such_call :=
  repeat first
    [ apply Forall_nil_2
    | apply Forall_cons_2
    | apply Forall_app_2
    | assumption
    | (eapply Forall_impl; [eassumption | intros ? ?; simpl in *; tauto])
    | (apply Forall_map, Forall_true; intros ?; simpl; tauto)
    | (simpl; tauto) ].

Ltac stops_early :=
  eexists; split; [calls_eq | left; split; [no_such_call | discriminate]].

Ltac init_of l :=
  match l with
  | (?x ++ [_] ++ [_])%list => constr:(x)
  | (?x ++ ?r)%list => let r' := init_of r in constr:((x ++ r')%list)
  end.

(** The steps of [Exec] from the order file on. *)
Ltac exec_tail env a vs Hvs :=
  rewrite call_validateStack; cbn [analyzer.self analyzer.calls]; cbv zeta;
  try change (analyzer.stack_view (analyzer.set_platform06 _ _))
        with (analyzer.stack_view a);
  rewrite <- Hvs;
  let sevs := fresh "sevs" in
  let e := fresh "e" in
  destruct vs as [sevs [[e|]|]]; cbn [fst snd]; [stops_early| |stops_early];
  let aevs := fresh "aevs" in
  let md := fresh "md" in
  let Haevs := fresh "Haevs" in
  let Hlast := fresh "Hlast" in
  match goal with |- context [call (analyzer.analyze env ?aa) ?st] =>
    destruct (call_analyze (R' := option error) env aa st)
      as (aevs & [md [e|]] & -> & Haevs & Hlast)
  end; cbn [analyzer.self analyzer.calls fst snd] in *; [stops_early|];
  let pre := fresh "pre" in
  let an := fresh "an" in
  let Han := fresh "Han" in
  destruct (Hlast eq_refl) as (pre & an & -> & Han);
  apply Forall_app in Haevs as [Haevs _];
  eexists; split;
  [ destruct (analyzer.lifecycle_WriteTOML env _ md); calls_eq |];
  right;
  match goal with |- exists p n m, ?E = _ /\ _ =>
    let p0 := init_of E in exists p0, an, md
  end;
  split; [by rewrite <- ?app_assoc|];
  split; [no_such_call|];
  split; [exact Han|];
  split; [reflexivity|];
  by destruct (analyzer.lifecycle_WriteTOML env _ md).

(** X13: [Exec] writes the analyzed metadata last, and only what the
    analyzer gave.  Either it stops, with an error or a panic, before
    anything is written; or its last two calls are the analysis, which
    succeeded, and the writing of its result to the analyzed path of the
    command, after the validation of the stack returned nil, and the result
    of [Exec] is that of the writing. *)
Theorem X13_analyzed_written_last (env : analyzer.Env) (a : analyzer.analyzeCmd)
  (tr : list analyzer.Call) :
  let out := run (analyzer.Exec env) {| analyzer.self := a; analyzer.calls := tr |} in
  exists evs,
    analyzer.calls out.1 = (tr ++ evs)%list
    /\ ((Forall (fun c => ~ write_call c) evs /\ out.2 <> Returned None)
        \/ (exists pre an md,
              evs = (pre ++ [analyzer.CallAnalyze an;
                             analyzer.CallWriteTOML (analyzer.analyzedPath a) md])%list
              /\ Forall (fun c => ~ write_call c) pre
              /\ analyzer.Analyzer_Analyze env an = (md, None)
              /\ (run (main.analyzeCmd_validateStack (analyzer.stack_env env)
                         (analyzer.stack_view a)) []).2 = Returned None
              /\ out.2 = Returned
                   (match analyzer.lifecycle_WriteTOML env (analyzer.analyzedPath a) md with
                    | Some err => Some (errors_Wrap err "write analyzed.toml")
                    | None => None
                    end))).
Proof.
  intros out. subst out.
  remember (run (main.analyzeCmd_validateStack (analyzer.stack_env env)
                   (analyzer.stack_view a)) []) as vs eqn:Hvs.
  unfold analyzer.Exec.
  cbv beta iota zeta delta [run bind ret return_ must panic modify analyzer.this
    analyzer.assign analyzer.call_out fst snd analyzer.self analyzer.calls].
  destruct (analyzer.restoresLayerMetadata a) as [[|]|] eqn:Hres.
  - destruct (analyzer.lifecycle_ReadGroup env _) as [grp [e1|]]; [stops_early|].
    destruct (analyzer.verifyBuildpackApis env grp) as [e2|]; [stops_early|].
    destruct (analyzer.initCache env _ _ _) as [cacheStore [e3|]]; [stops_early|].
    cbn [analyzer.orderPath analyzer.set_platform06 analyzer.platform06
         analyzer.analyzedPath].
    case_bool_decide as Horder.
    + destruct (analyzer.lifecycle_ReadOrder env _) as [e4|]; [stops_early|].
      exec_tail env a vs Hvs.
    + exec_tail env a vs Hvs.
  - case_bool_decide as Horder.
    + destruct (analyzer.lifecycle_ReadOrder env _) as [e4|]; [stops_early|].
      exec_tail env a vs Hvs.
    + exec_tail env a vs Hvs.
  - stops_early.
Qed.

Lemma validateStack_not_supported (env : main.AnalyzerEnv) (a : main.analyzeCmd)
  (tr : list main.AnalyzerEvent) :
  main.analyzeCmd_supportsStackValidation a = Some false ->
  run (main.analyzeCmd_validateStack env a) tr = (tr, Returned None).
Proof.
  intros Hsup. unfold main.analyzeCmd_validateStack, run, bind, must.
  by rewrite Hsup.
Qed.

Lemma analyses_with (P : analyzer.Analyzer -> Prop) (evs : list analyzer.Call) :
  Forall (fun c => match c with analyzer.CallAnalyze an => P an | _ => True end) evs ->
  forall an, analyzer.CallAnalyze an ∈ evs -> P an.
Proof.
  intros Hall an Hin. rewrite Forall_forall in Hall. exact (Hall _ Hin).
Qed.

Ltac such_calls :=
  repeat first
    [ apply Forall_nil_2
    | apply Forall_cons_2
    | apply Forall_app_2
    | (eapply Forall_impl; [eassumption | intros [] ?; simpl in *; tauto])
    | (eapply Forall_impl; [eassumption | intros [] ?; simpl in *; intuition congruence])
    | (apply Forall_map, Forall_true; intros ?; simpl; tauto)
    | (simpl; tauto) ].

(** The steps of [Exec] from the order file on: [vtac] settles the
    validation of the stack, [tac] the property of the calls. *)
Ltac exec_calls env a vtac tac :=
  rewrite call_validateStack; cbn [analyzer.self analyzer.calls]; cbv zeta;
  try change (analyzer.stack_view (analyzer.set_platform06 _ _))
        with (analyzer.stack_view a);
  vtac; cbn [fst snd map];
  first
    [ let aevs := fresh "aevs" in
      let md := fresh "md" in
      let e := fresh "e" in
      let Haevs := fresh "Haevs" in
      match goal with |- context [call (analyzer.analyze env ?aa) ?st] =>
        destruct (call_analyze (R' := option error) env aa st)
          as (aevs & [md [e|]] & -> & Haevs & _)
      end;
      cbn [analyzer.self analyzer.calls analyzer.set_platform06 analyzer.platform06
           analyzer.set_cache analyzer.set_group analyzer.group analyzer.cache
           fst snd] in *;
      [tac | destruct (analyzer.lifecycle_WriteTOML env _ md); tac]
    | tac ].

(** X14: [Exec] reads the group and the cache, or validates the stack,
    never both.  From platform API 0.7 on it makes no call for the group
    or the cache, leaves the command as it is, and the analyzer is given
    the group and the cache of the command.  Before 0.7 it makes no call
    of the stack validation, and the analyzer is given the group read from
    the group path and the cache that [initCache] made. *)
Theorem X14_group_or_stack (env : analyzer.Env) (a : analyzer.analyzeCmd)
  (tr : list analyzer.Call) (v : api.Version) :
  api.MustParse (cmd.API (analyzer.platform a)) = Some v ->
  let out := run (analyzer.Exec env) {| analyzer.self := a; analyzer.calls := tr |} in
  exists evs,
    analyzer.calls out.1 = (tr ++ evs)%list
    /\ if at_least_0 7 v
       then analyzer.self out.1 = a
            /\ Forall (fun c => ~ group_call c) evs
            /\ (forall an, analyzer.CallAnalyze an ∈ evs ->
                  analyzer.Analyzer_Buildpacks an = analyzer.group (analyzer.platform06 a)
                  /\ analyzer.Analyzer_Cache an = analyzer.cache (analyzer.platform06 a))
       else Forall (fun c => ~ stack_call c) evs
            /\ (forall an, analyzer.CallAnalyze an ∈ evs ->
                  analyzer.Analyzer_Buildpacks an
                  = (analyzer.lifecycle_ReadGroup env
                       (analyzer.groupPath (analyzer.platform06 a))).1
                  /\ analyzer.Analyzer_Cache an
                     = (analyzer.initCache env
                          (analyzer.cacheImageTag (analyzer.platform06 a))
                          (analyzer.cacheDir (analyzer.platform06 a))
                          (analyzer.keychain a)).1).
Proof.
  intros Hv out. subst out.
  destruct (analyzer_platform_spec a v Hv) as (_ & Hres & _).
  pose proof (supportsStackValidation_spec (analyzer.stack_view a) v Hv) as Hsup.
  remember (run (main.analyzeCmd_validateStack (analyzer.stack_env env)
                   (analyzer.stack_view a)) []) as vs eqn:Hvs.
  unfold analyzer.Exec.
  cbv beta iota zeta delta [run bind ret return_ must panic modify analyzer.this
    analyzer.assign analyzer.call_out fst snd analyzer.self analyzer.calls].
  rewrite Hres. cbv beta iota.
  destruct (at_least_0 7 v); cbn [negb]; cbv beta iota.
  - case_bool_decide as Horder;
      [destruct (analyzer.lifecycle_ReadOrder env _) as [e4|]|].
    2, 3: exec_calls env a
           ltac:(rewrite <- Hvs; destruct vs as [sevs [[e|]|]])
           ltac:(eexists; split; [calls_eq|];
                 split; [reflexivity|]; split; [such_calls|];
                 apply analyses_with; such_calls).
    eexists; split; [calls_eq|]. split; [reflexivity|]. split; [such_calls|].
    apply analyses_with. such_calls.
  - clear Hvs vs.
    destruct (analyzer.lifecycle_ReadGroup env _) as [grp [e1|]]; cbn [fst snd].
    { eexists; split; [calls_eq|]. split; [such_calls|]. apply analyses_with. such_calls. }
    destruct (analyzer.verifyBuildpackApis env grp) as [e2|].
    { eexists; split; [calls_eq|]. split; [such_calls|]. apply analyses_with. such_calls. }
    destruct (analyzer.initCache env _ _ _) as [cacheStore [e3|]]; cbn [fst snd].
    { eexists; split; [calls_eq|]. split; [such_calls|]. apply analyses_with. such_calls. }
    cbn [analyzer.orderPath analyzer.set_platform06 analyzer.platform06
         analyzer.analyzedPath].
    case_bool_decide as Horder;
      [destruct (analyzer.lifecycle_ReadOrder env _) as [e4|]|].
    2, 3: exec_calls env a
           ltac:(rewrite (validateStack_not_supported _ _ [] Hsup))
           ltac:(eexists; split; [calls_eq|]; split; [such_calls|];
                 apply analyses_with; such_calls).
    eexists; split; [calls_eq|]. split; [such_calls|]. apply analyses_with. such_calls.
Qed.

Lemma X14_group_or_stack_witness :
  let out := run (analyzer.Exec sample_command_env)
                 {| analyzer.self := sample_command "0.7" ""; analyzer.calls := [] |} in
  exists evs,
    analyzer.calls out.1 = ([] ++ evs)%list
    /\ analyzer.self out.1 = sample_command "0.7" ""
    /\ Forall (fun c => ~ group_call c) evs
    /\ (forall an, analyzer.CallAnalyze an ∈ evs ->
          analyzer.Analyzer_Buildpacks an = [] /\ analyzer.Analyzer_Cache an = None).
Proof.
  apply (X14_group_or_stack sample_command_env (sample_command "0.7" "") []
           {| api.major := 0; api.minor := 7 |}).
  reflexivity.
Defined.

(** ** Stack validation: the analyzer and the lifecycle *)

Lemma resolveBuildStack_run (env : main.AnalyzerEnv)
  (stackMD : platform.StackMetadata) (tr : list main.AnalyzerEvent) :
  run (main.analyzeCmd_resolveBuildStack env stackMD) tr
  = ((tr ++ [main.EvGetenv cmd.EnvStackID])%list,
     Returned match getBuildStack (main.os_Getenv env) stackMD with
              | (_, Some e) =>
                  ("", Some (cmd_FailErrCode e CodeInvalidArgs "parse arguments"))
              | (id, None) => (id, None)
              end).
Proof.
  unfold main.analyzeCmd_resolveBuildStack, getBuildStack, run, bind, emit, modify,
    return_.
  by repeat case_bool_decide.
Qed.

Lemma resolveRunImage_frame (env : main.AnalyzerEnv) (a : main.analyzeCmd)
  (stackMD : platform.StackMetadata) (tr : list main.AnalyzerEvent) :
  run (main.analyzeCmd_resolveRunImage env a stackMD) tr
  = ((tr ++ (run (main.analyzeCmd_resolveRunImage env a stackMD) []).1)%list,
     (run (main.analyzeCmd_resolveRunImage env a stackMD) []).2).
Proof.
  unfold main.analyzeCmd_resolveRunImage, run, bind, emit, modify, ret, return_.
  case_bool_decide; [by rewrite app_nil_r|].
  destruct (_ && _).
  - destruct (main.name_ParseReference env _) as [ref [e|]]; [by rewrite <- ?app_assoc|].
    destruct (main.BestRunImageMirror env _ _) as [best [e|]]; [by rewrite <- ?app_assoc|].
    destruct (main.useDaemon a); by rewrite <- ?app_assoc.
  - destruct (main.useDaemon a); by rewrite <- ?app_assoc.
Qed.

(** X15: from platform API 0.7 on, the stack validation of the analyzer
    gives the verdict of [ValidateStack].  Once the stack metadata is read
    (or its file does not exist) and the run image is resolved, the
    analyzer returns what [ValidateStack] returns for that metadata and
    that image; only a missing build stack ID is reported as a failure of
    the arguments. *)
Theorem X15_validateStack_as_ValidateStack (env : main.AnalyzerEnv) (a : main.analyzeCmd)
  (tr : list main.AnalyzerEvent) (stackMD : platform.StackMetadata)
  (derr : option error) (img : imgutil.Image) :
  main.analyzeCmd_supportsStackValidation a = Some true ->
  main.toml_DecodeFile env (main.stackPath a) = (stackMD, derr) ->
  (forall e, derr = Some e -> main.os_IsNotExist env e = true) ->
  (run (main.analyzeCmd_resolveRunImage env a stackMD) []).2 = Returned (Some img, None) ->
  (run (main.analyzeCmd_validateStack env a) tr).2
  = Returned match getBuildStack (main.os_Getenv env) stackMD with
             | (_, Some e) =>
                 Some (cmd_FailErr (cmd_FailErrCode e CodeInvalidArgs "parse arguments")
                                   "resolve stack")
             | (_, None) => ValidateStack (main.os_Getenv env) stackMD img
             end.
Proof.
  intros Hsup Hdec Hnot Himg.
  unfold main.analyzeCmd_validateStack. rewrite Hsup, Hdec.
  unfold ValidateStack.
  cbv beta iota zeta delta [bind ret must emit modify call return_ panic negb].
  assert (Hdecoded :
            match derr with
            | Some err => if main.os_IsNotExist env err then false else true
            | None => false
            end = false).
  { destruct derr as [e|]; [|reflexivity]. by rewrite (Hnot e eq_refl). }
  unfold run at 1.
  destruct derr as [e|].
  - destruct (main.os_IsNotExist env e); [|discriminate Hdecoded].
    rewrite resolveBuildStack_run.
    destruct (getBuildStack (main.os_Getenv env) stackMD) as [id [e1|]]; [reflexivity|].
    rewrite resolveRunImage_frame, Himg.
    destruct (imgutil.Label img platform.StackIDLabel) as [runStackID [e2|]];
      [reflexivity|].
    by repeat case_bool_decide.
  - rewrite resolveBuildStack_run.
    destruct (getBuildStack (main.os_Getenv env) stackMD) as [id [e1|]]; [reflexivity|].
    rewrite resolveRunImage_frame, Himg.
    destruct (imgutil.Label img platform.StackIDLabel) as [runStackID [e2|]];
      [reflexivity|].
    by repeat case_bool_decide.
Qed.

Lemma X15_validateStack_as_ValidateStack_witness :
  (run (main.analyzeCmd_validateStack
          (sample_env (sample_stackMD "bionic" "run" []) "jammy")
          (sample_analyzeCmd "" "" "0.7")) []).2
  = Returned (ValidateStack (sample_getenv "") (sample_stackMD "bionic" "run" [])
                            (sample_image "run" "jammy")).
Proof.
  apply (X15_validateStack_as_ValidateStack
           (sample_env (sample_stackMD "bionic" "run" []) "jammy")
           (sample_analyzeCmd "" "" "0.7") [] (sample_stackMD "bionic" "run" []) None
           (sample_image "run" "jammy"));
    [reflexivity | reflexivity | intros e He; discriminate He | reflexivity].
Defined.

(** X16: when the run image is resolved, an image is opened at most once,
    as the last call: from the daemon if the daemon is used, from the
    registry otherwise, and what the opening gives is the result.  When no
    image is opened (no reference, a previous image that does not parse, no
    mirror), the result is an error and no image. *)
Theorem X16_run_image_opened_last (env : main.AnalyzerEnv) (a : main.analyzeCmd)
  (md : platform.StackMetadata) (tr : list main.AnalyzerEvent) :
  let out := run (main.analyzeCmd_resolveRunImage env a md) tr in
  exists evs,
    out.1 = (tr ++ evs)%list
    /\ ((Forall (fun e => ~ open_event e) evs
         /\ exists err, out.2 = Returned (None, Some err))
        \/ (exists pre ref,
              evs = (pre ++ [if main.useDaemon a then main.EvLocalNewImage ref
                             else main.EvRemoteNewImage ref])%list
              /\ Forall (fun e => ~ open_event e) pre
              /\ out.2 = Returned (if main.useDaemon a then main.local_NewImage env ref
                                   else main.remote_NewImage env ref))).
Proof.
  intros out. subst out.
  unfold main.analyzeCmd_resolveRunImage, run, bind, emit, modify, ret, return_.
  case_bool_decide as Href; cbn [fst snd].
  { exists []. split; [by rewrite app_nil_r|]. left. split; [constructor | by eexists]. }
  destruct (_ && _).
  - destruct (main.name_ParseReference env _) as [ref [e|]]; cbn [fst snd].
    { eexists. split; [reflexivity|]. left.
      split; [repeat constructor; simpl; tauto | by eexists]. }
    destruct (main.BestRunImageMirror env _ _) as [best [e|]]; cbn [fst snd].
    { eexists. split; [by rewrite <- app_assoc|]. left.
      split; [repeat constructor; simpl; tauto | by eexists]. }
    exists ([main.EvParseReference (main.imageName a);
             main.EvBestRunImageMirror (main.RegistryStr ref)]
            ++ [if main.useDaemon a then main.EvLocalNewImage best
                else main.EvRemoteNewImage best])%list.
    split; [destruct (main.useDaemon a); by rewrite <- ?app_assoc|].
    right. eexists _, best. split; [reflexivity|].
    split; [repeat constructor; simpl; tauto|].
    by destruct (main.useDaemon a).
  - eexists ([] ++ [_])%list.
    split; [|right; eexists [], _; split; [reflexivity|]; split; [constructor|]].
    + destruct (main.useDaemon a); reflexivity.
    + by destruct (main.useDaemon a).
Qed.
